(* ===== verification/_CoqProject ===== *)
-Q . S2P
Prelude.v
Message.v
MessageChain.v
Registry.v
World.v
Endpoint.v
HttpServer.v
RequestHandler.v
Client.v
Wire.v
KeepAlive.v
Orchestrator.v
EndToEnd.v
ConnThread.v
Threads.v
Appends.v
Printing.v
Response.v
BadRequest.v
Http09.v
