(* ===== verification/Prelude.v ===== *)
(** * A verification development for [src/deproxy.py] (pydeproxy)

    ** The program
    [deproxy.py] is an HTTP test double.  A [Deproxy] object owns a
    registry [_message_chains] from request id to [MessageChain] and a list
    of endpoints.  [make_request] draws a fresh id ([uuid4]), writes it into
    the outbound headers under [Request-ID], registers a new chain carrying
    the caller's handler, performs the HTTP call, unregisters the id and
    stores the sent request and received response on the chain.  Each
    endpoint ([DeproxyEndpoint], an [HTTPServer] with one thread per
    connection) runs [DeproxyRequestHandler.handle_one_request] on every
    request: it looks the [Request-ID] up in the registry, runs the chain's
    handler (or [default_handler]), echoes the id on the response, appends
    a [Handling] to the chain and writes the response.  The registry is the
    only state the client side and the server side share.

    ** Files, in dependency order
    - [Prelude.v] (this file): the Python method monad [PyM S A] (state
      passing, exceptions that keep the state reached, and [Blocked] for a
      call that never returns), its notations in [py_scope], ASCII case
      folding, two program-logic predicates with their bind/try rules
      ([raises_only]: which exceptions a method can raise; [stable]: a
      preorder every step respects), the hint databases [deproxy] and
      [py] and the splitting tactics.
    - [Message.v]: the namedtuples [Request], [Response], [Handling]
      (lines 14-16), a request's body as the string sent or the socket
      file object received ([Body]), [handler2], [default_handler], the
      header name (lines 23-32), response headers as the handler's dict
      ([gmap]) and inbound headers as [mimetools.Message] lookups.
    - [MessageChain.v]: [MessageChain] (lines 34-42), its lock-protected
      [add_handling], its finalization (lines 68-69), and the heap of chain
      objects that models their sharing.
    - [Registry.v]: the [Deproxy] record and [add/del/get_message_chain]
      (lines 44-93); Section [AbstractRegistry]: the registry contract of
      spec 4.1 as a step function on partial maps and the refinement.
    - [World.v]: the whole program state: the [Deproxy], the chain heap, the
      heap of dict objects (the default [headers={}] of [make_request] is
      the one at [make_request_default_headers]), bound addresses, the
      uuid draws.
    - [Endpoint.v]: [add_endpoint], [DeproxyEndpoint.__init__],
      [Deproxy.__init__] (lines 45-51, 73-78, 96-107).
    - [HttpServer.v]: the [BaseHTTPServer]/[rfc822] collaborator (Python
      2.7): the connection [Conn], bounded [readline], reads and writes
      that wait ([wait_exn]: [socket.timeout] on a socket with a timeout,
      [Blocked] on one without, which is what this program uses),
      [parse_request] with its error messages, the header block, the
      write calls, [send_error] and its HTML page.
    - [RequestHandler.v]: [handle_one_request] (lines 131-187), split along
      the code into [handle_requestline], [handle_request],
      [resolve_handler], [echo_request_id], [record_handling], [respond];
      [DeproxyRequestHandler.handle] (lines 127-129) and the inherited
      loop; Section [ParsedRequest] for the theorems that share a parsed
      request.
    - [Client.v]: the [requests]/[httplib] collaborator: [req.headers],
      the lines [httplib] adds on the wire ([wire_headers]: [Host],
      [Accept-Encoding], [Content-Length]), the request bytes, the
      response read back (reason stripped, names lowercased, repeated
      names joined) and when [httplib] can finish reading it ([framed]).
    - [Wire.v]: the request bytes read back by [handle_one_request]
      through [readline], the [rfc822] header reader and [parse_request]:
      the round trip for well-formed method, path and headers
      ([wf_request]).
    - [KeepAlive.v]: a handler answering [Connection: keep-alive]: the
      connection stays open, its unread body is read as a next request,
      and a round that finds no complete line waits for ever.
    - [Orchestrator.v]: [make_request] (lines 53-71) with its HTTP call
      ([http_request]) run through the endpoint's [handle], and [run()]
      (lines 220-244) without its printing.
    - [EndToEnd.v]: [make_request] composed with the round trip: what the
      returned chain records for a sendable call.
    - [ConnThread.v]: the thread [ThreadingMixIn] runs for a connection.
      A round of [handle_one_request] is cut at its two shared accesses:
      [read_stage] (lines 141-163, ending with [get_message_chain] under
      the registry lock) and [respond_stage] (lines 165-181, starting with
      [add_handling] under the chain's lock); [conn_step] runs one stage
      inside the [try] of line 140 and the loop test of [handle].
    - [Threads.v]: the interleaving of the threads.  Actors are the
      [make_request] callers ([client_step]: lines 56-57, then 59-60 under
      the registry lock; the outbound call cut where [req.send()] blocks:
      [client_send] opens a connection and an endpoint thread is spawned
      for it, [client_receive] reads the response and runs lines 66-71)
      and the connection threads.  The system carries a ghost log of the
      [add_handling] calls.
    - [Appends.v]: the invariant relating the chains to that log.
    - [Printing.v]: [log] and the three printing functions (lines 18-21,
      189-218), stdout being the state of the method monad.
    - [Response.v]: what [httplib] reads back from the bytes lines 175-181
      write ([received_headers]: the [Server] and [Date] lines, then the
      handler's, names lowercased), and the caller's view end to end.
    - [BadRequest.v]: the round on a request line [parse_request]
      rejects, and the rounds that read no request line.
    - [Http09.v]: the round on a two-word [GET <path>] line, which
      [parse_request] accepts as HTTP/0.9.

    ** What is proved
    - Correlation on the server (RequestHandler.v): a request naming a
      registered chain is answered by its handler with the id echoed and
      recorded on exactly that chain ([handle_one_request_matched]);
      serving any connection only appends, to each chain, handlings of
      requests whose id the registry maps to it, with the id echoed
      ([handle_srv_ext]); the unregistered-id and no-id answers
      ([handle_one_request_unregistered], [handle_one_request_no_id]); the
      414 answer to an oversized request line ([handle_one_request_414]);
      the handling recorded before a write that times out, on a socket
      with a timeout ([handle_one_request_matched_timeout]); [handle]
      either ends with the connection closed or waits for ever
      ([handle_ends]).
    - [make_request] (Orchestrator.v): the returned chain holds only
      handlings for its own id ([make_request_correlated]); success leaves
      no registry entry ([make_request_unregisters]); an exception of the
      call leaves it ([make_request_raise_leaks]); the shared default
      dict keeps the last id ([make_request_defaults_keeps_id]).
    - The registry refines the spec 4.1 contract on fresh ids
      ([registry_refines_contract]); [add_endpoint] keeps the endpoint
      list duplicate-free and bound ([add_endpoint_wf]).
    - The wire (Wire.v, EndToEnd.v): the endpoint receives the request the
      client serialized, with header values stripped and the socket file
      object as body ([handle_one_request_delivers]); a completed sendable
      call's chain records as sent the request built from [req.headers]
      and starts with the endpoint's receipt of it with the wire headers,
      answered by its own handler ([make_request_delivers]).
    - One request per connection (KeepAlive.v): a handler answering
      [Connection: keep-alive] makes [handle] record a request-shaped
      body as a second request, on the chain its own id names
      ([handle_reads_body_as_request]).
    - Threads (Threads.v, Appends.v): a connection thread that resolved a
      chain appends to it with no further check, also after the caller
      unregistered, finalized and returned it ([late_append_after_return]);
      under every interleaving every chain holds its initial handlings
      followed by exactly the appends the connection threads made to it,
      in lock order ([appends_serialized]).
    - Printing (Printing.v): the output of [print_message_chain] on a
      finished chain ([print_message_chain_finished]).
    - The response (Response.v): parsing what the endpoint wrote gives
      back the code, body and every header of the response and the
      message stripped, with [Server] and [Date] added
      ([response_roundtrip]); a served call returns and its
      [received_response] is what its own handler answered to the request
      received, with the id echoed ([make_request_receives]); a handler's
      own [Server] header reaches the caller joined after the library's
      ([handler_server_header_joined]); a handler answering
      [Connection: keep-alive] without [Content-Length] makes the call
      wait for ever with its id registered ([make_request_keepalive_blocks]).
    - A malformed request line (BadRequest.v) is answered with 400 or 505
      and [parse_request]'s message while [request_version] is still
      ["HTTP/0.9"], so only the error page is written, with no status
      line; nothing else changes ([handle_one_request_malformed]); a round
      that reads no request line, because the stream ended or the socket
      timed out, changes nothing, writes nothing and closes
      ([handle_one_request_no_line]); an HTTP/0.9 request is recorded like
      any other but answered with the body alone, so the echoed id never
      reaches the client ([handle_one_request_http09]).

    ** Bounds and fuel
    [readline(65537)] and the test [len > 65536] use [max_requestline :=
    65536] (kept as a constant so that arithmetic does not unfold it).  The
    header block loop of [rfc822] gets [length (rfile) + 1] rounds and the
    connection loop [handle] the same: every round that does not stop
    consumes at least one character ([rfile_readline_consumes]), so the
    loops exit by their own tests ([handle_ends]): the fuel never runs out
    before a round closes the connection or waits for ever.  The thread
    system [Threads.v] is a step relation and needs no fuel.

    ** Not modelled
    The [log] calls inside the other functions are not sequenced into
    their models: they only write stdout, which no part of the program
    reads; [log] itself and the printing functions are modelled.
    [add_endpoint] is not an actor of the thread system: it runs under
    [endpoint_lock] as one step, and its callers ([Deproxy.__init__],
    [run]) call it before any request.  The [serve_forever] accept loop
    is [open_connection] spawning a connection thread; listener shutdown
    does not exist in the code.  What Python does not determine is a
    parameter: dict iteration order and the [str] of a socket file object
    when printing; [uuid4] draws are modelled as a counter whose images
    are distinct.  The handler's headers are written in the order of
    [map_to_list]; the theorems of Response.v assume distinct lowercased
    names, under which that order does not matter, and the collision
    they do state is with [Server], which line 175 always writes first.
    [parse_request] sets [command] to [''] where Python leaves [None]
    until the line is checked; no branch of the program reads it then.
    [echo_request_id] returns the response with the header set where
    line 168 mutates the handler's [Response] dict in place; the two
    differ only for a response object shared between calls, which neither
    handler of the program returns.
    The HTTP libraries ([BaseHTTPServer], [rfc822]/[mimetools],
    [requests]/[httplib]) are not code of the repository; they are
    modelled as far as the program uses them, which is why their
    components stay partly modelled.  Left out: redirects,
    [log_request]/[log_error] (stderr only), [resp.text]'s charset
    decoding (the identity on the ASCII bodies here), what [httplib]
    reads of a second response on a kept connection beyond its body
    bytes, and its lenient reading of an answer without a status line as
    HTTP/0.9 (the model reports it as [BadStatusLine]). *)

From stdpp Require Export base gmap strings list.
From Stdlib Require Export Ascii String.

Declare Scope py_scope.
Delimit Scope py_scope with py.

Create HintDb deproxy discriminated.
Create Rewrite HintDb py.

(** ** Python exceptions raised in the modelled code *)

Inductive exn : Type :=
| KeyError (key : string)          (** [del d[k]] on an absent key *)
| SocketTimeout                    (** [socket.timeout] on a read or a write *)
| SocketError (reason : string)    (** [socket.error]: bind failure *)
| ConnectionError (reason : string) (** [requests]: the outbound call failed *)
| AttributeError (name : string)   (** an attribute read before it was set *)
| Blocked.                         (** not a Python exception: the call never
                                       returns (a socket read with no data or a
                                       write with no room, on a socket with no
                                       timeout); no [except] clause catches it *)

#[export] Instance exn_eq_dec : EqDecision exn.
Proof. solve_decision. Defined.

(** ** The result of a Python call and the method monad *)

Inductive result (A : Type) : Type :=
| Ok (a : A)
| Raise (e : exn).
Arguments Ok {A} a.
Arguments Raise {A} e.

Definition PyM (S A : Type) : Type := S -> S * result A.

Definition py_ret {S A} (a : A) : PyM S A := fun s => (s, Ok a).
Definition py_raise {S A} (e : exn) : PyM S A := fun s => (s, Raise e).
Definition py_bind {S A B} (m : PyM S A) (k : A -> PyM S B) : PyM S B :=
  fun s => match m s with
           | (s', Ok a) => k a s'
           | (s', Raise e) => (s', Raise e)
           end.
Definition py_get {S} : PyM S S := fun s => (s, Ok s).
Definition py_put {S} (s : S) : PyM S unit := fun _ => (s, Ok tt).
Definition py_modify {S} (f : S -> S) : PyM S unit := fun s => (f s, Ok tt).

(** [try: m except e if catches e: h e]: the state reached when the
    exception was raised is the state the handler starts from. *)
Definition py_try {S A} (catches : exn -> bool) (m : PyM S A)
    (h : exn -> PyM S A) : PyM S A :=
  fun s => match m s with
           | (s', Raise e) => if catches e then h e s' else (s', Raise e)
           | r => r
           end.

Notation "x <- m ;; k" := (py_bind m (fun x => k))
  (at level 100, m at next level, right associativity) : py_scope.
Notation "'raise' e" := (py_raise e) (at level 10) : py_scope.
Notation "'return' a" := (py_ret a) (at level 10) : py_scope.

(** ** Monad laws, as rewriting hints *)

Lemma py_bind_ret {S A B} (a : A) (k : A -> PyM S B) s :
  py_bind (py_ret a) k s = k a s.
Proof. reflexivity. Qed.

Lemma py_bind_raise {S A B} e (k : A -> PyM S B) s :
  py_bind (py_raise e) k s = (s, Raise e).
Proof. reflexivity. Qed.

Lemma py_bind_ok {S A B} (m : PyM S A) (k : A -> PyM S B) s s' a :
  m s = (s', Ok a) -> py_bind m k s = k a s'.
Proof. intros H. unfold py_bind. by rewrite H. Qed.

Lemma py_bind_err {S A B} (m : PyM S A) (k : A -> PyM S B) s s' e :
  m s = (s', Raise e) -> py_bind m k s = (s', Raise e).
Proof. intros H. unfold py_bind. by rewrite H. Qed.

Lemma py_bind_assoc {S A B C} (m : PyM S A) (k : A -> PyM S B)
    (k' : B -> PyM S C) s :
  py_bind (py_bind m k) k' s = py_bind m (fun a => py_bind (k a) k') s.
Proof. unfold py_bind. by destruct (m s) as [? []]. Qed.

#[export] Hint Rewrite @py_bind_ret @py_bind_raise @py_bind_assoc : py.

Ltac py_unfold :=
  unfold py_bind, py_ret, py_raise, py_get, py_put, py_modify, py_try in *.

(** ** ASCII case folding, for [mimetools.Message] header names *)

Definition ascii_lower (c : ascii) : ascii :=
  let n := nat_of_ascii c in
  if (65 <=? n) && (n <=? 90) then ascii_of_nat (n + 32) else c.

Fixpoint str_lower (s : string) : string :=
  match s with
  | EmptyString => EmptyString
  | String c s' => String (ascii_lower c) (str_lower s')
  end.

(** Case-insensitive equality of two header names ([name.lower()] on
    both sides, as [rfc822.Message] does). *)
Definition str_eqi (a b : string) : bool :=
  bool_decide (str_lower a = str_lower b).

Lemma str_eqi_refl a : str_eqi a a = true.
Proof. unfold str_eqi. by apply bool_decide_eq_true_2. Qed.

Lemma str_eqi_sym a b : str_eqi a b = str_eqi b a.
Proof. unfold str_eqi. apply bool_decide_ext. split; auto. Qed.

Lemma str_lower_idem s : str_lower (str_lower s) = str_lower s.
Proof.
  induction s as [|c s IH]; [done|]. simpl. rewrite IH. f_equal.
  destruct c as [[] [] [] [] [] [] [] []]; reflexivity.
Qed.

Lemma str_eqi_lower_l a b : str_eqi (str_lower a) b = str_eqi a b.
Proof. unfold str_eqi. by rewrite str_lower_idem. Qed.

#[export] Hint Resolve str_eqi_refl : deproxy.
#[export] Hint Rewrite str_eqi_refl str_lower_idem : py.

(** ** Generic list lemmas *)

Lemma last_app_single {A} (l : list A) x : last (l ++ [x]) = Some x.
Proof. induction l as [|y l IH]; [done|]. destruct l; simpl in *; auto. Qed.

(** ** Running a method on one component of a product state *)

Definition lift_fst {S T A} (m : PyM S A) : PyM (S * T) A :=
  fun st => let (s', r) := m st.1 in ((s', st.2), r).

Definition lift_snd {S T A} (m : PyM T A) : PyM (S * T) A :=
  fun st => let (t', r) := m st.2 in ((st.1, t'), r).

Lemma lift_fst_run {S T A} (m : PyM S A) s t :
  lift_fst (T:=T) m (s, t) = ((m s).1, t, (m s).2).
Proof. unfold lift_fst. simpl. by destruct (m s). Qed.

Lemma lift_snd_run {S T A} (m : PyM T A) s t :
  lift_snd (S:=S) m (s, t) = ((s, (m t).1), (m t).2).
Proof. unfold lift_snd. simpl. by destruct (m t). Qed.

#[export] Hint Rewrite @lift_fst_run @lift_snd_run : py.

(** ** Which exceptions a method can raise *)

Definition raises_only {S A} (P : exn -> Prop) (m : PyM S A) : Prop :=
  forall s s' e, m s = (s', Raise e) -> P e.

Lemma raises_only_ret {S A} P (a : A) : raises_only (S:=S) P (py_ret a).
Proof. by intros ???. Qed.

Lemma raises_only_raise {S A} (P : exn -> Prop) e : P e -> raises_only (S:=S) (A:=A) P (py_raise e).
Proof. intros ???? [=]; by subst. Qed.

Lemma raises_only_get {S} P : raises_only (S:=S) P py_get.
Proof. by intros ???. Qed.

Lemma raises_only_put {S} P (s : S) : raises_only P (py_put s).
Proof. by intros ???. Qed.

Lemma raises_only_modify {S} P (f : S -> S) : raises_only P (py_modify f).
Proof. by intros ???. Qed.

Lemma raises_only_bind {S A B} P (m : PyM S A) (k : A -> PyM S B) :
  raises_only P m -> (forall a, raises_only P (k a)) -> raises_only P (py_bind m k).
Proof.
  intros Hm Hk s s' e. unfold py_bind.
  destruct (m s) as [s1 [a|e1]] eqn:E; [apply Hk|intros [=]; subst; eauto].
Qed.

Lemma raises_only_lift_fst {S T A} P (m : PyM S A) :
  raises_only P m -> raises_only P (lift_fst (T:=T) m).
Proof.
  intros Hm [s t] s' e. unfold lift_fst. simpl.
  destruct (m s) as [? []] eqn:E; intros [=]; subst; eauto.
Qed.

Lemma raises_only_lift_snd {S T A} P (m : PyM T A) :
  raises_only P m -> raises_only P (lift_snd (S:=S) m).
Proof.
  intros Hm [s t] s' e. unfold lift_snd. simpl.
  destruct (m t) as [? []] eqn:E; intros [=]; subst; eauto.
Qed.

(** A [try] whose handler raises nothing raises only what it lets through. *)
Lemma raises_only_try {S A} (P : exn -> Prop) catches (m : PyM S A) h :
  raises_only (fun e => P e \/ catches e = true) m ->
  (forall e, raises_only P (h e)) ->
  raises_only P (py_try catches m h).
Proof.
  intros Hm Hh s s' e. unfold py_try.
  destruct (m s) as [s1 [a|e1]] eqn:E; [by intros [=]|].
  destruct (catches e1) eqn:Ec; [apply Hh|].
  intros [=]; subst. destruct (Hm _ _ _ E); [done|congruence].
Qed.

#[export] Hint Resolve raises_only_ret raises_only_get raises_only_put raises_only_modify
  raises_only_lift_fst raises_only_lift_snd : deproxy.

Lemma raises_only_weaken {S A} (P Q : exn -> Prop) (m : PyM S A) :
  (forall e, P e -> Q e) -> raises_only P m -> raises_only Q m.
Proof. intros HPQ Hm s s' e H. eauto. Qed.

Lemma raises_only_none {S A} (P : exn -> Prop) (m : PyM S A) :
  raises_only (fun _ => False) m -> raises_only P m.
Proof. intros Hm s s' e H. destruct (Hm _ _ _ H). Qed.

#[export] Hint Resolve raises_only_none | 5 : deproxy.

(** A method that can raise nothing returns normally. *)
Lemma raises_nothing_ok {S A} (m : PyM S A) s :
  raises_only (fun _ => False) m -> exists a, (m s).2 = Ok a.
Proof.
  intros H. destruct (m s) as [s' [a|e]] eqn:E; [by eexists|].
  exfalso. exact (H _ _ _ E).
Qed.

(** ** A preorder every step of a method respects *)

Section Stable.
Context {S : Type} (R : S -> S -> Prop) `{!PreOrder R}.

Definition stable {A} (m : PyM S A) : Prop := forall s, R s (m s).1.

Lemma stable_ret {A} (a : A) : stable (py_ret a).
Proof. intros s. simpl. reflexivity. Qed.

Lemma stable_raise {A} e : stable (A:=A) (py_raise e).
Proof. intros s. simpl. reflexivity. Qed.

Lemma stable_get : stable py_get.
Proof. intros s. simpl. reflexivity. Qed.

Lemma stable_bind {A B} (m : PyM S A) (k : A -> PyM S B) :
  stable m -> (forall a, stable (k a)) -> stable (py_bind m k).
Proof.
  intros Hm Hk s. unfold py_bind. specialize (Hm s).
  destruct (m s) as [s1 [a|e]]; simpl in *; [|done].
  etrans; [exact Hm|apply Hk].
Qed.

Lemma stable_try {A} catches (m : PyM S A) h :
  stable m -> (forall e, stable (h e)) -> stable (py_try catches m h).
Proof.
  intros Hm Hh s. unfold py_try. specialize (Hm s).
  destruct (m s) as [s1 [a|e]]; simpl in *; [done|].
  destruct (catches e); simpl; [|done]. etrans; [exact Hm|apply Hh].
Qed.
End Stable.

Lemma stable_modify {S} (R : S -> S -> Prop) (f : S -> S) :
  (forall s, R s (f s)) -> stable R (py_modify f).
Proof. intros H s. apply H. Qed.

Lemma stable_lift_snd {S T A} (R : T -> T -> Prop) (m : PyM T A) :
  stable R m -> stable (fun st st' : S * T => R st.2 st'.2) (lift_snd m).
Proof. intros H [s t]. unfold lift_snd. simpl. specialize (H t). by destruct (m t). Qed.

Lemma stable_lift_fst {S T A} (R : T -> T -> Prop) `{!Reflexive R} (m : PyM S A) :
  stable (fun st st' : S * T => R st.2 st'.2) (lift_fst m).
Proof. intros [s t]. unfold lift_fst. simpl. destruct (m s). simpl. reflexivity. Qed.

#[export] Hint Resolve stable_lift_snd stable_lift_fst : deproxy.
#[export] Hint Extern 1 (stable _ (py_ret _)) => refine (stable_ret _ _) : deproxy.
#[export] Hint Extern 1 (stable _ (py_raise _)) => refine (stable_raise _ _) : deproxy.
#[export] Hint Extern 1 (stable _ py_get) => refine (stable_get _) : deproxy.

(** Split a goal [P (method)] along the method's binds, matches and
    conditionals, leaving the primitive steps to [eauto with deproxy]. *)
Ltac py_split_with bind_tac :=
  repeat match goal with
  | |- forall _, _ => intros
  | |- _ (py_bind _ _) => bind_tac
  | |- _ (match ?x with _ => _ end) => destruct x
  | |- _ (if ?b then _ else _) => destruct b
  | |- _ (let '(_, _) := ?x in _) => destruct x
  end.

(** ** Strings *)

Lemma str_length_app (s1 s2 : string) :
  String.length (s1 ++ s2)%string = String.length s1 + String.length s2.
Proof. induction s1 as [|c s1 IH]; simpl; auto. Qed.

Lemma str_app_cons c (s1 s2 : string) : (String c s1 ++ s2)%string = String c (s1 ++ s2).
Proof. reflexivity. Qed.

Lemma str_app_nil_l (s : string) : ("" ++ s)%string = s.
Proof. reflexivity. Qed.

Lemma str_app_nil_r (s : string) : (s ++ "")%string = s.
Proof. induction s as [|c s IH]; [done|]. by rewrite str_app_cons, IH. Qed.

Lemma str_app_assoc (s1 s2 s3 : string) : ((s1 ++ s2) ++ s3)%string = (s1 ++ s2 ++ s3)%string.
Proof. induction s1 as [|c s1 IH]; [done|]. by rewrite !str_app_cons, IH. Qed.

#[export] Hint Rewrite str_app_cons str_app_nil_l str_app_nil_r str_app_assoc : py.

(** [String.concat ""] (Python's [''.join]) one piece at a time. *)
Lemma str_concat_cons (x : string) (xs : list string) :
  String.concat "" (x :: xs) = (x ++ String.concat "" xs)%string.
Proof. destruct xs; simpl; [by rewrite str_app_nil_r|reflexivity]. Qed.

(** Every character satisfies [p]: [all(p(c) for c in s)]. *)
Fixpoint str_forall (p : ascii -> bool) (s : string) : bool :=
  match s with
  | EmptyString => true
  | String c s' => p c && str_forall p s'
  end.

Lemma str_forall_app p (s1 s2 : string) :
  str_forall p (s1 ++ s2) = str_forall p s1 && str_forall p s2.
Proof. induction s1 as [|c s1 IH]; [done|]. rewrite str_app_cons. simpl. by rewrite IH, andb_assoc. Qed.

Lemma str_forall_impl (p q : ascii -> bool) s :
  (forall c, p c = true -> q c = true) -> str_forall p s = true -> str_forall q s = true.
Proof.
  intros Hpq. induction s as [|c s IH]; simpl; [done|].
  rewrite !andb_true_iff. intros [??]; auto.
Qed.

#[export] Hint Rewrite str_forall_app : py.

Ltac py_split bind_lemma := py_split_with ltac:(apply bind_lemma).
