(* ===== verification/Message.v ===== *)
(** * Message: the data of [src/deproxy.py] (lines 14-32)

    The three namedtuples [Request], [Response] and [Handling], the two
    handler functions of the module ([default_handler], [handler2]), the
    correlation header name, and the two header containers the code uses:
    - a response's headers are a Python dict built by the handler
      ([{'X-Header': 'Value'}]) and updated by [resp.headers[k] = v]: a
      [gmap string string];
    - an inbound request's headers are a [mimetools.Message] parsed from the
      wire: the header lines in arrival order, duplicates allowed, looked up
      case-insensitively, the last line of a name winning (as
      [rfc822.Message.readheaders] stores them).
    A request's body is a string on the request sent and the socket file
    object on a request received ([Body]). *)

From S2P Require Import Prelude.
Local Open Scope string_scope.

Abbreviation header_list := (list (string * string)).
Abbreviation header_dict := (gmap string string).

(** A [server_address] tuple [(host, port)]. *)
Abbreviation address := (string * nat)%type.

(** A request's [body]: a string (the [req.data] of the request
    [make_request] sent, line 68), or the connection's socket file object
    (line 155 stores [self.rfile] itself), given by the bytes it still
    holds unread when the [Request] is built. *)
Inductive Body :=
| BStr (data : string)
| BFile (unread : string).

#[export] Instance body_eq_dec : EqDecision Body.
Proof. solve_decision. Defined.

(** [Request = namedtuple('Request', ['method', 'path', 'headers', 'body'])] *)
Record Request := mkRequest {
  req_method : string;
  req_path : string;
  req_headers : header_list;
  req_body : Body
}.

(** [Response = namedtuple('Response', ['code', 'message', 'headers', 'body'])] *)
Record Response := mkResponse {
  resp_code : nat;
  resp_message : string;
  resp_headers : header_dict;
  resp_body : string
}.

(** [Handling = namedtuple('Handling', ['endpoint', 'request', 'response'])];
    the endpoint is identified by the address it is bound to. *)
Record Handling := mkHandling {
  handling_endpoint : address;
  handling_request : Request;
  handling_response : Response
}.

(** A handler function: [Request -> Response]. *)
Definition handler := Request -> Response.

(** [def handler2(request): return Response(601, 'Something',
    {'X-Header': 'Value'}, 'this is the body')] *)
Definition handler2 : handler := fun _ =>
  mkResponse 601 "Something" {[ "X-Header" := "Value" ]} "this is the body".

(** [def default_handler(request): return Response(200, 'OK', {}, '')] *)
Definition default_handler : handler := fun _ => mkResponse 200 "OK" ∅ "".

(** [request_id_header_name = 'Request-ID'] *)
Definition request_id_header_name : string := "Request-ID".

(** [resp.headers[name] = value] on the handler's dict. *)
Definition set_header (r : Response) (name value : string) : Response :=
  mkResponse (resp_code r) (resp_message r) (<[name := value]> (resp_headers r))
    (resp_body r).

(** [name in self.headers] on a [mimetools.Message]. *)
Definition msg_contains (h : header_list) (name : string) : bool :=
  existsb (fun kv => str_eqi kv.1 name) h.

(** [self.headers[name]] on a [mimetools.Message]: the value of the last
    line whose name matches case-insensitively. *)
Fixpoint msg_getitem (h : header_list) (name : string) : option string :=
  match h with
  | [] => None
  | (k, v) :: h' =>
      match msg_getitem h' name with
      | Some v' => Some v'
      | None => if str_eqi k name then Some v else None
      end
  end.

(** ** Lemmas on the header containers *)

Lemma msg_contains_getitem h name :
  msg_contains h name = true <-> is_Some (msg_getitem h name).
Proof.
  induction h as [|[k v] h IH]; simpl.
  - split; [done|]. by intros [].
  - rewrite orb_true_iff, IH.
    destruct (msg_getitem h name); [naive_solver|].
    destruct (str_eqi k name); naive_solver.
Qed.

Lemma msg_getitem_app_last h k v name :
  str_eqi k name = true -> msg_getitem (h ++ [(k, v)]) name = Some v.
Proof.
  intros Hk. induction h as [|[k' v'] h IH]; simpl.
  - by rewrite Hk.
  - by rewrite IH.
Qed.

Lemma msg_getitem_app_other h k v name :
  str_eqi k name = false -> msg_getitem (h ++ [(k, v)]) name = msg_getitem h name.
Proof.
  intros Hk. induction h as [|[k' v'] h IH]; simpl.
  - by rewrite Hk.
  - by rewrite IH.
Qed.

Lemma set_header_lookup r name value :
  resp_headers (set_header r name value) !! name = Some value.
Proof. apply lookup_insert_eq. Qed.

Lemma msg_getitem_Some_in h name v :
  msg_getitem h name = Some v -> exists k, (k, v) ∈ h /\ str_eqi k name = true.
Proof.
  induction h as [|[k' v'] h IH]; simpl; [done|].
  destruct (msg_getitem h name) as [v''|].
  - intros [= ->]. destruct IH as (k & Hin & Hk); [done|]. exists k. split; [by right|done].
  - destruct (str_eqi k' name) eqn:Hk; [|done]. intros [= ->]. exists k'. split; [left|done].
Qed.

(** When every line named [name] carries the value [v] and one does,
    [headers[name]] is [v], whatever the order of the lines. *)
Lemma msg_getitem_all_same h name v :
  Forall (fun kv => str_eqi kv.1 name = true -> kv.2 = v) h ->
  (exists k, (k, v) ∈ h /\ str_eqi k name = true) ->
  msg_getitem h name = Some v.
Proof.
  intros Hall (k & Hin & Hk).
  destruct (msg_getitem h name) as [v'|] eqn:E.
  - destruct (msg_getitem_Some_in h name v' E) as (k' & Hin' & Hk').
    rewrite Forall_forall in Hall. f_equal. exact (Hall (k', v') Hin' Hk').
  - assert (msg_contains h name = true) as Hc.
    { apply existsb_exists. exists (k, v). split; [by apply list_elem_of_In|done]. }
    apply msg_contains_getitem in Hc. rewrite E in Hc. by destruct Hc.
Qed.

#[export] Hint Resolve set_header_lookup msg_getitem_app_last : deproxy.
