(* ===== verification/MessageChain.v ===== *)
(** * MessageChain: the conversation record ([src/deproxy.py] lines 34-42, 59, 68-69)

    A [MessageChain] holds the handler a matched endpoint must run, the
    handlings recorded so far (appended under the chain's own lock, so an
    append is one atomic step) and the two attributes [sent_request] and
    [received_response] that [make_request] sets after the outbound call;
    before that they do not exist on the Python object ([None] here).

    Several actors hold the same chain object (the registry, the caller of
    [make_request], every request handler that looked it up), so the chains
    live in a heap [gmap nat MessageChain] addressed by a [chain_ref], and an
    update through one reference is seen through all of them. *)

From S2P Require Import Prelude Message.

Abbreviation chain_ref := nat.

Record MessageChain := mkMessageChain {
  handler_function : handler;
  handlings : list Handling;
  sent_request : option Request;
  received_response : option Response
}.

Abbreviation chain_heap := (gmap chain_ref MessageChain).

(** [MessageChain.__init__(self, handler_function)] *)
Definition new_message_chain (f : handler) : MessageChain :=
  mkMessageChain f [] None None.

(** [MessageChain.add_handling]: [with self.lock: self.handlings.append(handling)] *)
Definition add_handling (h : Handling) (mc : MessageChain) : MessageChain :=
  mkMessageChain (handler_function mc) (handlings mc ++ [h])
    (sent_request mc) (received_response mc).

(** [message_chain.sent_request = ...; message_chain.received_response = ...]
    (lines 68-69, after the chain was unregistered). *)
Definition finalize (req : Request) (resp : Response) (mc : MessageChain) : MessageChain :=
  mkMessageChain (handler_function mc) (handlings mc) (Some req) (Some resp).

(** ** The heap of chain objects *)

(** [MessageChain(handler_function)] allocates a fresh object: the first
    reference not yet used. *)
Definition heap_fresh (hp : chain_heap) : chain_ref :=
  S (max_list (elements (dom hp))).

Definition heap_alloc (mc : MessageChain) (hp : chain_heap) : chain_ref * chain_heap :=
  let r := heap_fresh hp in (r, <[r := mc]> hp).

(** [message_chain.add_handling(h)] through a reference. *)
Definition heap_add_handling (r : chain_ref) (h : Handling) (hp : chain_heap) : chain_heap :=
  alter (add_handling h) r hp.

(** ** Lemmas *)

Lemma heap_fresh_free hp : hp !! heap_fresh hp = None.
Proof.
  unfold heap_fresh. apply not_elem_of_dom_1. intros Hin.
  apply elem_of_elements in Hin. apply max_list_elem_of_le in Hin. lia.
Qed.

Lemma heap_alloc_lookup mc hp :
  (heap_alloc mc hp).2 !! (heap_alloc mc hp).1 = Some mc.
Proof. apply lookup_insert_eq. Qed.

Lemma heap_alloc_other mc hp r :
  is_Some (hp !! r) -> (heap_alloc mc hp).2 !! r = hp !! r.
Proof.
  intros Hr. simpl. apply lookup_insert_ne. intros <-.
  rewrite heap_fresh_free in Hr. by destruct Hr.
Qed.

Lemma add_handling_handlings h mc : handlings (add_handling h mc) = handlings mc ++ [h].
Proof. reflexivity. Qed.

Lemma heap_add_handling_other r r' h hp :
  r <> r' -> heap_add_handling r h hp !! r' = hp !! r'.
Proof. intros. by apply lookup_alter_ne. Qed.

Lemma heap_add_handling_same r h hp :
  heap_add_handling r h hp !! r = add_handling h <$> hp !! r.
Proof. unfold heap_add_handling. by rewrite lookup_alter, decide_True. Qed.

Lemma heap_add_handling_insert r h mc hp :
  hp !! r = Some mc -> heap_add_handling r h hp = <[r := add_handling h mc]> hp.
Proof.
  intros Hr. apply map_eq. intros i. unfold heap_add_handling.
  rewrite lookup_alter, lookup_insert. case_decide; subst; [by rewrite Hr|done].
Qed.

#[export] Hint Resolve heap_fresh_free heap_alloc_lookup : deproxy.
#[export] Hint Rewrite heap_add_handling_same add_handling_handlings : py.
