(* ===== verification/Registry.v ===== *)
(** * Registry: the correlation registry of [Deproxy] ([src/deproxy.py] lines 44-51, 80-93)

    The [Deproxy] object keeps [_message_chains], a dict from request id
    to chain object guarded by [message_chains_lock], and [_endpoints], the
    list of endpoints guarded by [endpoint_lock].  Every method body runs
    under its lock, so each method is one atomic [PyM Deproxy] step.

    The section [AbstractRegistry] states the contract of spec §4.1 (register
    fails on a duplicate id, unregister fails on an absent id, lookup) as a
    step function on partial maps, and proves that the three methods refine
    it for every call sequence that registers only fresh ids, which is how
    [make_request] uses them.  On a duplicate id [add_message_chain]
    overwrites silently instead of failing. *)

From S2P Require Import Prelude Message MessageChain.
Local Open Scope py_scope.

Record Deproxy := mkDeproxy {
  message_chains : gmap string chain_ref;
  endpoints : list address
}.

(** [Deproxy.__init__] before the optional [add_endpoint]. *)
Definition deproxy_init : Deproxy := mkDeproxy ∅ [].

(** [with self.message_chains_lock: self._message_chains[request_id] = message_chain] *)
Definition add_message_chain (request_id : string) (mc : chain_ref) : PyM Deproxy unit :=
  py_modify (fun d => mkDeproxy (<[request_id := mc]> (message_chains d)) (endpoints d)).

(** [with self.message_chains_lock: del self._message_chains[request_id]];
    [del] raises [KeyError] on an absent key. *)
Definition del_message_chain (request_id : string) : PyM Deproxy unit :=
  fun d => match message_chains d !! request_id with
           | Some _ => (mkDeproxy (delete request_id (message_chains d)) (endpoints d), Ok tt)
           | None => (d, Raise (KeyError request_id))
           end.

(** [get_message_chain]: the chain, or [None] when the id is absent. *)
Definition get_message_chain (request_id : string) : PyM Deproxy (option chain_ref) :=
  fun d => (d, Ok (message_chains d !! request_id)).

(** ** Functional behaviour of the three methods *)

Lemma get_after_add id r d :
  (py_bind (add_message_chain id r) (fun _ => get_message_chain id) d).2 = Ok (Some r).
Proof. simpl. by rewrite lookup_insert_eq. Qed.

Lemma del_message_chain_absent id d :
  message_chains d !! id = None -> del_message_chain id d = (d, Raise (KeyError id)).
Proof. intros H. unfold del_message_chain. by rewrite H. Qed.

Lemma del_message_chain_present id r d :
  message_chains d !! id = Some r ->
  del_message_chain id d = (mkDeproxy (delete id (message_chains d)) (endpoints d), Ok tt).
Proof. intros H. unfold del_message_chain. by rewrite H. Qed.

(** The registry methods never touch the endpoint list. *)
Lemma add_message_chain_endpoints id r d :
  endpoints (add_message_chain id r d).1 = endpoints d.
Proof. reflexivity. Qed.

Lemma del_message_chain_endpoints id d :
  endpoints (del_message_chain id d).1 = endpoints d.
Proof. unfold del_message_chain. by destruct (_ !! _). Qed.

#[export] Hint Resolve del_message_chain_absent del_message_chain_present : deproxy.

(** ** The contract of spec §4.1 and the refinement *)

Section AbstractRegistry.

(** The abstract registry: a partial function from ids to chains. *)
Definition areg := string -> option chain_ref.

Definition aupd (m : areg) (id : string) (v : option chain_ref) : areg :=
  fun k => if decide (k = id) then v else m k.

Inductive reg_call :=
| Register (id : string) (r : chain_ref)
| Unregister (id : string)
| Lookup (id : string).

Inductive reg_error := DuplicateIdError | NotFoundError.

Inductive reg_reply :=
| Done
| Found (o : option chain_ref)
| Failed (e : reg_error).

(** Spec §4.1: [register] fails on a present id, [unregister] on an
    absent one. *)
Definition spec_step (c : reg_call) (m : areg) : areg * reg_reply :=
  match c with
  | Register id r =>
      match m id with
      | Some _ => (m, Failed DuplicateIdError)
      | None => (aupd m id (Some r), Done)
      end
  | Unregister id =>
      match m id with
      | Some _ => (aupd m id None, Done)
      | None => (m, Failed NotFoundError)
      end
  | Lookup id => (m, Found (m id))
  end.

(** The call of the corresponding [Deproxy] method, its [KeyError]
    read as [NotFoundError]. *)
Definition impl_step (c : reg_call) (d : Deproxy) : Deproxy * reg_reply :=
  match c with
  | Register id r => ((add_message_chain id r d).1, Done)
  | Unregister id =>
      match del_message_chain id d with
      | (d', Ok _) => (d', Done)
      | (d', Raise _) => (d', Failed NotFoundError)
      end
  | Lookup id => (d, Found (message_chains d !! id))
  end.

(** The abstraction relation: the dict has the abstract map's lookups. *)
Definition reg_abs (d : Deproxy) (m : areg) : Prop :=
  forall id, message_chains d !! id = m id.

(** A call sequence that registers only ids absent at that point. *)
Definition fresh_call (c : reg_call) (m : areg) : Prop :=
  match c with Register id _ => m id = None | _ => True end.

Fixpoint run_impl (cs : list reg_call) (d : Deproxy) : Deproxy * list reg_reply :=
  match cs with
  | [] => (d, [])
  | c :: cs' => let (d1, o) := impl_step c d in
                let (d2, os) := run_impl cs' d1 in (d2, o :: os)
  end.

Fixpoint run_spec (cs : list reg_call) (m : areg) : areg * list reg_reply :=
  match cs with
  | [] => (m, [])
  | c :: cs' => let (m1, o) := spec_step c m in
                let (m2, os) := run_spec cs' m1 in (m2, o :: os)
  end.

Fixpoint fresh_calls (cs : list reg_call) (m : areg) : Prop :=
  match cs with
  | [] => True
  | c :: cs' => fresh_call c m /\ fresh_calls cs' (spec_step c m).1
  end.

Lemma impl_step_refines c d m :
  reg_abs d m -> fresh_call c m ->
  reg_abs (impl_step c d).1 (spec_step c m).1 /\ (impl_step c d).2 = (spec_step c m).2.
Proof.
  intros Habs Hfresh. destruct c as [id r|id|id]; simpl in *.
  - rewrite Hfresh. split; [|done]. intros k. unfold aupd, add_message_chain, py_modify. simpl.
    rewrite lookup_insert. case_decide; case_decide; subst; by auto.
  - unfold del_message_chain. rewrite Habs.
    destruct (m id) eqn:E; simpl; split; auto.
    intros k. unfold aupd. simpl. rewrite lookup_delete.
    case_decide; case_decide; subst; by auto.
  - by rewrite Habs.
Qed.

(** C6: the registry methods refine the registry contract of spec §4.1 on
    every call sequence that registers only fresh ids: started from
    related states, the dict and the abstract map stay related and every
    call gets the reply the contract prescribes, [KeyError] standing for
    [NotFoundError]. *)
Theorem registry_refines_contract cs d m :
  reg_abs d m -> fresh_calls cs m ->
  reg_abs (run_impl cs d).1 (run_spec cs m).1 /\ (run_impl cs d).2 = (run_spec cs m).2.
Proof.
  revert d m. induction cs as [|c cs IH]; intros d m Habs Hfr; simpl; [done|].
  destruct Hfr as [Hc Hcs].
  destruct (impl_step_refines c d m Habs Hc) as [Habs1 Ho].
  destruct (impl_step c d) as [d1 o] eqn:Ei, (spec_step c m) as [m1 o'] eqn:Es.
  simpl in *. destruct (IH d1 m1 Habs1 Hcs) as [Habs2 Hos].
  destruct (run_impl cs d1), (run_spec cs m1). simpl in *. subst. auto.
Qed.

End AbstractRegistry.

(** ** Witnesses *)

Lemma registry_refines_contract_witness :
  let cs := [Register "a" 1; Lookup "a"; Unregister "a"; Unregister "a"; Register "b" 2] in
  reg_abs (run_impl cs deproxy_init).1 (run_spec cs (fun _ => None)).1 /\
  (run_impl cs deproxy_init).2 = (run_spec cs (fun _ => None)).2.
Proof.
  intros cs. apply registry_refines_contract; [intros id; reflexivity|].
  vm_compute. repeat split.
Defined.
