(* ===== verification/World.v ===== *)
(** * World: the state of the whole program

    The state a run of [src/deproxy.py] changes: the [Deproxy] object
    (registry and endpoint list, Registry.v), the heap of [MessageChain]
    objects (MessageChain.v), the heap of Python dicts a caller may pass to
    [make_request] as [headers] (the function's default [{}] is one such
    object, created once when the [def] runs and shared by every call that
    omits the argument), the addresses some socket has bound (a bind on one
    of them fails), and the number of [uuid4] draws so far. *)

From S2P Require Import Prelude Message MessageChain Registry.

Abbreviation dict_ref := nat.

Record World := mkWorld {
  w_deproxy : Deproxy;
  w_heap : chain_heap;
  w_dicts : gmap dict_ref header_dict;
  w_bound : gset address;
  w_uuid : nat
}.

Definition set_deproxy (w : World) (d : Deproxy) : World :=
  mkWorld d (w_heap w) (w_dicts w) (w_bound w) (w_uuid w).
Definition set_heap (w : World) (h : chain_heap) : World :=
  mkWorld (w_deproxy w) h (w_dicts w) (w_bound w) (w_uuid w).
Definition set_dicts (w : World) (ds : gmap dict_ref header_dict) : World :=
  mkWorld (w_deproxy w) (w_heap w) ds (w_bound w) (w_uuid w).
Definition set_bound (w : World) (b : gset address) : World :=
  mkWorld (w_deproxy w) (w_heap w) (w_dicts w) b (w_uuid w).
Definition set_uuid (w : World) (n : nat) : World :=
  mkWorld (w_deproxy w) (w_heap w) (w_dicts w) (w_bound w) n.

(** A [Deproxy] method run on the world. *)
Definition on_deproxy {A} (m : PyM Deproxy A) : PyM World A :=
  fun w => let (d', r) := m (w_deproxy w) in (set_deproxy w d', r).

(** The dict object bound to [make_request]'s default [headers={}]. *)
Definition make_request_default_headers : dict_ref := 0.

Lemma on_deproxy_run {A} (m : PyM Deproxy A) w :
  on_deproxy m w = (set_deproxy w (m (w_deproxy w)).1, (m (w_deproxy w)).2).
Proof. unfold on_deproxy. by destruct (m (w_deproxy w)). Qed.

#[export] Hint Rewrite @on_deproxy_run : py.
