(* ===== verification/Endpoint.v ===== *)
(** * Endpoint: [Deproxy.add_endpoint] and [DeproxyEndpoint] ([src/deproxy.py] lines 45-51, 73-78, 96-119)

    [add_endpoint] constructs a [DeproxyEndpoint] under [endpoint_lock]:
    [HTTPServer.__init__] binds the address (raising [socket.error] when it
    is in use) and starts listening, then a daemon thread runs
    [serve_forever]; only then is the endpoint appended to [_endpoints].
    The overrides of [instantiate], [process_request] and
    [process_request_thread] only log and delegate, so an accepted
    connection runs [DeproxyRequestHandler]'s [handle] (RequestHandler.v)
    with [self.server] the endpoint, identified here by its address.  The
    serving thread and the accept loop are not modelled as state: a bound
    endpoint serves every connection made to its address. *)

From S2P Require Import Prelude Message MessageChain Registry World.
Local Open Scope py_scope.

(** [DeproxyEndpoint.__init__]: the bind of [HTTPServer.__init__]. *)
Definition endpoint_init (server_address : address) : PyM World address :=
  fun w =>
    if decide (server_address ∈ w_bound w) then
      (w, Raise (SocketError "Address already in use"%string))
    else (set_bound w ({[server_address]} ∪ w_bound w), Ok server_address).

(** [add_endpoint]: construct, then append. *)
Definition add_endpoint (server_address : address) : PyM World address :=
  endpoint <- endpoint_init server_address ;;
  _ <- on_deproxy (py_modify (fun d =>
         mkDeproxy (message_chains d) (endpoints d ++ [endpoint]))) ;;
  return endpoint.

(** [Deproxy.__init__(server_address=None)]: a fresh registry and endpoint
    list, then [add_endpoint] when an address is given. *)
Definition deproxy_new (server_address : option address) : PyM World unit :=
  _ <- py_modify (fun w => set_deproxy w deproxy_init) ;;
  match server_address with
  | Some sa => _ <- add_endpoint sa ;; return tt
  | None => return tt
  end.

(** ** Lemmas *)

Lemma add_endpoint_fresh sa w :
  sa ∉ w_bound w ->
  add_endpoint sa w =
    (set_deproxy (set_bound w ({[sa]} ∪ w_bound w))
       (mkDeproxy (message_chains (w_deproxy w)) (endpoints (w_deproxy w) ++ [sa])), Ok sa).
Proof.
  intros Hsa. unfold add_endpoint, endpoint_init, py_bind.
  rewrite decide_False by done. reflexivity.
Qed.

Lemma add_endpoint_in_use sa w :
  sa ∈ w_bound w -> add_endpoint sa w = (w, Raise (SocketError "Address already in use"%string)).
Proof.
  intros Hsa. unfold add_endpoint, endpoint_init, py_bind.
  rewrite decide_True by done. reflexivity.
Qed.

(** The endpoint list names distinct addresses, each of them bound. *)
Definition endpoints_wf (w : World) : Prop :=
  NoDup (endpoints (w_deproxy w)) /\ (forall a, a ∈ endpoints (w_deproxy w) -> a ∈ w_bound w).

(** C13: [add_endpoint] keeps the endpoint list well formed and grows it
    only at its end: on a free address the address is bound and appended;
    on a bound one [socket.error] propagates and nothing changes. *)
Theorem add_endpoint_wf sa w :
  endpoints_wf w ->
  endpoints_wf (add_endpoint sa w).1 /\
  endpoints (w_deproxy (add_endpoint sa w).1) =
    endpoints (w_deproxy w) ++ (if decide (sa ∈ w_bound w) then [] else [sa]).
Proof.
  intros [Hnd Hb]. destruct (decide (sa ∈ w_bound w)) as [Hin|Hfree].
  - rewrite add_endpoint_in_use by done. rewrite app_nil_r. by split; [split|].
  - rewrite add_endpoint_fresh by done. simpl. split; [|done]. split.
    + apply NoDup_app. split; [done|]. split; [|apply NoDup_singleton].
      intros a Ha ->%list_elem_of_singleton. by apply Hfree, Hb.
    + intros a [Ha | ->%list_elem_of_singleton]%elem_of_app; set_solver.
Qed.

(** ** Witnesses *)

Lemma add_endpoint_wf_witness :
  let w := mkWorld deproxy_init ∅ ∅ ∅ 0 in
  endpoints_wf (add_endpoint ("localhost", 8081) w).1 /\
  endpoints (w_deproxy (add_endpoint ("localhost", 8081) w).1) =
    endpoints (w_deproxy w) ++
      (if decide (("localhost", 8081) ∈ w_bound w) then [] else [("localhost"%string, 8081)]).
Proof.
  intros w. apply add_endpoint_wf. split; [apply NoDup_nil_2|].
  intros a Ha. vm_compute in Ha. by apply not_elem_of_nil in Ha.
Defined.
