(* ===== verification/HttpServer.v ===== *)
(** * HttpServer: the [BaseHTTPServer] / [rfc822] collaborator

    [DeproxyRequestHandler] (src/deproxy.py lines 121-187) subclasses
    [BaseHTTPServer.BaseHTTPRequestHandler] and calls its methods: the
    buffered socket file [rfile] and its [readline], [parse_request] (which
    reads the header block through [mimetools.Message]), [send_response],
    [send_header], [end_headers], [send_error] and the unbuffered [wfile].
    None of this is code of the repository: it is modelled here from the
    Python 2.7 library's documented behaviour, as the spec's "standard HTTP
    library" collaborator.

    The connection [Conn] carries the socket (the bytes the peer sent and
    not yet read, whether the peer has closed its side, what was written,
    how many more writes the peer accepts, the clock for the [Date]
    header, whether a timeout is set on the socket) and the handler
    attributes the code reads ([close_connection], [request_version],
    [command]).  A read that finds no data on a connection the peer keeps
    open, and a write the peer no longer accepts, wait: on a socket with a
    timeout they raise [SocketTimeout]; on one without, they never return
    ([Blocked]).  The program sets no timeout ([StreamRequestHandler.timeout]
    is [None]), so its own connections have [sock_timeout = false]; a
    timeout can only come from [socket.setdefaulttimeout] elsewhere in the
    process. *)

From stdpp Require Import pretty.
From S2P Require Import Prelude Message.
Local Open Scope string_scope.
Local Open Scope py_scope.

(** ** Python string methods used by the library *)

Definition is_ws (c : ascii) : bool :=
  let n := nat_of_ascii c in Nat.eqb n 32 || (Nat.leb 9 n && Nat.leb n 13).

Definition is_crlf (c : ascii) : bool :=
  let n := nat_of_ascii c in Nat.eqb n 10 || Nat.eqb n 13.

Definition nl : ascii := ascii_of_nat 10.
Definition cr : ascii := ascii_of_nat 13.
Definition crlf : string := String cr (String nl "").

Fixpoint lstrip_p (p : ascii -> bool) (s : string) : string :=
  match s with
  | EmptyString => EmptyString
  | String c s' => if p c then lstrip_p p s' else s
  end.

Fixpoint rstrip_p (p : ascii -> bool) (s : string) : string :=
  match s with
  | EmptyString => EmptyString
  | String c s' =>
      let r := rstrip_p p s' in
      if String.eqb r "" && p c then "" else String c r
  end.

(** [s.strip()] *)
Definition strip (s : string) : string := rstrip_p is_ws (lstrip_p is_ws s).

(** [s.split()]: the maximal runs of non-whitespace characters. *)
Fixpoint split_ws_go (s cur : string) : list string :=
  match s with
  | EmptyString => if String.eqb cur "" then [] else [cur]
  | String c s' =>
      if is_ws c then
        (if String.eqb cur "" then split_ws_go s' "" else cur :: split_ws_go s' "")
      else split_ws_go s' (cur ++ String c "")
  end.
Definition split_ws (s : string) : list string := split_ws_go s "".

(** [s.split(sep)] for a one-character separator. *)
Fixpoint split_on (sep : ascii) (s : string) : list string :=
  match s with
  | EmptyString => [""]
  | String c s' =>
      if ascii_dec c sep then "" :: split_on sep s'
      else match split_on sep s' with
           | w :: ws => String c w :: ws
           | [] => [String c ""]
           end
  end.

(** [line.find(':')] and the two sides of the first colon. *)
Fixpoint split_colon (s : string) : option (string * string) :=
  match s with
  | EmptyString => None
  | String c s' =>
      if ascii_dec c ":" then Some ("", s')
      else match split_colon s' with
           | Some (a, b) => Some (String c a, b)
           | None => None
           end
  end.

(** [int(s)] on a string of decimal digits ([None]: [ValueError]). *)
Fixpoint digits_value (acc : nat) (s : string) : option nat :=
  match s with
  | EmptyString => Some acc
  | String c s' =>
      let n := nat_of_ascii c in
      if Nat.leb 48 n && Nat.leb n 57 then digits_value (acc * 10 + (n - 48)) s' else None
  end.
Definition py_int (s : string) : option nat :=
  if String.eqb s "" then None else digits_value 0 s.

(** ** The connection *)

Inductive wire_event :=
| WStatusLine (version : string) (code : nat) (message : string)
| WHeader (name value : string)
| WEndHeaders
| WBody (data : string).

Record Conn := mkConn {
  rfile : string;
  rfile_eof : bool;
  wfile : list wire_event;
  wcap : option nat;
  clock : string;
  close_connection : bool;
  request_version : string;
  command : string;
  sock_timeout : bool
}.

Definition set_rfile (c : Conn) (s : string) : Conn :=
  mkConn s (rfile_eof c) (wfile c) (wcap c) (clock c) (close_connection c)
    (request_version c) (command c) (sock_timeout c).
Definition set_close (c : Conn) (b : bool) : Conn :=
  mkConn (rfile c) (rfile_eof c) (wfile c) (wcap c) (clock c) b
    (request_version c) (command c) (sock_timeout c).
Definition set_request (c : Conn) (version cmd : string) : Conn :=
  mkConn (rfile c) (rfile_eof c) (wfile c) (wcap c) (clock c) (close_connection c)
    version cmd (sock_timeout c).

(** What a socket call that has to wait does: time out, or never return. *)
Definition wait_exn (c : Conn) : exn := if sock_timeout c then SocketTimeout else Blocked.

(** [BaseHTTPRequestHandler.protocol_version], not overridden by
    [DeproxyRequestHandler], and the version assumed for a two-word
    request line. *)
Definition protocol_version : string := "HTTP/1.0".
Definition default_request_version : string := "HTTP/0.9".
Definition server_version_string : string := "BaseHTTP/0.3 Python/2.7".

(** ** Reading: [rfile.readline(size)] *)

(** The characters up to and including the first newline, at most [lim] of
    them ([None]: no limit), and the rest of the stream. *)
Fixpoint take_line (lim : option nat) (s : string) : string * string :=
  match s with
  | EmptyString => ("", "")
  | String c s' =>
      match lim with
      | Some 0 => ("", s)
      | _ =>
          if ascii_dec c nl then (String c "", s')
          else let (l, r) := take_line (option_map pred lim) s' in (String c l, r)
      end
  end.

Fixpoint ends_nl (s : string) : bool :=
  match s with
  | EmptyString => false
  | String c EmptyString => bool_decide (c = nl)
  | String _ s' => ends_nl s'
  end.

(** [readline] returns once it has a newline, [size] characters, or the
    end of the stream; otherwise [recv] waits for more data: until the
    socket's timeout, or for ever on a socket without one.  The characters
    already read are lost with the exception ([socket._fileobject] reads
    them into a local buffer). *)
Definition rfile_readline (lim : option nat) : PyM Conn string :=
  fun c =>
    let (l, rest) := take_line lim (rfile c) in
    let full := match lim with Some n => Nat.eqb (String.length l) n | None => false end in
    if ends_nl l || full || rfile_eof c then (set_rfile c rest, Ok l)
    else (set_rfile c rest, Raise (wait_exn c)).

(** ** Writing: the unbuffered [wfile] *)

(** [wcap = Some k]: the peer takes [k] more writes and then reads no
    more, so the next one waits ([wait_exn]); [None]: it reads everything. *)
Definition wfile_write (e : wire_event) : PyM Conn unit :=
  fun c =>
    let c' k := mkConn (rfile c) (rfile_eof c) (wfile c ++ [e]) k (clock c)
                  (close_connection c) (request_version c) (command c) (sock_timeout c) in
    match wcap c with
    | Some 0 => (c, Raise (wait_exn c))
    | Some (S k) => (c' (Some k), Ok tt)
    | None => (c' None, Ok tt)
    end.

Definition when_not_http09 (m : PyM Conn unit) : PyM Conn unit :=
  fun c => if String.eqb (request_version c) default_request_version then (c, Ok tt) else m c.

(** [send_header(keyword, value)], with its [Connection] bookkeeping. *)
Definition send_header (keyword value : string) : PyM Conn unit :=
  _ <- when_not_http09 (wfile_write (WHeader keyword value)) ;;
  fun c =>
    if String.eqb (str_lower keyword) "connection" then
      if String.eqb (str_lower value) "close" then (set_close c true, Ok tt)
      else if String.eqb (str_lower value) "keep-alive" then (set_close c false, Ok tt)
      else (c, Ok tt)
    else (c, Ok tt).

(** [send_response(code, message)]: the status line, then [Server] and
    [Date]. *)
Definition send_response (code : nat) (message : string) : PyM Conn unit :=
  _ <- when_not_http09 (wfile_write (WStatusLine protocol_version code message)) ;;
  _ <- send_header "Server" server_version_string ;;
  c <- py_get ;;
  send_header "Date" (clock c).

Definition end_headers : PyM Conn unit := when_not_http09 (wfile_write WEndHeaders).

(** [BaseHTTPRequestHandler.responses[code]]: the short message and the
    explanation, for the codes [send_error] is called with in this
    program (400 and 505 by [parse_request], 414 by line 146); the other
    entries of the table are never read. *)
Definition responses (code : nat) : string * string :=
  match code with
  | 400 => ("Bad Request", "Bad request syntax or unsupported method")
  | 414 => ("Request-URI Too Long", "URI is too long.")
  | 505 => ("HTTP Version Not Supported", "Cannot fulfill request.")
  | _ => ("???", "???")
  end.

Fixpoint str_flat_map (f : ascii -> string) (s : string) : string :=
  match s with
  | EmptyString => EmptyString
  | String c s' => f c ++ str_flat_map f s'
  end.

Definition str_has (ch : ascii) (s : string) : bool :=
  negb (str_forall (fun c => negb (bool_decide (c = ch))) s).

Definition dquote : ascii := ascii_of_nat 34.
Definition backslash : ascii := ascii_of_nat 92.

Definition hex_digit (n : nat) : ascii := ascii_of_nat (if Nat.ltb n 10 then 48 + n else 87 + n).

(** One character of Python 2's [repr] of a [str] quoted with [q]. *)
Definition repr_char (q ch : ascii) : string :=
  let n := nat_of_ascii ch in
  if bool_decide (ch = q) || bool_decide (ch = backslash) then String backslash (String ch "")
  else if Nat.eqb n 9 then String backslash "t"
  else if Nat.eqb n 10 then String backslash "n"
  else if Nat.eqb n 13 then String backslash "r"
  else if Nat.ltb n 32 || Nat.leb 127 n then
    String backslash (String "x" (String (hex_digit (n / 16)) (String (hex_digit (n mod 16)) "")))
  else String ch "".

(** [%r] of a [str]: single quotes, or double quotes when the string has
    a single quote and no double quote. *)
Definition py_repr (s : string) : string :=
  let q := if str_has "'" s && negb (str_has dquote s) then dquote else "'"%char in
  String q (str_flat_map (repr_char q) s ++ String q "").

(** [_quote_html]: [&], [<] and [>] as entities. *)
Definition quote_html (s : string) : string :=
  str_flat_map (fun c => if bool_decide (c = "&"%char) then "&amp;"
                         else if bool_decide (c = "<"%char) then "&lt;"
                         else if bool_decide (c = ">"%char) then "&gt;" else String c "") s.

Definition nls : string := String nl "".

(** [DEFAULT_ERROR_MESSAGE % {'code': code, 'message': message,
    'explain': explain}] *)
Definition error_message_format (code : nat) (message explain : string) : string :=
  "<head>" ++ nls ++ "<title>Error response</title>" ++ nls ++ "</head>" ++ nls ++
  "<body>" ++ nls ++ "<h1>Error response</h1>" ++ nls ++
  "<p>Error code " ++ pretty code ++ "." ++ nls ++
  "<p>Message: " ++ message ++ "." ++ nls ++
  "<p>Error code explanation: " ++ pretty code ++ " = " ++ explain ++ "." ++ nls ++
  "</body>" ++ nls.

(** [send_error(code, message=None)]: the status line carries [message]
    (the short message when none is given), the page its HTML-quoted form
    and the explanation. *)
Definition error_status_message (code : nat) (message : option string) : string :=
  default (responses code).1 message.

Definition error_page (code : nat) (message : option string) : string :=
  error_message_format code (quote_html (error_status_message code message)) (responses code).2.

Definition send_error (code : nat) (message : option string) : PyM Conn unit :=
  _ <- send_response code (error_status_message code message) ;;
  _ <- send_header "Content-Type" "text/html" ;;
  _ <- send_header "Connection" "close" ;;
  _ <- end_headers ;;
  fun c =>
    if negb (String.eqb (command c) "HEAD") && Nat.leb 200 code
       && negb (Nat.eqb code 204) && negb (Nat.eqb code 304)
    then wfile_write (WBody (error_page code message)) c else (c, Ok tt).

(** ** [mimetools.Message(self.rfile, 0)]: the header block *)

Definition is_blank_line (l : string) : bool :=
  String.eqb l crlf || String.eqb l (String nl "").

Definition starts_ws (l : string) : bool :=
  match l with String c _ => bool_decide (c = " "%char) || bool_decide (c = "009"%char) | _ => false end.

(** A continuation line extends the value of the last header. *)
Definition continue_last (acc : header_list) (line : string) : header_list :=
  match last acc with
  | Some (k, v) => removelast acc ++ [(k, strip (v ++ String nl " " ++ strip line))]
  | None => acc
  end.

(** [rfc822.Message.readheaders]: header lines until a blank line or the
    end of the stream; a line with no colon ends the block.  Each line
    consumes at least one character, so [String.length (rfile c) + 1]
    rounds of fuel always suffice ([read_headers_fuel] below). *)
Fixpoint read_headers (fuel : nat) (acc : header_list) : PyM Conn header_list :=
  match fuel with
  | 0 => return acc
  | S f =>
      line <- rfile_readline None ;;
      if String.eqb line "" then return acc
      else if starts_ws line && negb (bool_decide (acc = [])) then
        read_headers f (continue_last acc line)
      else if is_blank_line line then return acc
      else match split_colon line with
           | Some (k, v) => read_headers f (acc ++ [(k, strip v)])
           | None => return acc
           end
  end.

Definition read_message : PyM Conn header_list :=
  fun c => read_headers (S (String.length (rfile c))) [] c.

(** ** [parse_request] *)

(** [version_number] of ["HTTP/<major>.<minor>"], or [None] where Python
    raises [ValueError] or [IndexError]. *)
Definition parse_version (version : string) : option (nat * nat) :=
  match split_on "."%char (substring 5 (String.length version) version) with
  | [a; b] => match py_int a, py_int b with
              | Some x, Some y => Some (x, y)
              | _, _ => None
              end
  | _ => None
  end.

(** The request line's verdict: an error to send with its message, a
    request with its command, path and version, or nothing at all (an
    empty line). *)
Inductive requestline_verdict :=
| RLError (code : nat) (message : string)
| RLRequest (cmd path version : string)
| RLEmpty.

Definition check_requestline (requestline : string) : requestline_verdict :=
  match split_ws requestline with
  | [cmd; path; version] =>
      let bad_version := RLError 400 ("Bad request version (" ++ py_repr version ++ ")") in
      if negb (String.eqb (substring 0 5 version) "HTTP/") then bad_version
      else match parse_version version with
           | None => bad_version
           | Some (major, _) =>
               if Nat.leb 2 major
               then RLError 505 ("Invalid HTTP Version (" ++
                                 substring 5 (String.length version) version ++ ")")
               else RLRequest cmd path version
           end
  | [cmd; path] =>
      if String.eqb cmd "GET" then RLRequest cmd path default_request_version
      else RLError 400 ("Bad HTTP/0.9 request type (" ++ py_repr cmd ++ ")")
  | [] => RLEmpty
  | _ => RLError 400 ("Bad request syntax (" ++ py_repr requestline ++ ")")
  end.

(** [parse_request()]: [Some (command, path, headers)] where Python returns
    [True].  [close_connection] is set to 1 and stays 1: the branches
    that clear it require [protocol_version >= "HTTP/1.1"], and the
    handler's [protocol_version] is ["HTTP/1.0"]. *)
Definition parse_request (raw_requestline : string)
    : PyM Conn (option (string * string * header_list)) :=
  _ <- py_modify (fun c => set_request (set_close c true) default_request_version "") ;;
  match check_requestline (rstrip_p is_crlf raw_requestline) with
  | RLError code message => _ <- send_error code (Some message) ;; return None
  | RLEmpty => return None
  | RLRequest cmd path version =>
      _ <- py_modify (fun c => set_request c version cmd) ;;
      hs <- read_message ;;
      return (Some (cmd, path, hs))
  end.

(** ** Lemmas: [take_line] bounds *)

Lemma take_line_split lim s :
  (take_line lim s).1 ++ (take_line lim s).2 = s.
Proof.
  revert lim. induction s as [|c s IH]; intros lim; [done|]. simpl.
  destruct lim as [[|n]|]; simpl; [done| |];
    (destruct (ascii_dec c nl); [done|]);
    [specialize (IH (Some n))|specialize (IH None)];
    destruct (take_line _ s); simpl in *; rewrite str_app_cons; by rewrite IH.
Qed.

Lemma take_line_length lim s :
  String.length (take_line lim s).1 + String.length (take_line lim s).2 = String.length s.
Proof.
  pose proof (take_line_split lim s) as H. destruct (take_line lim s) as [l r].
  simpl in *. subst s. symmetry. apply str_length_app.
Qed.

(** [readline(size)] never returns more than [size] characters. *)
Lemma take_line_bound n s : String.length (take_line (Some n) s).1 <= n.
Proof.
  revert n. induction s as [|c s IH]; intros n; simpl; [lia|].
  destruct n as [|n]; simpl; [lia|]. destruct (ascii_dec c nl); simpl; [lia|].
  specialize (IH n). destruct (take_line (Some n) s); simpl in *. lia.
Qed.

#[export] Hint Resolve take_line_bound : deproxy.

(** ** Lemmas: every library call raises at most [socket.timeout], or blocks *)

Abbreviation only_timeout := (raises_only (fun e => e = SocketTimeout \/ e = Blocked)).

Lemma wait_exn_cases c : wait_exn c = SocketTimeout \/ wait_exn c = Blocked.
Proof. unfold wait_exn. destruct (sock_timeout c); auto. Qed.

Lemma rfile_readline_timeout lim : only_timeout (rfile_readline lim).
Proof.
  intros c c' e. unfold rfile_readline. destruct (take_line lim (rfile c)).
  case_match; intros [= _ <-]. apply wait_exn_cases.
Qed.

Lemma wfile_write_timeout ev : only_timeout (wfile_write ev).
Proof.
  intros c c' e. unfold wfile_write. repeat case_match; intros [= _ <-]. apply wait_exn_cases.
Qed.

Lemma when_not_http09_timeout m : only_timeout m -> only_timeout (when_not_http09 m).
Proof. intros H c c' e. unfold when_not_http09. case_match; [by intros [=]|apply H]. Qed.

#[export] Hint Resolve rfile_readline_timeout wfile_write_timeout when_not_http09_timeout : deproxy.

Ltac only_timeout_split :=
  py_split raises_only_bind;
  try match goal with
      | |- raises_only _ (fun _ => _) => let s := fresh in intros s ?? ?H;
            repeat case_match; simplify_eq
      end;
  try match goal with
      | H : ?m ?s = (?s', Raise ?e) |- ?e = _ \/ _ =>
          refine ((_ : raises_only _ m) s s' e H)
      end;
  eauto with deproxy.

Lemma send_header_timeout k v : only_timeout (send_header k v).
Proof. unfold send_header. only_timeout_split. Qed.
#[export] Hint Resolve send_header_timeout : deproxy.

Lemma send_response_timeout code msg : only_timeout (send_response code msg).
Proof. unfold send_response. only_timeout_split. Qed.

Lemma end_headers_timeout : only_timeout end_headers.
Proof. unfold end_headers. eauto with deproxy. Qed.
#[export] Hint Resolve send_response_timeout end_headers_timeout : deproxy.

Lemma send_error_timeout code message : only_timeout (send_error code message).
Proof.
  unfold send_error. only_timeout_split.
Qed.

Lemma read_headers_timeout fuel acc : only_timeout (read_headers fuel acc).
Proof.
  revert acc. induction fuel as [|f IH]; intros acc; simpl; [eauto with deproxy|].
  only_timeout_split.
Qed.

Lemma read_message_timeout : only_timeout read_message.
Proof. intros c c' e. apply read_headers_timeout. Qed.
#[export] Hint Resolve send_error_timeout read_message_timeout : deproxy.

Lemma parse_request_timeout raw : only_timeout (parse_request raw).
Proof. unfold parse_request. only_timeout_split. Qed.
#[export] Hint Resolve parse_request_timeout : deproxy.

(** ** Lemmas: the library never un-reads input *)

Definition rfile_le (c c' : Conn) : Prop := String.length (rfile c') <= String.length (rfile c).

#[export] Instance rfile_le_preorder : PreOrder rfile_le.
Proof. split; unfold rfile_le; intros ?; [lia|]. intros ???; lia. Qed.

Lemma rfile_readline_rfile lim c :
  rfile (rfile_readline lim c).1 = (take_line lim (rfile c)).2.
Proof. unfold rfile_readline. destruct (take_line lim (rfile c)). by case_match. Qed.

Lemma rfile_readline_result lim c l :
  (rfile_readline lim c).2 = Ok l -> l = (take_line lim (rfile c)).1.
Proof. unfold rfile_readline. destruct (take_line lim (rfile c)). case_match; by intros [=]. Qed.

(** [readline(size)] returns the first [size] characters when no newline
    comes earlier. *)
Lemma rfile_readline_full n c :
  String.length (take_line (Some n) (rfile c)).1 = n ->
  rfile_readline (Some n) c =
    (set_rfile c (take_line (Some n) (rfile c)).2, Ok (take_line (Some n) (rfile c)).1).
Proof.
  intros Hn. unfold rfile_readline. destruct (take_line (Some n) (rfile c)) as [l r].
  simpl in *. rewrite Hn, Nat.eqb_refl, orb_true_r. reflexivity.
Qed.

Lemma rfile_readline_stable lim : stable rfile_le (rfile_readline lim).
Proof.
  intros c. unfold rfile_le. rewrite rfile_readline_rfile.
  pose proof (take_line_length lim (rfile c)). lia.
Qed.

(** A [readline] that returned a nonempty line consumed it. *)
Lemma rfile_readline_consumes lim c l :
  (rfile_readline lim c).2 = Ok l -> l <> "" ->
  String.length (rfile (rfile_readline lim c).1) < String.length (rfile c).
Proof.
  intros Hr Hne. apply rfile_readline_result in Hr. rewrite rfile_readline_rfile.
  pose proof (take_line_length lim (rfile c)). subst l.
  destruct (take_line lim (rfile c)).1; simpl in *; [done|lia].
Qed.

Lemma wfile_write_stable ev : stable rfile_le (wfile_write ev).
Proof. intros c. unfold wfile_write, rfile_le. repeat case_match; simpl; lia. Qed.

Lemma when_not_http09_stable m : stable rfile_le m -> stable rfile_le (when_not_http09 m).
Proof. intros H c. unfold when_not_http09. case_match; [reflexivity|apply H]. Qed.

#[export] Hint Resolve rfile_readline_stable wfile_write_stable when_not_http09_stable : deproxy.

Ltac rfile_stable_split :=
  py_split_with ltac:(refine (stable_bind rfile_le _ _ _ _));
  try match goal with
      | |- stable _ (fun _ => _) => let c := fresh in intros c; repeat case_match
      end;
  try (apply stable_modify; intros; unfold rfile_le; simpl; lia);
  try (unfold rfile_le; simpl; lia);
  try exact _;
  eauto with deproxy.

Lemma send_header_stable k v : stable rfile_le (send_header k v).
Proof. unfold send_header. rfile_stable_split. Qed.
#[export] Hint Resolve send_header_stable : deproxy.

Lemma send_response_stable code msg : stable rfile_le (send_response code msg).
Proof. unfold send_response. rfile_stable_split. Qed.

Lemma end_headers_stable : stable rfile_le end_headers.
Proof. unfold end_headers. eauto with deproxy. Qed.
#[export] Hint Resolve send_response_stable end_headers_stable : deproxy.

Lemma send_error_stable code message : stable rfile_le (send_error code message).
Proof. unfold send_error. rfile_stable_split. apply wfile_write_stable. Qed.

Lemma read_headers_stable fuel acc : stable rfile_le (read_headers fuel acc).
Proof.
  revert acc. induction fuel as [|f IH]; intros acc; simpl; [eauto with deproxy|].
  rfile_stable_split.
Qed.

Lemma read_message_stable : stable rfile_le read_message.
Proof. intros c. apply read_headers_stable. Qed.
#[export] Hint Resolve send_error_stable read_message_stable : deproxy.

Lemma parse_request_stable raw : stable rfile_le (parse_request raw).
Proof. unfold parse_request. rfile_stable_split. Qed.
#[export] Hint Resolve parse_request_stable : deproxy.

(** ** Lemmas: what the write calls emit on a socket that never times out *)

(** [c'] is [c] after the events [evs] were written, the connection flag
    aside. *)
Definition appended (c : Conn) (evs : list wire_event) (c' : Conn) : Prop :=
  rfile c' = rfile c /\ rfile_eof c' = rfile_eof c /\ wfile c' = (wfile c ++ evs)%list /\
  wcap c' = wcap c /\ clock c' = clock c /\ request_version c' = request_version c /\
  command c' = command c.

(** [m] writes exactly [evs] and returns normally, on an HTTP/1.x
    connection whose socket never times out and whose clock reads [d]. *)
Definition emits (d : string) (m : PyM Conn unit) (evs : list wire_event) : Prop :=
  forall c, wcap c = None -> request_version c <> default_request_version -> clock c = d ->
  exists c', m c = (c', Ok tt) /\ appended c evs c'.

Lemma emits_bind d m k e1 e2 :
  emits d m e1 -> emits d k e2 -> emits d (_ <- m ;; k) (e1 ++ e2)%list.
Proof.
  intros Hm Hk c Hw Hv Hd. destruct (Hm c Hw Hv Hd) as (c1 & E1 & A1).
  destruct A1 as (? & ? & Hwf1 & Hw1 & Hd1 & Hv1 & ?).
  destruct (Hk c1) as (c2 & E2 & A2); [congruence|congruence|congruence|].
  exists c2. rewrite (py_bind_ok _ _ _ _ _ E1). split; [done|].
  destruct A2 as (? & ? & Hwf2 & ? & ? & ? & ?). repeat split; try congruence.
  rewrite Hwf2, Hwf1. symmetry. apply app_assoc.
Qed.

Lemma emits_ret d : emits d (return tt) [].
Proof. intros c ???. exists c. repeat split; auto. by rewrite app_nil_r. Qed.

Lemma emits_wfile_write d ev : emits d (wfile_write ev) [ev].
Proof.
  intros [] Hw Hv Hd; simpl in *. unfold wfile_write. simpl. rewrite Hw.
  eexists. split; [reflexivity|]. repeat split.
Qed.

Lemma emits_write d ev : emits d (when_not_http09 (wfile_write ev)) [ev].
Proof.
  intros [] Hw Hv Hd; simpl in *. unfold when_not_http09, wfile_write. simpl.
  rewrite (proj2 (String.eqb_neq _ _) Hv), Hw. eexists. split; [reflexivity|].
  repeat split.
Qed.

Lemma emits_send_header d k v : emits d (send_header k v) [WHeader k v].
Proof.
  intros c Hw Hv Hd. destruct (emits_write d (WHeader k v) c Hw Hv Hd) as (c1 & E & A).
  unfold send_header. rewrite (py_bind_ok _ _ _ _ _ E).
  destruct A as (? & ? & ? & ? & ? & ? & ?).
  repeat case_match; eexists; (split; [reflexivity|]); repeat split; simpl; congruence.
Qed.

#[export] Hint Resolve emits_ret emits_wfile_write emits_write emits_send_header : deproxy.

Lemma emits_send_response d code msg :
  emits d (send_response code msg)
    [WStatusLine protocol_version code msg; WHeader "Server" server_version_string;
     WHeader "Date" d].
Proof.
  intros c Hw Hv Hd. unfold send_response.
  change [WStatusLine protocol_version code msg; WHeader "Server" server_version_string;
          WHeader "Date" d]
    with ([WStatusLine protocol_version code msg] ++ [WHeader "Server" server_version_string]
          ++ [WHeader "Date" d])%list.
  revert c Hw Hv Hd. apply emits_bind; [auto with deproxy|]. apply emits_bind; [auto with deproxy|].
  intros c Hw Hv Hd. unfold py_bind, py_get. simpl. rewrite Hd.
  exact (emits_send_header d "Date" d c Hw Hv Hd).
Qed.

Lemma emits_end_headers d : emits d end_headers [WEndHeaders].
Proof. apply emits_write. Qed.
#[export] Hint Resolve emits_send_response emits_end_headers : deproxy.

(** Run the first call [m] of [_ <- m ;; k] when it emits [e]. *)
Lemma emits_bind_l {B} d m e (k : unit -> PyM Conn B) c :
  emits d m e -> wcap c = None -> request_version c <> default_request_version -> clock c = d ->
  exists c1, py_bind m k c = k tt c1 /\ m c = (c1, Ok tt) /\ appended c e c1.
Proof.
  intros Hm Hw Hv Hd. destruct (Hm c Hw Hv Hd) as (c1 & E & A).
  exists c1. split; [|done]. by rewrite (py_bind_ok _ _ _ _ _ E).
Qed.

Lemma wfile_write_close ev c c' r :
  wfile_write ev c = (c', r) -> close_connection c' = close_connection c.
Proof. unfold wfile_write. repeat case_match; by intros [= <- _]. Qed.

Lemma end_headers_close c c' r :
  end_headers c = (c', r) -> close_connection c' = close_connection c.
Proof.
  unfold end_headers, when_not_http09. case_match; [by intros [= <- _]|].
  apply wfile_write_close.
Qed.

(** [send_header('Connection', 'close')] sets [close_connection]. *)
Lemma send_header_connection_close c c' :
  send_header "Connection" "close" c = (c', Ok tt) -> close_connection c' = true.
Proof.
  unfold send_header, py_bind. destruct (when_not_http09 _ c) as [c1 [[]|e]]; [|done].
  by intros [= <-].
Qed.

(** Step over one emitting call at the head of the goal's method,
    carrying the socket's conditions to the next state. *)
Ltac emit_through lem :=
  match goal with
  | Hw : wcap ?c = None, Hv : request_version ?c <> _ |- context [py_bind ?m ?k ?c] =>
      let c1 := fresh "c" in let A := fresh "A" in
      let Hw1 := fresh "Hw" in let Hv1 := fresh "Hv" in let Hd1 := fresh "Hd" in
      let Em := fresh "Em" in
      destruct (emits_bind_l _ m _ k c lem Hw Hv) as (c1 & -> & Em & A);
      [try congruence|];
      destruct A as (? & ? & ? & Hw1 & Hd1 & Hv1 & ?);
      assert (wcap c1 = None) by congruence;
      assert (request_version c1 <> default_request_version) by congruence
  end.
