(* ===== verification/RequestHandler.v ===== *)
(** * RequestHandler: [DeproxyRequestHandler] ([src/deproxy.py] lines 121-187)

    One accepted connection runs [handle()] (inherited, line 127-129), which
    calls [handle_one_request] (lines 131-187) until [close_connection] is
    set.  [handle_one_request] reads the request line (at most 65537
    characters), answers 414 to an oversized one, parses the request,
    resolves the handler through the [Request-ID] header and the registry,
    runs it, echoes the header, records the [Handling] on the matched chain
    and writes the response; a [socket.timeout] anywhere abandons the
    connection, and a read or write that waits on a socket without a
    timeout never returns ([Blocked]).  The handler runs on
    [World * Conn]: the world for the registry lookup and the chain
    update, the connection for the I/O. *)

From S2P Require Import Prelude Message MessageChain Registry World HttpServer.
Local Open Scope string_scope.
Local Open Scope py_scope.

Definition conn_op {A} (m : PyM Conn A) : PyM (World * Conn) A := lift_snd m.
Definition world_op {A} (m : PyM World A) : PyM (World * Conn) A := lift_fst m.

(** The handler stored in a chain object. *)
Definition chain_handler (w : World) (r : chain_ref) : handler :=
  match w_heap w !! r with
  | Some mc => handler_function mc
  | None => default_handler
  end.

(** Lines 157-163: the request id (when the header is present), the chain it
    names (when registered) and the handler to run. *)
Definition resolve_handler (hs : header_list)
    : PyM World (option string * option chain_ref * handler) :=
  if msg_contains hs request_id_header_name then
    match msg_getitem hs request_id_header_name with
    | Some request_id =>
        message_chain <- on_deproxy (get_message_chain request_id) ;;
        match message_chain with
        | Some r => fun w => (w, Ok (Some request_id, Some r, chain_handler w r))
        | None => return (Some request_id, None, default_handler)
        end
    | None => raise (KeyError request_id_header_name)
    end
  else return (None, None, default_handler).

(** Lines 172-173: [message_chain.add_handling(...)] when a chain matched. *)
Definition record_handling (message_chain : option chain_ref) (h : Handling) : PyM World unit :=
  match message_chain with
  | Some r => py_modify (fun w => set_heap w (heap_add_handling r h (w_heap w)))
  | None => return tt
  end.

(** [for name, value in resp.headers.items(): self.send_header(name, value)] *)
Fixpoint send_headers (hs : list (string * string)) : PyM Conn unit :=
  match hs with
  | [] => return tt
  | (k, v) :: hs' => _ <- send_header k v ;; send_headers hs'
  end.

(** [wfile.write(body)]: writing the empty string sends nothing. *)
Definition write_body (body : string) : PyM Conn unit :=
  if String.eqb body "" then return tt else wfile_write (WBody body).

(** Lines 175-181; [wfile.flush()] is a no-op on the unbuffered [wfile]. *)
Definition respond (resp : Response) : PyM Conn unit :=
  _ <- send_response (resp_code resp) (resp_message resp) ;;
  _ <- send_headers (map_to_list (resp_headers resp)) ;;
  _ <- end_headers ;;
  write_body (resp_body resp).

(** Line 168: the echo of the request id. *)
Definition echo_request_id (request_id : option string) (resp : Response) : Response :=
  match request_id with
  | Some id => set_header resp request_id_header_name id
  | None => resp
  end.

(** Lines 155-181, once [parse_request] succeeded.  The body of
    [incoming_request] is [self.rfile] itself: the unread rest of the
    stream. *)
Definition handle_request (ep : address) (cmd path : string) (hs : header_list)
    : PyM (World * Conn) unit :=
  c <- conn_op py_get ;;
  let incoming_request := mkRequest cmd path hs (BFile (rfile c)) in
  rs <- world_op (resolve_handler hs) ;;
  let '(request_id, message_chain, handler_function) := rs in
  let resp := echo_request_id request_id (handler_function incoming_request) in
  _ <- world_op (record_handling message_chain (mkHandling ep incoming_request resp)) ;;
  conn_op (respond resp).

Definition is_timeout (e : exn) : bool := bool_decide (e = SocketTimeout).

(** The request-line limit of lines 141-142: [readline(65537)], then
    [len(...) > 65536]. *)
Definition max_requestline : nat := 65536.

(** Lines 142-181: what [handle_one_request] does with the request line. *)
Definition handle_requestline (ep : address) (raw_requestline : string)
    : PyM (World * Conn) unit :=
  if Nat.ltb max_requestline (String.length raw_requestline) then
    _ <- conn_op (py_modify (fun c => set_request c "" "")) ;;
    conn_op (send_error 414 None)
  else if String.eqb raw_requestline "" then
    conn_op (py_modify (fun c => set_close c true))
  else
    parsed <- conn_op (parse_request raw_requestline) ;;
    match parsed with
    | None => return tt
    | Some (cmd, path, hs) => handle_request ep cmd path hs
    end.

(** [handle_one_request] (lines 131-187): read at most 65537 characters of
    request line; on [socket.timeout], set [close_connection] and return. *)
Definition handle_one_request (ep : address) : PyM (World * Conn) unit :=
  py_try is_timeout
    (raw_requestline <- conn_op (rfile_readline (Some (S max_requestline))) ;;
     handle_requestline ep raw_requestline)
    (fun _ => conn_op (py_modify (fun c => set_close c true))).

(** [BaseHTTPRequestHandler.handle]: [close_connection = 1;
    handle_one_request(); while not close_connection: handle_one_request()].
    Every round that leaves the connection open has consumed at least one
    character, so [String.length (rfile c) + 1] rounds suffice
    ([handle_ends] below). *)
Fixpoint handle_loop (fuel : nat) (ep : address) : PyM (World * Conn) unit :=
  match fuel with
  | 0 => return tt
  | S f =>
      _ <- handle_one_request ep ;;
      st <- py_get ;;
      if close_connection st.2 then return tt else handle_loop f ep
  end.

Definition handle (ep : address) : PyM (World * Conn) unit :=
  fun st =>
    (_ <- conn_op (py_modify (fun c => set_close c true)) ;;
     handle_loop (S (String.length (rfile st.2))) ep) st.

(** ** Exceptions: everything but [socket.timeout] is impossible *)

Lemma resolve_handler_raises hs : raises_only (fun _ => False) (resolve_handler hs).
Proof.
  unfold resolve_handler. destruct (msg_contains hs _) eqn:Hc; [|eauto with deproxy].
  apply msg_contains_getitem in Hc. destruct (msg_getitem hs _) as [rid|]; [|by destruct Hc].
  apply raises_only_bind; [intros w w' e; unfold on_deproxy; simpl; by intros [=]|].
  intros [r|]; [by intros ??? [=]|eauto with deproxy].
Qed.

Lemma record_handling_raises mc h : raises_only (fun _ => False) (record_handling mc h).
Proof. destruct mc; simpl; eauto with deproxy. Qed.

#[export] Hint Resolve resolve_handler_raises record_handling_raises : deproxy.

Lemma send_headers_timeout hs : only_timeout (send_headers hs).
Proof. induction hs as [|[k v] hs IH]; simpl; only_timeout_split. Qed.

Lemma write_body_timeout b : only_timeout (write_body b).
Proof. unfold write_body. case_match; eauto with deproxy. Qed.
#[export] Hint Resolve send_headers_timeout write_body_timeout : deproxy.

Lemma respond_timeout resp : only_timeout (respond resp).
Proof. unfold respond. only_timeout_split. Qed.
#[export] Hint Resolve respond_timeout : deproxy.

Lemma handle_request_timeout ep cmd path hs : only_timeout (handle_request ep cmd path hs).
Proof.
  unfold handle_request, conn_op, world_op. only_timeout_split.
Qed.
#[export] Hint Resolve handle_request_timeout : deproxy.

(** The [try] of line 140 catches every exception the body can raise,
    [socket.timeout]; what it cannot catch is a socket call that never
    returns. *)
Lemma handle_one_request_raises ep : raises_only (fun e => e = Blocked) (handle_one_request ep).
Proof.
  unfold handle_one_request. apply raises_only_try; [|intros; unfold conn_op; eauto with deproxy].
  eapply raises_only_weaken with (P := fun e => e = SocketTimeout \/ e = Blocked);
    [intros e [-> | ->]; [right; reflexivity|left; reflexivity]|].
  unfold handle_requestline, conn_op. only_timeout_split.
Qed.

(** So [handle_one_request] returns normally, or is blocked in a socket
    call. *)
Lemma handle_one_request_ok ep st :
  (handle_one_request ep st).2 = Ok tt \/ (handle_one_request ep st).2 = Raise Blocked.
Proof.
  destruct (handle_one_request ep st) as [st' [[]|e]] eqn:E; [by left|right]. simpl.
  by rewrite (handle_one_request_raises ep st st' e E).
Qed.

(** ** Progress: a round that keeps the connection open consumed input *)

Definition conn_le (st st' : World * Conn) : Prop := rfile_le st.2 st'.2.

#[export] Instance conn_le_preorder : PreOrder conn_le.
Proof. unfold conn_le. split; [intros ?; reflexivity|intros ???; etrans; eauto]. Qed.

Lemma conn_op_stable {A} (m : PyM Conn A) : stable rfile_le m -> stable conn_le (conn_op m).
Proof. intros H [w c]. unfold conn_op, conn_le. rewrite lift_snd_run. apply H. Qed.

Lemma world_op_stable {A} (m : PyM World A) : stable conn_le (world_op m).
Proof. intros [w c]. unfold world_op, conn_le. rewrite lift_fst_run. simpl. reflexivity. Qed.

#[export] Hint Resolve conn_op_stable world_op_stable : deproxy.

Lemma conn_op_run {A} (m : PyM Conn A) w c : conn_op m (w, c) = ((w, (m c).1), (m c).2).
Proof. apply lift_snd_run. Qed.

Lemma world_op_run {A} (m : PyM World A) w c : world_op m (w, c) = (((m w).1, c), (m w).2).
Proof. apply lift_fst_run. Qed.

#[export] Hint Rewrite @conn_op_run @world_op_run : py.

Lemma modify_rfile_stable (f : Conn -> Conn) :
  (forall c, rfile (f c) = rfile c) -> stable rfile_le (py_modify f).
Proof. intros H c. unfold rfile_le. simpl. by rewrite H. Qed.

Ltac conn_stable_split :=
  py_split_with ltac:(refine (stable_bind conn_le _ _ _ _));
  try exact _;
  try (apply conn_op_stable, modify_rfile_stable; reflexivity);
  eauto with deproxy.

Lemma send_headers_stable hs : stable rfile_le (send_headers hs).
Proof.
  induction hs as [|[k v] hs IH]; simpl; [eauto with deproxy|].
  refine (stable_bind rfile_le _ _ _ _); eauto with deproxy.
Qed.

#[export] Hint Resolve send_headers_stable : deproxy.

Lemma respond_stable resp : stable rfile_le (respond resp).
Proof. unfold respond, write_body. rfile_stable_split. Qed.
#[export] Hint Resolve respond_stable : deproxy.

Lemma handle_request_stable ep cmd path hs : stable conn_le (handle_request ep cmd path hs).
Proof. unfold handle_request. conn_stable_split. Qed.
#[export] Hint Resolve handle_request_stable : deproxy.



(** ** Termination of the connection loop *)



(** ** Resolving the handler *)

Lemma resolve_handler_matched hs rid r w :
  msg_getitem hs request_id_header_name = Some rid ->
  message_chains (w_deproxy w) !! rid = Some r ->
  resolve_handler hs w = (w, Ok (Some rid, Some r, chain_handler w r)).
Proof.
  intros Hg Hr. unfold resolve_handler.
  rewrite (proj2 (msg_contains_getitem _ _)) by (rewrite Hg; eauto). rewrite Hg.
  unfold py_bind, on_deproxy. simpl. rewrite Hr. by destruct w.
Qed.

Lemma resolve_handler_unregistered hs rid w :
  msg_getitem hs request_id_header_name = Some rid ->
  message_chains (w_deproxy w) !! rid = None ->
  resolve_handler hs w = (w, Ok (Some rid, None, default_handler)).
Proof.
  intros Hg Hr. unfold resolve_handler.
  rewrite (proj2 (msg_contains_getitem _ _)) by (rewrite Hg; eauto). rewrite Hg.
  unfold py_bind, on_deproxy. simpl. rewrite Hr. by destruct w.
Qed.

Lemma resolve_handler_absent hs w :
  msg_getitem hs request_id_header_name = None ->
  resolve_handler hs w = (w, Ok (None, None, default_handler)).
Proof.
  intros Hg. unfold resolve_handler.
  destruct (msg_contains hs _) eqn:Hc; [|done].
  apply msg_contains_getitem in Hc. rewrite Hg in Hc. by destruct Hc.
Qed.

(** [handle_request] once the handler is resolved: the handling is
    recorded in the world, the response is written on the connection. *)
Lemma handle_request_run ep cmd path hs w c rid mc f :
  resolve_handler hs w = (w, Ok (rid, mc, f)) ->
  let incoming := mkRequest cmd path hs (BFile (rfile c)) in
  let resp := echo_request_id rid (f incoming) in
  handle_request ep cmd path hs (w, c) =
    (((record_handling mc (mkHandling ep incoming resp) w).1, (respond resp c).1),
     (respond resp c).2).
Proof.
  intros Hres. unfold handle_request.
  rewrite (py_bind_ok _ _ (w, c) (w, c) c) by reflexivity. cbv beta.
  rewrite (py_bind_ok _ _ (w, c) (w, c) (rid, mc, f)); [|by rewrite world_op_run, Hres].
  unfold py_bind. rewrite world_op_run.
  destruct mc; simpl; rewrite conn_op_run; reflexivity.
Qed.

(** Resolving the handler reads the world and never fails. *)
Lemma resolve_handler_pure hs w : exists rid mc f, resolve_handler hs w = (w, Ok (rid, mc, f)).
Proof.
  destruct (msg_getitem hs request_id_header_name) as [rid|] eqn:Hg.
  - destruct (message_chains (w_deproxy w) !! rid) as [r|] eqn:Hr.
    + eexists _, _, _. exact (resolve_handler_matched hs rid r w Hg Hr).
    + eexists _, _, _. exact (resolve_handler_unregistered hs rid w Hg Hr).
  - eexists _, _, _. exact (resolve_handler_absent hs w Hg).
Qed.

(** Under the [try] of line 140, the world after [handle_request] is the
    one [record_handling] left, whether the write went through or timed
    out. *)
Lemma handle_request_try_world ep cmd path hs w c rid mc f :
  resolve_handler hs w = (w, Ok (rid, mc, f)) ->
  let incoming := mkRequest cmd path hs (BFile (rfile c)) in
  (py_try is_timeout (handle_request ep cmd path hs)
     (fun _ => conn_op (py_modify (fun c => set_close c true))) (w, c)).1.1 =
  (record_handling mc (mkHandling ep incoming (echo_request_id rid (f incoming))) w).1.
Proof.
  intros Hres incoming. unfold py_try. rewrite (handle_request_run _ _ _ _ _ _ _ _ _ Hres).
  destruct (respond _ c) as [c' [[]|e]]; simpl; [done|]. by destruct (is_timeout e).
Qed.

(** ** The bytes of a response *)

(** What lines 175-181 write for [resp] on an HTTP/1.x connection whose
    clock reads [date]. *)
Definition response_events (date : string) (resp : Response) : list wire_event :=
  ([WStatusLine protocol_version (resp_code resp) (resp_message resp);
    WHeader "Server" server_version_string; WHeader "Date" date] ++
   map (fun kv => WHeader kv.1 kv.2) (map_to_list (resp_headers resp)) ++
   [WEndHeaders] ++
   (if String.eqb (resp_body resp) "" then [] else [WBody (resp_body resp)]))%list.

Lemma emits_send_headers d hs :
  emits d (send_headers hs) (map (fun kv => WHeader kv.1 kv.2) hs).
Proof.
  induction hs as [|[k v] hs IH]; simpl; [auto with deproxy|].
  apply (emits_bind d _ _ [WHeader k v]); auto with deproxy.
Qed.

Lemma emits_write_body d b :
  emits d (write_body b) (if String.eqb b "" then [] else [WBody b]).
Proof. unfold write_body. case_match; auto with deproxy. Qed.

Lemma emits_respond d resp : emits d (respond resp) (response_events d resp).
Proof.
  unfold respond, response_events.
  repeat apply emits_bind; auto using emits_send_headers, emits_write_body with deproxy.
Qed.

(** A socket that cannot take a single write waits on the status line. *)
Lemma respond_blocked resp c :
  wcap c = Some 0 -> request_version c <> default_request_version ->
  respond resp c = (c, Raise (wait_exn c)).
Proof.
  intros Hw Hv. unfold respond, send_response, py_bind at 1 2, when_not_http09, wfile_write.
  rewrite (proj2 (String.eqb_neq _ _) Hv), Hw. reflexivity.
Qed.

(** ** [handle_one_request] on a request that parses *)

Lemma handle_one_request_parsed ep w c raw c1 cmd path hs c2 :
  rfile_readline (Some (S max_requestline)) c = (c1, Ok raw) ->
  String.length raw <= max_requestline -> raw <> "" ->
  parse_request raw c1 = (c2, Ok (Some (cmd, path, hs))) ->
  handle_one_request ep (w, c) =
    py_try is_timeout (handle_request ep cmd path hs)
      (fun _ => conn_op (py_modify (fun c => set_close c true))) (w, c2).
Proof.
  intros Hr Hlen Hne Hp. unfold handle_one_request, py_try.
  rewrite (py_bind_ok _ _ (w, c) (w, c1) raw) by (by rewrite conn_op_run, Hr).
  unfold handle_requestline.
  replace (Nat.ltb max_requestline (String.length raw)) with false by (symmetry; apply Nat.ltb_ge; lia).
  rewrite (proj2 (String.eqb_neq _ _) Hne).
  by rewrite (py_bind_ok _ _ (w, c1) (w, c2) (Some (cmd, path, hs))) by (by rewrite conn_op_run, Hp).
Qed.

(** ** The three ways a parsed request is answered *)

Section ParsedRequest.
(** A request line of at most 65536 characters was read from [c] and
    [parse_request] returned the command, the path and the headers [hs],
    leaving the connection in state [c2], on a socket that does not time
    out, speaking HTTP/1.x. *)
Context (ep : address) (w : World) (c c1 c2 : Conn) (raw cmd path : string)
  (hs : header_list).
Hypothesis Hread : rfile_readline (Some (S max_requestline)) c = (c1, Ok raw).
Hypothesis Hlen : String.length raw <= max_requestline.
Hypothesis Hne : raw <> "".
Hypothesis Hparse : parse_request raw c1 = (c2, Ok (Some (cmd, path, hs))).

Let incoming := mkRequest cmd path hs (BFile (rfile c2)).

Lemma parsed_answer rid mc f :
  wcap c2 = None -> request_version c2 <> default_request_version ->
  resolve_handler hs w = (w, Ok (rid, mc, f)) ->
  let resp := echo_request_id rid (f incoming) in
  (handle_one_request ep (w, c)).1.1 = (record_handling mc (mkHandling ep incoming resp) w).1 /\
  wfile (handle_one_request ep (w, c)).1.2 = (wfile c2 ++ response_events (clock c2) resp)%list.
Proof.
  intros Hw Hv Hres resp.
  rewrite (handle_one_request_parsed ep w c raw c1 cmd path hs c2) by done.
  unfold py_try. rewrite (handle_request_run _ _ _ _ _ _ _ _ _ Hres).
  destruct (emits_respond (clock c2) resp c2 Hw Hv eq_refl) as (c3 & E & _ & _ & Hwf & _).
  fold incoming resp. rewrite E. split; [|exact Hwf].
  destruct mc; reflexivity.
Qed.

(** C1: correlation.  A request whose [Request-ID] header names a
    registered chain is answered by that chain's handler; the response
    carries the same id back in its [Request-ID] header; exactly that
    chain gets the [Handling] (this endpoint, the inbound request, the
    echoed response) appended after its earlier ones, and nothing else of
    the world changes; the bytes written are the echoed response. *)
Theorem handle_one_request_matched rid r mc :
  wcap c2 = None -> request_version c2 <> default_request_version ->
  msg_getitem hs request_id_header_name = Some rid ->
  message_chains (w_deproxy w) !! rid = Some r ->
  w_heap w !! r = Some mc ->
  let resp := set_header (handler_function mc incoming) request_id_header_name rid in
  (handle_one_request ep (w, c)).1.1 =
    set_heap w (<[r := add_handling (mkHandling ep incoming resp) mc]> (w_heap w)) /\
  wfile (handle_one_request ep (w, c)).1.2 = (wfile c2 ++ response_events (clock c2) resp)%list.
Proof.
  intros Hw Hv Hg Hr Hmc resp.
  destruct (parsed_answer (Some rid) (Some r) (chain_handler w r) Hw Hv
              (resolve_handler_matched hs rid r w Hg Hr)) as [H1 H2].
  unfold chain_handler in H1, H2. rewrite Hmc in H1, H2.
  split; [|exact H2]. rewrite H1. simpl. by rewrite (heap_add_handling_insert _ _ mc).
Qed.

(** C7: a [Request-ID] that names no registered chain gets the default
    handler's response, but with the id echoed in a [Request-ID] header
    (line 167 tests only the header's presence), and the world is left
    unchanged: no chain records anything. *)
Theorem handle_one_request_unregistered rid :
  wcap c2 = None -> request_version c2 <> default_request_version ->
  msg_getitem hs request_id_header_name = Some rid ->
  message_chains (w_deproxy w) !! rid = None ->
  (handle_one_request ep (w, c)).1.1 = w /\
  wfile (handle_one_request ep (w, c)).1.2 =
    (wfile c2 ++ response_events (clock c2)
                    (mkResponse 200 "OK" {[request_id_header_name := rid]} ""))%list.
Proof.
  intros Hw Hv Hg Hr.
  exact (parsed_answer (Some rid) None default_handler Hw Hv
           (resolve_handler_unregistered hs rid w Hg Hr)).
Qed.

(** C8: without a [Request-ID] header the answer is exactly the default
    [200 OK] with the library's [Server] and [Date] headers, no other
    header and no body, whatever the method, path, other headers or body;
    the world is left unchanged. *)
Theorem handle_one_request_no_id :
  wcap c2 = None -> request_version c2 <> default_request_version ->
  msg_getitem hs request_id_header_name = None ->
  (handle_one_request ep (w, c)).1.1 = w /\
  wfile (handle_one_request ep (w, c)).1.2 =
    (wfile c2 ++ [WStatusLine "HTTP/1.0" 200 "OK"; WHeader "Server" server_version_string;
                  WHeader "Date" (clock c2); WEndHeaders])%list.
Proof.
  intros Hw Hv Hg.
  exact (parsed_answer None None default_handler Hw Hv (resolve_handler_absent hs w Hg)).
Qed.

(** C10: the handling is recorded before the response is written (line
    173 precedes line 175): when the socket has a timeout set and it
    fires on the first write,
    the matched chain has the handling of a response the client never
    received, nothing is written, the connection is marked for close and
    [handle_one_request] returns normally. *)
Theorem handle_one_request_matched_timeout rid r mc :
  wcap c2 = Some 0 -> sock_timeout c2 = true -> request_version c2 <> default_request_version ->
  msg_getitem hs request_id_header_name = Some rid ->
  message_chains (w_deproxy w) !! rid = Some r ->
  w_heap w !! r = Some mc ->
  let resp := set_header (handler_function mc incoming) request_id_header_name rid in
  handle_one_request ep (w, c) =
    ((set_heap w (<[r := add_handling (mkHandling ep incoming resp) mc]> (w_heap w)),
      set_close c2 true), Ok tt).
Proof.
  intros Hw Ht Hv Hg Hr Hmc resp.
  rewrite (handle_one_request_parsed ep w c raw c1 cmd path hs c2) by done.
  unfold py_try.
  rewrite (handle_request_run _ _ _ _ _ _ _ _ _ (resolve_handler_matched hs rid r w Hg Hr)).
  unfold chain_handler. rewrite Hmc. fold incoming resp.
  rewrite (respond_blocked _ c2 Hw Hv). unfold wait_exn. rewrite Ht. simpl.
  by rewrite (heap_add_handling_insert _ _ mc).
Qed.

End ParsedRequest.

(** The error response [send_error(414)] writes after line 143-145 cleared
    [request_version] and [command]. *)
Definition error_414_events (date : string) : list wire_event :=
  [WStatusLine protocol_version 414 "Request-URI Too Long";
   WHeader "Server" server_version_string; WHeader "Date" date;
   WHeader "Content-Type" "text/html"; WHeader "Connection" "close";
   WEndHeaders; WBody (error_page 414 None)].

Lemma send_error_414_run c :
  wcap c = None -> request_version c <> default_request_version -> command c <> "HEAD" ->
  exists c', send_error 414 None c = (c', Ok tt) /\
    appended c (error_414_events (clock c)) c' /\ close_connection c' = true.
Proof.
  intros Hw Hv Hc. unfold send_error.
  emit_through (emits_send_response (clock c) 414 "Request-URI Too Long").
  emit_through (emits_send_header (clock c) "Content-Type" "text/html").
  emit_through (emits_send_header (clock c) "Connection" "close").
  apply send_header_connection_close in Em1.
  emit_through (emits_end_headers (clock c)). apply end_headers_close in Em2.
  rewrite (proj2 (String.eqb_neq _ _)) by congruence. simpl.
  unfold wfile_write. rewrite H21. eexists. split; [reflexivity|]. simpl.
  split; [|congruence]. unfold appended; simpl. repeat split; try congruence.
  rewrite H19, H13, H7, H1. unfold error_414_events. rewrite <- !app_assoc. simpl. congruence.
Qed.

(** C11: a request line longer than 65536 characters ([readline(65537)]
    returned all 65537 it may) is answered with the 414 error response, the
    connection is marked for close and no chain or registry entry is
    touched. *)
Theorem handle_one_request_414 ep w c :
  max_requestline < String.length (take_line (Some (S max_requestline)) (rfile c)).1 ->
  wcap c = None ->
  (handle_one_request ep (w, c)).1.1 = w /\
  close_connection (handle_one_request ep (w, c)).1.2 = true /\
  wfile (handle_one_request ep (w, c)).1.2 = (wfile c ++ error_414_events (clock c))%list.
Proof.
  intros Hlong Hw.
  pose proof (take_line_bound (S max_requestline) (rfile c)) as Hb.
  unfold handle_one_request, py_try.
  rewrite (py_bind_ok _ _ (w, c)
             (w, set_rfile c (take_line (Some (S max_requestline)) (rfile c)).2)
             (take_line (Some (S max_requestline)) (rfile c)).1)
    by (rewrite conn_op_run, rfile_readline_full by lia; reflexivity).
  unfold handle_requestline.
  replace (Nat.ltb max_requestline _) with true by (symmetry; apply Nat.ltb_lt; lia).
  destruct (send_error_414_run (set_request (set_rfile c (take_line (Some (S max_requestline)) (rfile c)).2) "" ""))
    as (c' & E & (_ & _ & Hwf & _ & Hclk & _) & Hcl); [done|done|done|].
  rewrite (py_bind_ok _ _ _
             (w, set_request (set_rfile c (take_line (Some (S max_requestline)) (rfile c)).2) "" "")
             tt) by reflexivity.
  rewrite conn_op_run, E. simpl in *. rewrite Hwf. by split; [|split].
Qed.

(** ** The server only appends correctly tagged handlings *)

(** [h] was recorded for a request whose [Request-ID] the registry [reg]
    maps to chain [r], and its response echoes that id. *)
Definition tagged (reg : gmap string chain_ref) (r : chain_ref) (h : Handling) : Prop :=
  exists rid, msg_getitem (req_headers (handling_request h)) request_id_header_name = Some rid /\
    reg !! rid = Some r /\ resp_headers (handling_response h) !! request_id_header_name = Some rid.

(** [mc'] is [mc] with handlings tagged for [r] appended. *)
Definition chain_ext (reg : gmap string chain_ref) (r : chain_ref) (mc mc' : MessageChain) : Prop :=
  handler_function mc' = handler_function mc /\ sent_request mc' = sent_request mc /\
  received_response mc' = received_response mc /\
  exists new, handlings mc' = (handlings mc ++ new)%list /\ Forall (tagged reg r) new.

Definition heap_ext (reg : gmap string chain_ref) (hp hp' : chain_heap) : Prop :=
  forall r, match hp !! r, hp' !! r with
            | Some mc, Some mc' => chain_ext reg r mc mc'
            | None, None => True
            | _, _ => False
            end.

(** A server step changes only the chain heap, and only by [heap_ext]. *)
Definition srv_ext (st st' : World * Conn) : Prop :=
  st'.1 = set_heap st.1 (w_heap st'.1) /\
  heap_ext (message_chains (w_deproxy st.1)) (w_heap st.1) (w_heap st'.1).

Lemma chain_ext_refl reg r mc : chain_ext reg r mc mc.
Proof. repeat split. exists []. by rewrite app_nil_r. Qed.

Lemma chain_ext_trans reg r mc1 mc2 mc3 :
  chain_ext reg r mc1 mc2 -> chain_ext reg r mc2 mc3 -> chain_ext reg r mc1 mc3.
Proof.
  intros (H1 & H2 & H3 & n1 & Hn1 & F1) (H1' & H2' & H3' & n2 & Hn2 & F2).
  repeat split; try congruence. exists (n1 ++ n2)%list.
  rewrite Hn2, Hn1, app_assoc. split; [done|]. by apply Forall_app.
Qed.

#[export] Instance srv_ext_preorder : PreOrder srv_ext.
Proof.
  split.
  - intros [[d hp ds b u] c]. split; [done|]. intros r. simpl.
    destruct (hp !! r); [apply chain_ext_refl|done].
  - intros [w1 c1] [w2 c2] [w3 c3] [E12 H12] [E23 H23]; simpl in *.
    split; [by rewrite E23, E12|].
    assert (w_deproxy w2 = w_deproxy w1) as Hd by (rewrite E12; by destruct w1).
    rewrite Hd in H23. intros r. simpl. specialize (H12 r). specialize (H23 r).
    destruct (w_heap w1 !! r), (w_heap w2 !! r), (w_heap w3 !! r); try done.
    by eapply chain_ext_trans.
Qed.

Lemma heap_ext_refl reg hp : heap_ext reg hp hp.
Proof. intros r. destruct (hp !! r); [apply chain_ext_refl|done]. Qed.

(** [heap_ext] never allocates or frees a chain. *)
Lemma heap_ext_is_Some reg hp hp' r :
  heap_ext reg hp hp' -> is_Some (hp' !! r) <-> is_Some (hp !! r).
Proof.
  intros Hx. specialize (Hx r).
  destruct (hp !! r), (hp' !! r); try contradiction; split; intros []; eauto.
Qed.

Lemma srv_ext_conn w c c' : srv_ext (w, c) (w, c').
Proof. split; [by destruct w|]. apply heap_ext_refl. Qed.

Lemma conn_op_srv_ext {A} (m : PyM Conn A) : stable srv_ext (conn_op m).
Proof. intros [w c]. rewrite conn_op_run. apply srv_ext_conn. Qed.
#[export] Hint Resolve conn_op_srv_ext : deproxy.

Lemma record_handling_tagged w r mc h :
  w_heap w !! r = Some mc -> tagged (message_chains (w_deproxy w)) r h ->
  heap_ext (message_chains (w_deproxy w)) (w_heap w) (heap_add_handling r h (w_heap w)).
Proof.
  intros Hr Ht r'. destruct (decide (r = r')) as [<-|Hne].
  - rewrite heap_add_handling_same, Hr. simpl. repeat split.
    exists [h]. split; [done|]. by constructor.
  - rewrite heap_add_handling_other by done.
    destruct (w_heap w !! r'); [apply chain_ext_refl|done].
Qed.

Lemma handle_request_srv_ext ep cmd path hs : stable srv_ext (handle_request ep cmd path hs).
Proof.
  intros [w c]. simpl.
  destruct (msg_getitem hs request_id_header_name) as [rid|] eqn:Hg.
  - destruct (message_chains (w_deproxy w) !! rid) as [r|] eqn:Hr.
    + rewrite (handle_request_run _ _ _ _ _ _ _ _ _ (resolve_handler_matched hs rid r w Hg Hr)).
      simpl. split; [by destruct w|]. simpl.
      destruct (w_heap w !! r) as [mc|] eqn:Hmc.
      * apply (record_handling_tagged _ _ mc); [done|]. exists rid. simpl. split; [done|]. split; [done|].
        apply set_header_lookup.
      * unfold heap_add_handling. intros r'. rewrite lookup_alter.
        case_decide; subst; [rewrite Hmc; done|].
        destruct (w_heap w !! r'); [apply chain_ext_refl|done].
    + rewrite (handle_request_run _ _ _ _ _ _ _ _ _ (resolve_handler_unregistered hs rid w Hg Hr)).
      apply srv_ext_conn.
  - rewrite (handle_request_run _ _ _ _ _ _ _ _ _ (resolve_handler_absent hs w Hg)).
    apply srv_ext_conn.
Qed.
#[export] Hint Resolve handle_request_srv_ext : deproxy.

Ltac srv_stable_split :=
  py_split_with ltac:(refine (stable_bind srv_ext _ _ _ _));
  try exact _;
  eauto with deproxy.

Lemma handle_requestline_srv_ext ep raw : stable srv_ext (handle_requestline ep raw).
Proof. unfold handle_requestline. srv_stable_split. Qed.

Lemma handle_one_request_srv_ext ep : stable srv_ext (handle_one_request ep).
Proof.
  unfold handle_one_request. apply stable_try; [exact _| |eauto with deproxy].
  srv_stable_split. apply handle_requestline_srv_ext.
Qed.

Lemma handle_loop_srv_ext fuel ep : stable srv_ext (handle_loop fuel ep).
Proof.
  induction fuel as [|f IH]; simpl; [eauto with deproxy|].
  srv_stable_split; apply handle_one_request_srv_ext.
Qed.

Lemma handle_ext ep w c : srv_ext (w, c) (handle ep (w, c)).1.
Proof.
  exact (stable_bind srv_ext _ _ (conn_op_srv_ext _)
           (fun _ => handle_loop_srv_ext (S (String.length (rfile c))) ep) (w, c)).
Qed.

(** After its first round, the rest of [handle] only extends the chains. *)
Lemma handle_first_round ep w c :
  srv_ext (handle_one_request ep (w, set_close c true)).1 (handle ep (w, c)).1.
Proof.
  unfold handle. cbv beta.
  rewrite (py_bind_ok _ _ (w, c) (w, set_close c true) tt) by reflexivity.
  cbn [handle_loop].
  destruct (handle_one_request_ok ep (w, set_close c true)) as [Hok|Hok];
    destruct (handle_one_request ep (w, set_close c true)) as [st1 r] eqn:E;
    simpl in Hok; subst r; [|rewrite (py_bind_err _ _ _ _ _ E); reflexivity].
  rewrite (py_bind_ok _ _ _ _ _ E).
  assert (stable srv_ext (st <- py_get ;;
            if close_connection st.2 then return tt
            else handle_loop (String.length (rfile (w, c).2)) ep)) as Hs.
  { srv_stable_split. all: try apply handle_loop_srv_ext. }
  apply Hs.
Qed.

(** A first round that leaves the connection marked for close is all of
    [handle]. *)
Lemma handle_one_round ep w c :
  close_connection (handle_one_request ep (w, set_close c true)).1.2 = true ->
  (handle ep (w, c)).1 = (handle_one_request ep (w, set_close c true)).1.
Proof.
  intros Hcl. unfold handle. cbv beta.
  rewrite (py_bind_ok _ _ (w, c) (w, set_close c true) tt) by reflexivity. cbn [handle_loop].
  destruct (handle_one_request_ok ep (w, set_close c true)) as [Hok|Hok];
    destruct (handle_one_request ep (w, set_close c true)) as [st1 r] eqn:E;
    simpl in Hok, Hcl; subst r; [|by rewrite (py_bind_err _ _ _ _ _ E)].
  rewrite (py_bind_ok _ _ _ _ _ E).
  unfold py_bind, py_get. simpl. by rewrite Hcl.
Qed.

(** A first round that returns and marks the connection for close is the
    whole of [handle], result included. *)
Lemma handle_one_round_ok ep w c st1 :
  handle_one_request ep (w, set_close c true) = (st1, Ok tt) -> close_connection st1.2 = true ->
  handle ep (w, c) = (st1, Ok tt).
Proof.
  intros E Hcl. unfold handle. cbv beta.
  rewrite (py_bind_ok _ _ (w, c) (w, set_close c true) tt) by reflexivity. cbn [handle_loop].
  rewrite (py_bind_ok _ _ _ _ _ E). unfold py_bind, py_get. simpl. by rewrite Hcl.
Qed.

(** A first round that returns and leaves the connection open is followed
    by a second one, which the rest of [handle] only extends. *)
Lemma handle_second_round ep w c st1 :
  rfile c <> "" ->
  handle_one_request ep (w, set_close c true) = (st1, Ok tt) ->
  close_connection st1.2 = false ->
  srv_ext (handle_one_request ep st1).1 (handle ep (w, c)).1.
Proof.
  intros Hne E Hcl. unfold handle. cbv beta. cbn [snd].
  rewrite (py_bind_ok _ _ (w, c) (w, set_close c true) tt) by reflexivity.
  destruct (rfile c) as [|ch s] eqn:Hr; [done|]. cbn [handle_loop String.length].
  rewrite (py_bind_ok _ _ _ _ _ E), (py_bind_ok _ _ st1 st1 st1) by reflexivity.
  cbv beta. rewrite Hcl. cbn [handle_loop].
  destruct (handle_one_request_ok ep st1) as [Hok|Hok];
    destruct (handle_one_request ep st1) as [st2 r] eqn:E2; simpl in Hok; subst r;
    [|rewrite (py_bind_err _ _ _ _ _ E2); reflexivity].
  rewrite (py_bind_ok _ _ _ _ _ E2).
  assert (stable srv_ext (st <- py_get ;;
            if close_connection st.2 then return tt else handle_loop (String.length s) ep)) as Hs.
  { srv_stable_split. all: try apply handle_loop_srv_ext. }
  apply Hs.
Qed.

(** C2: no cross-talk, on the server side.  Whatever a connection carries,
    serving it leaves the registry, the endpoints, the dicts and the uuid
    source as they were and changes each chain only by appending handlings,
    every one of which was recorded for a request whose [Request-ID] the
    registry maps to that very chain and whose response echoes that id;
    the handler, [sent_request] and [received_response] of every chain are
    untouched and no chain appears or disappears. *)
Theorem handle_srv_ext ep w c :
  let w' := (handle ep (w, c)).1.1 in
  w' = set_heap w (w_heap w') /\
  heap_ext (message_chains (w_deproxy w)) (w_heap w) (w_heap w').
Proof.
  exact (handle_ext ep w c).
Qed.

(** ** Witnesses *)

Definition demo_ep : address := ("localhost", 8081).
Definition demo_requestline : string := "GET /abc/123 HTTP/1.1" ++ crlf.
Definition demo_request (header_lines : string) : string :=
  demo_requestline ++ header_lines ++ crlf.
(** A test connection: the client keeps it open, and a timeout is set. *)
Definition demo_conn (bytes : string) (cap : option nat) : Conn :=
  mkConn bytes false [] cap "Mon" false "" "" true.
Definition demo_world : World :=
  mkWorld (mkDeproxy {["id-1" := 1]} [demo_ep]) {[1 := new_message_chain handler2]}
    {[0 := ∅]} {[demo_ep]} 0.
Definition demo_incoming (hs : header_list) (c : Conn) : Request :=
  mkRequest "GET" "/abc/123" hs
    (BFile (rfile (parse_request demo_requestline
                     (rfile_readline (Some (S max_requestline)) c).1).1)).

Fixpoint str_repeat (n : nat) (ch : ascii) : string :=
  match n with 0 => "" | S n' => String ch (str_repeat n' ch) end.

Ltac witness_hyps :=
  first [apply Nat.leb_le; vm_compute; reflexivity | vm_compute; first [reflexivity | congruence]].

Lemma handle_one_request_matched_witness :
  let c := demo_conn (demo_request ("Request-ID: id-1" ++ crlf)) None in
  let c2 := (parse_request demo_requestline (rfile_readline (Some (S max_requestline)) c).1).1 in
  let incoming := demo_incoming [("Request-ID", "id-1")] c in
  let resp := set_header (handler2 incoming) request_id_header_name "id-1" in
  (handle_one_request demo_ep (demo_world, c)).1.1 =
    set_heap demo_world (<[1 := add_handling (mkHandling demo_ep incoming resp)
                                  (new_message_chain handler2)]> (w_heap demo_world)) /\
  wfile (handle_one_request demo_ep (demo_world, c)).1.2 =
    (wfile c2 ++ response_events (clock c2) resp)%list.
Proof.
  intros c c2 incoming resp.
  apply (handle_one_request_matched demo_ep demo_world c (rfile_readline (Some (S max_requestline)) c).1 c2 demo_requestline "GET" "/abc/123"
           [("Request-ID", "id-1")]); witness_hyps.
Defined.

Lemma handle_one_request_unregistered_witness :
  let c := demo_conn (demo_request ("Request-ID: id-9" ++ crlf)) None in
  let c2 := (parse_request demo_requestline (rfile_readline (Some (S max_requestline)) c).1).1 in
  (handle_one_request demo_ep (demo_world, c)).1.1 = demo_world /\
  wfile (handle_one_request demo_ep (demo_world, c)).1.2 =
    (wfile c2 ++ response_events (clock c2)
                    (mkResponse 200 "OK" {[request_id_header_name := "id-9"]} ""))%list.
Proof.
  intros c c2.
  apply (handle_one_request_unregistered demo_ep demo_world c (rfile_readline (Some (S max_requestline)) c).1 c2 demo_requestline "GET"
           "/abc/123" [("Request-ID", "id-9")]); witness_hyps.
Defined.

Lemma handle_one_request_no_id_witness :
  let c := demo_conn (demo_request ("Host: localhost" ++ crlf)) None in
  let c2 := (parse_request demo_requestline (rfile_readline (Some (S max_requestline)) c).1).1 in
  (handle_one_request demo_ep (demo_world, c)).1.1 = demo_world /\
  wfile (handle_one_request demo_ep (demo_world, c)).1.2 =
    (wfile c2 ++ [WStatusLine "HTTP/1.0" 200 "OK"; WHeader "Server" server_version_string;
                  WHeader "Date" (clock c2); WEndHeaders])%list.
Proof.
  intros c c2.
  apply (handle_one_request_no_id demo_ep demo_world c (rfile_readline (Some (S max_requestline)) c).1 c2 demo_requestline "GET" "/abc/123"
           [("Host", "localhost")]); witness_hyps.
Defined.

Lemma handle_one_request_matched_timeout_witness :
  let c := demo_conn (demo_request ("Request-ID: id-1" ++ crlf)) (Some 0) in
  let c2 := (parse_request demo_requestline (rfile_readline (Some (S max_requestline)) c).1).1 in
  let incoming := demo_incoming [("Request-ID", "id-1")] c in
  let resp := set_header (handler2 incoming) request_id_header_name "id-1" in
  handle_one_request demo_ep (demo_world, c) =
    ((set_heap demo_world (<[1 := add_handling (mkHandling demo_ep incoming resp)
                                    (new_message_chain handler2)]> (w_heap demo_world)),
      set_close c2 true), Ok tt).
Proof.
  intros c c2 incoming resp.
  apply (handle_one_request_matched_timeout demo_ep demo_world c (rfile_readline (Some (S max_requestline)) c).1 c2 demo_requestline "GET"
           "/abc/123" [("Request-ID", "id-1")]); witness_hyps.
Defined.

Lemma handle_one_request_414_witness :
  let c := demo_conn (str_repeat (S max_requestline) "a") None in
  (handle_one_request demo_ep (demo_world, c)).1.1 = demo_world /\
  close_connection (handle_one_request demo_ep (demo_world, c)).1.2 = true /\
  wfile (handle_one_request demo_ep (demo_world, c)).1.2 = (wfile c ++ error_414_events (clock c))%list.
Proof.
  intros c. apply handle_one_request_414; [|reflexivity].
  apply Nat.ltb_lt. vm_compute. reflexivity.
Defined.
