(* ===== verification/Client.v ===== *)
(** * Client: the [requests] / [httplib] collaborator of [make_request]

    [make_request] (src/deproxy.py lines 62-69) calls
    [requests.request(method, url, return_response=False, headers=headers,
    data=request_body)], [req.send()] and reads [req.response].  None of
    this is code of the repository; it is modelled from the spec's
    collaborator interface: the URL names an address and a path; the
    request carries the caller's headers, completed with the session's
    default headers the caller did not set; it goes on the wire as a
    request line, header lines, a blank line and the body; the response is
    read back from the status line, header lines and body the server
    wrote.  [httplib] stores response header names lowercased and joins the
    values of a repeated name with [", "]; [requests] wraps that dict in a
    case-insensitive dict, so a received header is looked up by its
    lowercased name. *)

From stdpp Require Import pretty.
From S2P Require Import Prelude Message HttpServer.
Local Open Scope string_scope.

(** A parsed [http://host:port/path] URL. *)
Record url := mkUrl { url_host : string; url_port : nat; url_path : string }.

Definition url_address (u : url) : address := (url_host u, url_port u).

(** The session defaults [requests] merges under the caller's headers. *)
Definition requests_default_headers : header_list :=
  [("User-Agent", "python-requests"); ("Accept-Encoding", "identity, deflate, compress, gzip");
   ("Accept", "*/*")].

(** [req.headers]: the caller's dict, then each default whose name the
    caller did not set (compared case-insensitively). *)
Definition prepare_headers (d : header_dict) : header_list :=
  map_to_list d ++
  filter (fun kv => negb (existsb (fun k => str_eqi k kv.1) (map fst (map_to_list d))))
    requests_default_headers.

Definition header_line (kv : string * string) : string := kv.1 ++ ": " ++ kv.2 ++ crlf.

(** The bytes [httplib] sends. *)
Definition serialize_request (method path : string) (hs : header_list) (body : string) : string :=
  method ++ " " ++ path ++ " HTTP/1.1" ++ crlf ++
  String.concat "" (map header_line hs) ++ crlf ++ body.

(** What [httplib] adds to [req.headers] on the wire ([putrequest], then
    [_send_request]): [Host] ([host:port] unless the port is 80) and
    [Accept-Encoding: identity], each unless a header of that name is
    already there, and [Content-Length] when a body is sent ([requests]
    sends none for an empty [data]). *)
Definition httplib_added (u : url) (hs : header_list) (body : string) : header_list :=
  let has k := existsb (fun kv => str_eqi kv.1 k) hs in
  (if has "host" then [] else
     [("Host", if Nat.eqb (url_port u) 80 then url_host u
               else url_host u ++ ":" ++ pretty (url_port u))]) ++
  (if has "accept-encoding" then [] else [("Accept-Encoding", "identity")]) ++
  (if String.eqb body "" || has "content-length" then []
   else [("Content-Length", pretty (String.length body))]).

(** The header lines on the wire for a request whose [req.headers] are
    [hs]: [httplib]'s own first, then [hs] in order. *)
Definition wire_headers (u : url) (hs : header_list) (body : string) : header_list :=
  httplib_added u hs body ++ hs.

(** [httplib]'s header dict: lowercased names, repeated values joined. *)
Definition add_received_header (m : header_dict) (kv : string * string) : header_dict :=
  let k := str_lower kv.1 in
  match m !! k with
  | Some v => <[k := v ++ ", " ++ kv.2]> m
  | None => <[k := kv.2]> m
  end.

(** Reading the response the server wrote: a status line, then header lines
    up to the blank line, then the body up to the end of the connection. *)
Fixpoint read_response_headers (evs : list wire_event) (m : header_dict)
    : option (header_dict * list wire_event) :=
  match evs with
  | WHeader k v :: evs' => read_response_headers evs' (add_received_header m (k, v))
  | WEndHeaders :: evs' => Some (m, evs')
  | _ => None
  end.

Definition body_of (evs : list wire_event) : string :=
  String.concat "" (map (fun ev => match ev with WBody b => b | _ => "" end) evs).

(** [None]: [httplib] raises ([BadStatusLine] on an empty answer), which
    [requests] reports as a connection error.  [_read_status] splits the
    status line [line.split(None, 2)] and [begin] keeps
    [reason.strip()]. *)
Definition parse_response (evs : list wire_event) : option Response :=
  match evs with
  | WStatusLine _ code message :: evs' =>
      match read_response_headers evs' ∅ with
      | Some (m, rest) => Some (mkResponse code (strip message) m (body_of rest))
      | None => None
      end
  | _ => None
  end.

(** [received_response.headers[name]] *)
Definition received_header (r : Response) (name : string) : option string :=
  resp_headers r !! str_lower name.

(** On a connection the server keeps open, [httplib] finishes reading a
    response only when its [Content-Length] gives the body's length;
    otherwise it reads the body until a close that does not come. *)
Definition framed (r : Response) : bool :=
  match received_header r "Content-Length" with
  | Some v => String.eqb v (pretty (String.length (resp_body r)))
  | None => false
  end.
