(* ===== verification/Wire.v ===== *)
(** * Wire: the request bytes round trip

    [make_request] hands its request to [requests], which writes it on the
    socket as [serialize_request] (Client.v) lays it out; the endpoint's
    [handle_one_request] reads it back through [readline] and
    [parse_request] (HttpServer.v).  This file proves that the two agree:
    the request line gives back the method and the path, the header block
    gives back every header with its value stripped (as [rfc822] does),
    and the body is left unread on [rfile], which is what the handler's
    [Request] carries as its body (line 155).  The conditions are those
    of a request [httplib] can send: a method and a path without
    whitespace, header names without a colon or a newline that do not
    start with a blank, values without a newline. *)

From S2P Require Import Prelude Message HttpServer RequestHandler Client.
Local Open Scope string_scope.
Local Open Scope py_scope.

(** ** Well-formed requests *)

Definition not_nl (c : ascii) : bool := negb (bool_decide (c = nl)).
Definition not_ws (c : ascii) : bool := negb (is_ws c).

(** A request-line word: non-empty, no whitespace. *)
Definition wf_token (s : string) : bool := negb (String.eqb s "") && str_forall not_ws s.

Definition wf_header_name (k : string) : bool :=
  str_forall (fun c => not_nl c && negb (bool_decide (c = ":"%char))) k && negb (starts_ws k).

Definition wf_header (kv : string * string) : bool :=
  wf_header_name kv.1 && str_forall not_nl kv.2.

(** What [rfc822] keeps of a header line: the name, the stripped value. *)
Definition strip_value (kv : string * string) : string * string := (kv.1, strip kv.2).

(** The two parts of [serialize_request] the server reads separately. *)
Definition request_line (method path : string) : string :=
  method ++ " " ++ path ++ " HTTP/1.1" ++ crlf.

Definition header_block (hs : header_list) : string :=
  String.concat "" (map header_line hs) ++ crlf.

Lemma serialize_request_split method path hs body :
  serialize_request method path hs body = request_line method path ++ header_block hs ++ body.
Proof. unfold serialize_request, request_line, header_block. by autorewrite with py. Qed.

(** ** [readline] on a complete line *)

Lemma take_line_line lim l rest :
  str_forall not_nl l = true ->
  match lim with Some n => String.length l < n | None => True end ->
  take_line lim (l ++ String nl rest) = (l ++ String nl "", rest).
Proof.
  revert lim. induction l as [|c l IH]; intros lim Hl Hlim.
  - destruct lim as [[|n]|]; simpl in *; [lia| |]; by destruct (ascii_dec nl nl).
  - simpl in Hl. apply andb_true_iff in Hl as [Hc Hl].
    unfold not_nl in Hc. apply negb_true_iff, bool_decide_eq_false in Hc.
    rewrite str_app_cons.
    assert (take_line lim (String c (l ++ String nl rest)) =
              let (a, b) := take_line (option_map pred lim) (l ++ String nl rest) in
              (String c a, b)) as ->.
    { destruct lim as [[|n]|]; simpl in *; [lia| |]; by destruct (ascii_dec c nl). }
    rewrite IH; [done|done|]. destruct lim as [n|]; simpl in *; lia.
Qed.

Lemma ends_nl_line l : ends_nl (l ++ String nl "") = true.
Proof.
  induction l as [|c l IH]; [done|].
  rewrite str_app_cons. simpl. destruct (l ++ String nl "") eqn:E; [|done].
  destruct l; discriminate.
Qed.

Lemma rfile_readline_line lim l rest c :
  rfile c = l ++ String nl rest ->
  str_forall not_nl l = true ->
  match lim with Some n => String.length l < n | None => True end ->
  rfile_readline lim c = (set_rfile c rest, Ok (l ++ String nl "")).
Proof.
  intros Hc Hl Hlim. unfold rfile_readline. rewrite Hc, take_line_line by done.
  by rewrite ends_nl_line.
Qed.

(** ** [strip], [rstrip] and [split] on the pieces of a request *)

Lemma lstrip_p_app p s t :
  lstrip_p p (s ++ t) = if str_forall p s then lstrip_p p t else (lstrip_p p s ++ t).
Proof.
  induction s as [|c s IH]; [done|]. rewrite str_app_cons. simpl.
  destruct (p c); simpl; [exact IH|reflexivity].
Qed.

Lemma lstrip_p_all p s : str_forall p s = true -> lstrip_p p s = "".
Proof.
  induction s as [|c s IH]; [done|]. simpl. rewrite andb_true_iff. intros [-> ?]. auto.
Qed.

Lemma rstrip_p_all p s : str_forall p s = true -> rstrip_p p s = "".
Proof.
  induction s as [|c s IH]; [done|]. simpl. rewrite andb_true_iff. intros [-> Hs].
  by rewrite IH.
Qed.

(** Stripping a suffix of stripped characters. *)
Lemma rstrip_p_app_all p s t : str_forall p t = true -> rstrip_p p (s ++ t) = rstrip_p p s.
Proof.
  intros Ht. induction s as [|c s IH]; [by apply rstrip_p_all|].
  rewrite str_app_cons. simpl. by rewrite IH.
Qed.

(** Stripping leaves a prefix alone when something after it stays. *)
Lemma rstrip_p_app_keep p s t :
  rstrip_p p t <> "" -> rstrip_p p (s ++ t) = s ++ rstrip_p p t.
Proof.
  intros Ht. induction s as [|c s IH]; [done|]. rewrite !str_app_cons. simpl. rewrite IH.
  destruct (String.eqb (s ++ rstrip_p p t) "") eqn:E; [|done].
  apply String.eqb_eq in E. destruct s; simpl in E; [done|discriminate].
Qed.

(** [rfc822] strips the value it reads after the colon: the blank that
    [httplib] writes after the colon and the line end go away. *)
Lemma strip_header_value v : strip (" " ++ v ++ crlf) = strip v.
Proof.
  unfold strip. simpl. rewrite str_app_nil_l, lstrip_p_app.
  destruct (str_forall is_ws v) eqn:Hv.
  - by rewrite (lstrip_p_all _ v).
  - by apply rstrip_p_app_all.
Qed.

Lemma strip_no_ws s : str_forall not_ws s = true -> strip s = s.
Proof.
  intros Hs. unfold strip.
  assert (lstrip_p is_ws s = s) as ->.
  { destruct s as [|c s]; [done|]. simpl in *. unfold not_ws in Hs.
    destruct (is_ws c); [discriminate|done]. }
  induction s as [|c s IH]; [done|]. simpl in *. apply andb_true_iff in Hs as [Hc Hs].
  rewrite IH by done. unfold not_ws in Hc. apply negb_true_iff in Hc. rewrite Hc.
  by rewrite andb_false_r.
Qed.

Lemma split_colon_name k s :
  str_forall (fun c => negb (bool_decide (c = ":"%char))) k = true ->
  split_colon (k ++ String ":" s) = Some (k, s).
Proof.
  induction k as [|c k IH]; [done|]. rewrite str_app_cons. simpl.
  rewrite andb_true_iff. intros [Hc Hk]. rewrite IH by done.
  destruct (ascii_dec c ":"); [subst; discriminate|done].
Qed.

(** A word without whitespace accumulates into the current field. *)
Lemma split_ws_go_word w s cur :
  str_forall not_ws w = true -> split_ws_go (w ++ s) cur = split_ws_go s (cur ++ w).
Proof.
  revert cur. induction w as [|c w IH]; intros cur Hw; [by rewrite str_app_nil_r|].
  simpl in Hw. apply andb_true_iff in Hw as [Hc Hw]. unfold not_ws in Hc.
  apply negb_true_iff in Hc. rewrite str_app_cons. simpl. rewrite Hc, IH by done.
  by rewrite str_app_assoc.
Qed.

Lemma split_ws_go_space s cur : cur <> "" -> split_ws_go (String " " s) cur = cur :: split_ws_go s "".
Proof.
  intros Hc. simpl. destruct (String.eqb cur "") eqn:E; [|done].
  by apply String.eqb_eq in E.
Qed.

Lemma starts_ws_app k s : k <> "" -> starts_ws (k ++ s) = starts_ws k.
Proof. by destruct k. Qed.

(** ** One header line *)

Lemma header_line_colon k v : header_line (k, v) = k ++ String ":" (" " ++ v ++ crlf).
Proof. reflexivity. Qed.

Lemma header_line_app k v rest :
  header_line (k, v) ++ rest = (k ++ ": " ++ v ++ String cr "") ++ String nl rest.
Proof. unfold header_line. by autorewrite with py. Qed.

Lemma header_line_length kv : 4 <= String.length (header_line kv).
Proof.
  destruct kv as [k v]. unfold header_line. rewrite !str_length_app. simpl. lia.
Qed.

Lemma header_line_not_nl k v :
  wf_header (k, v) = true -> str_forall not_nl (k ++ ": " ++ v ++ String cr "") = true.
Proof.
  unfold wf_header, wf_header_name. simpl. rewrite !andb_true_iff. intros [[Hk _] Hv].
  rewrite !str_forall_app, Hv, andb_true_r. simpl.
  eapply str_forall_impl; [|exact Hk]. intros c. rewrite andb_true_iff. by intros [].
Qed.

Lemma set_rfile_twice c s1 s2 : set_rfile (set_rfile c s1) s2 = set_rfile c s2.
Proof. by destruct c. Qed.

(** [readheaders] takes one header line, keeps its name and its stripped
    value, and goes on with the rest of the stream. *)
Lemma read_headers_line fuel acc kv rest c :
  wf_header kv = true -> rfile c = header_line kv ++ rest ->
  read_headers (S fuel) acc c = read_headers fuel (acc ++ [strip_value kv])%list (set_rfile c rest).
Proof.
  destruct kv as [k v]. intros Hwf Hc. simpl read_headers. unfold py_bind.
  rewrite header_line_app in Hc.
  rewrite (rfile_readline_line None _ rest c Hc (header_line_not_nl k v Hwf) I).
  assert ((k ++ ": " ++ v ++ String cr "") ++ String nl "" = header_line (k, v)) as ->
    by (rewrite <- (str_app_nil_r (header_line _)), header_line_app; reflexivity).
  cbn beta iota.
  assert (String.eqb (header_line (k, v)) "" = false) as ->.
  { apply String.eqb_neq. intros E. pose proof (header_line_length (k, v)) as H.
    rewrite E in H. simpl in H. lia. }
  assert (starts_ws (header_line (k, v)) = false) as ->.
  { unfold wf_header, wf_header_name in Hwf. simpl in Hwf.
    rewrite !andb_true_iff, negb_true_iff in Hwf. destruct Hwf as [[_ Hs] _].
    rewrite header_line_colon. destruct (decide (k = "")) as [->|Hne]; [done|].
    by rewrite starts_ws_app. }
  assert (is_blank_line (header_line (k, v)) = false) as ->.
  { pose proof (header_line_length (k, v)) as H. unfold is_blank_line.
    apply orb_false_iff. split; apply String.eqb_neq; intros E; rewrite E in H; simpl in H; lia. }
  unfold wf_header, wf_header_name in Hwf. simpl in Hwf. rewrite !andb_true_iff in Hwf.
  destruct Hwf as [[Hk _] _].
  rewrite header_line_colon, split_colon_name.
  - simpl. unfold strip_value. simpl. by rewrite strip_header_value.
  - eapply str_forall_impl; [|exact Hk]. intros ch. rewrite andb_true_iff. by intros [].
Qed.

(** The blank line ends the block. *)
Lemma read_headers_end fuel acc rest c :
  rfile c = crlf ++ rest -> read_headers (S fuel) acc c = (set_rfile c rest, Ok acc).
Proof.
  intros Hc. simpl read_headers. unfold py_bind.
  rewrite (rfile_readline_line None (String cr "") rest c Hc) by done. reflexivity.
Qed.

Lemma header_block_cons kv hs body :
  header_block (kv :: hs) ++ body = header_line kv ++ (header_block hs ++ body).
Proof. unfold header_block. simpl map. rewrite str_concat_cons. by autorewrite with py. Qed.

Lemma header_block_length hs : List.length hs < String.length (header_block hs).
Proof.
  induction hs as [|kv hs IH]; [simpl; lia|].
  pose proof (header_block_cons kv hs "") as E. rewrite !str_app_nil_r in E.
  rewrite E, str_length_app. pose proof (header_line_length kv). simpl. lia.
Qed.

(** The header block round trip: [readheaders] gives back every header
    [httplib] wrote, values stripped, and stops after the blank line with
    the body unread. *)
Lemma read_headers_block hs fuel acc body c :
  forallb wf_header hs = true -> List.length hs < fuel ->
  rfile c = header_block hs ++ body ->
  read_headers fuel acc c = (set_rfile c body, Ok (acc ++ map strip_value hs)%list).
Proof.
  revert fuel acc c. induction hs as [|kv hs IH]; intros fuel acc c Hwf Hf Hc;
    (destruct fuel as [|fuel]; [simpl in Hf; lia|]).
  - rewrite app_nil_r. by apply read_headers_end.
  - simpl in Hwf. apply andb_true_iff in Hwf as [Hkv Hwf].
    rewrite header_block_cons in Hc. rewrite (read_headers_line _ _ _ _ _ Hkv Hc).
    rewrite (IH fuel) by (done || simpl in *; lia).
    by rewrite set_rfile_twice, <- app_assoc.
Qed.

Lemma read_message_block hs body c :
  forallb wf_header hs = true -> rfile c = header_block hs ++ body ->
  read_message c = (set_rfile c body, Ok (map strip_value hs)).
Proof.
  intros Hwf Hc. unfold read_message. rewrite <- (app_nil_l (map strip_value hs)).
  apply read_headers_block; [done| |done].
  rewrite Hc, str_length_app. pose proof (header_block_length hs). lia.
Qed.

(** ** The request line *)

Lemma wf_token_ne s : wf_token s = true -> s <> "".
Proof. unfold wf_token. rewrite andb_true_iff, negb_true_iff, String.eqb_neq. by intros []. Qed.

Lemma wf_token_no_ws s : wf_token s = true -> str_forall not_ws s = true.
Proof. unfold wf_token. rewrite andb_true_iff. by intros []. Qed.

Lemma split_ws_request m p :
  wf_token m = true -> wf_token p = true ->
  split_ws (m ++ " " ++ p ++ " HTTP/1.1") = [m; p; "HTTP/1.1"].
Proof.
  intros Hm Hp. unfold split_ws.
  rewrite split_ws_go_word, str_app_nil_l by (by apply wf_token_no_ws).
  rewrite str_app_cons, str_app_nil_l, split_ws_go_space by (by apply wf_token_ne).
  rewrite split_ws_go_word, str_app_nil_l by (by apply wf_token_no_ws).
  rewrite split_ws_go_space by (by apply wf_token_ne). reflexivity.
Qed.

Lemma rstrip_request_line m p :
  rstrip_p is_crlf (request_line m p) = m ++ " " ++ p ++ " HTTP/1.1".
Proof.
  assert (rstrip_p is_crlf (p ++ " HTTP/1.1") = p ++ " HTTP/1.1") as E1
    by (rewrite rstrip_p_app_keep; [reflexivity|vm_compute; congruence]).
  assert (p ++ " HTTP/1.1" <> "") as Hne.
  { intros E. apply (f_equal String.length) in E. rewrite str_length_app in E. simpl in E. lia. }
  unfold request_line.
  replace (m ++ " " ++ p ++ " HTTP/1.1" ++ crlf) with ((m ++ " " ++ p ++ " HTTP/1.1") ++ crlf)
    by (by autorewrite with py).
  rewrite rstrip_p_app_all by reflexivity.
  assert (rstrip_p is_crlf (" " ++ p ++ " HTTP/1.1") = " " ++ p ++ " HTTP/1.1") as E2
    by (rewrite rstrip_p_app_keep, E1; [reflexivity|by rewrite E1]).
  rewrite rstrip_p_app_keep, E2; [reflexivity|rewrite E2; discriminate].
Qed.

Lemma check_requestline_request m p :
  wf_token m = true -> wf_token p = true ->
  check_requestline (m ++ " " ++ p ++ " HTTP/1.1") = RLRequest m p "HTTP/1.1".
Proof. intros Hm Hp. unfold check_requestline. by rewrite split_ws_request. Qed.

(** The request line [httplib] writes is one line, read whole by
    [readline(65537)] when it is at most 65536 characters long. *)
Lemma request_line_app m p rest :
  request_line m p ++ rest = (m ++ " " ++ p ++ " HTTP/1.1" ++ String cr "") ++ String nl rest.
Proof. unfold request_line. by autorewrite with py. Qed.

Lemma request_line_length m p :
  String.length (request_line m p) = S (String.length (m ++ " " ++ p ++ " HTTP/1.1" ++ String cr "")).
Proof.
  rewrite <- (str_app_nil_r (request_line m p)), request_line_app, !str_length_app. simpl. lia.
Qed.

Lemma not_ws_not_nl s : str_forall not_ws s = true -> str_forall not_nl s = true.
Proof.
  apply str_forall_impl. intros ch. unfold not_ws, not_nl.
  rewrite !negb_true_iff. intros H. apply bool_decide_eq_false. intros ->. by vm_compute in H.
Qed.

Lemma request_line_not_nl m p :
  wf_token m = true -> wf_token p = true ->
  str_forall not_nl (m ++ " " ++ p ++ " HTTP/1.1" ++ String cr "") = true.
Proof.
  intros Hm%wf_token_no_ws Hp%wf_token_no_ws.
  rewrite !str_forall_app, (not_ws_not_nl m Hm), (not_ws_not_nl p Hp). reflexivity.
Qed.

Lemma map_strip_value_id hs :
  Forall (fun kv => strip kv.2 = kv.2) hs -> map strip_value hs = hs.
Proof.
  induction hs as [|[k v] hs IH]; [done|]. intros [Hv Hs]%Forall_cons. simpl in *.
  unfold strip_value at 1. simpl. by rewrite Hv, IH.
Qed.

(** ** The round trip *)

(** [parse_request] on the request line [httplib] wrote, with the header
    block and the body still on [rfile]: it returns the method, the path
    and the headers (values stripped), records the command and the
    version ["HTTP/1.1"], marks the connection for close, and leaves
    exactly the body on [rfile]. *)
Lemma parse_request_roundtrip m p hs body c :
  wf_token m = true -> wf_token p = true -> forallb wf_header hs = true ->
  rfile c = header_block hs ++ body ->
  parse_request (request_line m p) c =
    (set_rfile (set_request (set_close c true) "HTTP/1.1" m) body,
     Ok (Some (m, p, map strip_value hs))).
Proof.
  intros Hm Hp Hwf Hc. unfold parse_request.
  rewrite (py_bind_ok _ _ c (set_request (set_close c true) default_request_version "") tt)
    by reflexivity.
  rewrite rstrip_request_line, check_requestline_request by done.
  rewrite (py_bind_ok _ _ _ (set_request (set_request (set_close c true) default_request_version "")
                              "HTTP/1.1" m) tt) by reflexivity.
  unfold py_bind. rewrite (read_message_block hs body) by (by destruct c).
  by destruct c.
Qed.

(** ** The endpoint reads the request back *)

(** A well-formed request whose request line fits the 65536-character
    limit: everything [handle_one_request] checks before
    [handle_request]. *)
Definition wf_request (m p : string) (hs : header_list) : bool :=
  wf_token m && wf_token p && forallb wf_header hs &&
  Nat.leb (String.length (request_line m p)) max_requestline.

Lemma wf_request_parts m p hs :
  wf_request m p hs = true ->
  wf_token m = true /\ wf_token p = true /\ forallb wf_header hs = true /\
  String.length (request_line m p) <= max_requestline.
Proof. unfold wf_request. rewrite !andb_true_iff, Nat.leb_le. tauto. Qed.

Lemma handle_one_request_serialized ep w c m p hs body :
  wf_request m p hs = true ->
  rfile c = serialize_request m p hs body ->
  exists c2, rfile c2 = body /\ close_connection c2 = true /\
    (wfile c2 = wfile c /\ wcap c2 = wcap c /\ clock c2 = clock c /\
     request_version c2 = "HTTP/1.1" /\ rfile_eof c2 = rfile_eof c /\
     sock_timeout c2 = sock_timeout c) /\
    handle_one_request ep (w, c) =
      py_try is_timeout (handle_request ep m p (map strip_value hs))
        (fun _ => conn_op (py_modify (fun c => set_close c true))) (w, c2).
Proof.
  intros (Hm & Hp & Hwf & Hlen)%wf_request_parts Hc.
  rewrite serialize_request_split, request_line_app in Hc.
  pose proof (request_line_length m p) as Hl.
  exists (set_rfile (set_request (set_close (set_rfile c (header_block hs ++ body)) true)
                       "HTTP/1.1" m) body).
  split; [reflexivity|]. split; [reflexivity|]. split; [by destruct c|].
  apply (handle_one_request_parsed _ _ _ (request_line m p) (set_rfile c (header_block hs ++ body))).
  - rewrite (rfile_readline_line _ _ _ c Hc (request_line_not_nl m p Hm Hp)) by (simpl; lia).
    by rewrite <- request_line_app, str_app_nil_r.
  - exact Hlen.
  - intros E. rewrite E in Hl. simpl in Hl. lia.
  - apply parse_request_roundtrip; done.
Qed.

(** C14 (round trip): the endpoint receives the request the client
    serialized.  When the bytes on the connection are a well-formed
    request as [httplib] writes it, [handle_one_request] resolves the
    handler on the headers it sent (values stripped by [rfc822]) and the
    only change to the world is the [Handling] of the request with the
    same method, the same path, those headers and, as its body, the
    socket file object holding the unread body, recorded by [record_handling] on the chain the id resolved to,
    whether the response could be written or not. *)
Theorem handle_one_request_delivers ep w c m p hs body :
  wf_request m p hs = true ->
  rfile c = serialize_request m p hs body ->
  let incoming := mkRequest m p (map strip_value hs) (BFile body) in
  exists rid mc f,
    resolve_handler (map strip_value hs) w = (w, Ok (rid, mc, f)) /\
    (handle_one_request ep (w, c)).1.1 =
      (record_handling mc (mkHandling ep incoming (echo_request_id rid (f incoming))) w).1.
Proof.
  intros Hwf Hc incoming.
  destruct (handle_one_request_serialized ep w c m p hs body Hwf Hc) as (c2 & Hb & _ & _ & ->).
  destruct (resolve_handler_pure (map strip_value hs) w) as (rid & mc & f & Hres).
  exists rid, mc, f. split; [done|].
  rewrite (handle_request_try_world _ _ _ _ _ _ _ _ _ Hres). by rewrite Hb.
Qed.

(** ** Witness *)

Definition demo_sent_headers : header_list := [("Host", "localhost"); ("Request-ID", "id-1")].

Lemma handle_one_request_delivers_witness :
  let incoming := mkRequest "GET" "/abc/123" (map strip_value demo_sent_headers) (BFile "hello") in
  exists rid mc f,
    resolve_handler (map strip_value demo_sent_headers) demo_world = (demo_world, Ok (rid, mc, f)) /\
    (handle_one_request demo_ep
       (demo_world, demo_conn (serialize_request "GET" "/abc/123" demo_sent_headers "hello") None)).1.1 =
      (record_handling mc (mkHandling demo_ep incoming (echo_request_id rid (f incoming)))
         demo_world).1.
Proof.
  apply handle_one_request_delivers; [vm_compute; reflexivity|reflexivity].
Defined.
