(* ===== verification/KeepAlive.v ===== *)
(** * KeepAlive: a response that keeps the connection open

    [BaseHTTPRequestHandler.handle] serves requests on a connection until
    [close_connection] is set.  [parse_request] sets it (the class's
    [protocol_version] is ["HTTP/1.0"], so no request header clears it),
    but [send_header] clears it when the handler's response carries
    [Connection: keep-alive].  [DeproxyRequestHandler.handle_one_request]
    never reads the request body: it hands the socket file object to the
    handler (line 155) and returns.  So on such a connection the next
    round reads the unread body as the next request.  This file proves
    that a body which has the form of a request is recorded as a second
    request, on the chain its own [Request-ID] names: spec 4.4 says the
    connection handler reads exactly one request. *)
From S2P Require Import Prelude Message MessageChain Registry World HttpServer RequestHandler Client Wire.
Local Open Scope string_scope.
Local Open Scope py_scope.

(** ** Writing to a peer that reads everything *)

(** What a [Connection] header line does to [close_connection]. *)
Definition conn_effect (kv : string * string) (b : bool) : bool :=
  if String.eqb (str_lower kv.1) "connection" then
    if String.eqb (str_lower kv.2) "close" then true
    else if String.eqb (str_lower kv.2) "keep-alive" then false else b
  else b.

(** [m] returns, reads nothing, leaves the socket's state alone and sets
    [close_connection] by [g], on a socket that takes every write. *)
Definition nocap (m : PyM Conn unit) (g : bool -> bool) : Prop :=
  forall c, wcap c = None -> exists c', m c = (c', Ok tt) /\
    wcap c' = None /\ rfile c' = rfile c /\ rfile_eof c' = rfile_eof c /\
    sock_timeout c' = sock_timeout c /\ close_connection c' = g (close_connection c).

Lemma nocap_ret : nocap (py_ret tt) id.
Proof. intros c Hc. exists c. by repeat split. Qed.

Lemma nocap_bind m k g1 g2 :
  nocap m g1 -> nocap (k tt) g2 -> nocap (py_bind m k) (fun b => g2 (g1 b)).
Proof.
  intros Hm Hk c Hc. destruct (Hm c Hc) as (c1 & E1 & Hw1 & Hr1 & He1 & Ht1 & Hl1).
  destruct (Hk c1 Hw1) as (c2 & E2 & Hw2 & Hr2 & He2 & Ht2 & Hl2).
  exists c2. rewrite (py_bind_ok _ _ _ _ _ E1). repeat split; congruence.
Qed.

Lemma nocap_ext m g g' : nocap m g -> (forall b, g b = g' b) -> nocap m g'.
Proof.
  intros Hm Hg c Hc. destruct (Hm c Hc) as (c' & ? & ? & ? & ? & ? & Hl). exists c'. by rewrite <- Hg.
Qed.

Lemma nocap_write e : nocap (wfile_write e) id.
Proof. intros c Hc. unfold wfile_write. rewrite Hc. eexists. by split. Qed.

Lemma nocap_when m : nocap m id -> nocap (when_not_http09 m) id.
Proof. intros Hm c Hc. unfold when_not_http09. case_match; [exists c; by repeat split|by apply Hm]. Qed.

Lemma nocap_send_header k v : nocap (send_header k v) (conn_effect (k, v)).
Proof.
  unfold send_header. apply (nocap_bind _ _ id); [apply nocap_when, nocap_write|].
  intros c Hc. unfold conn_effect. cbn [fst snd]. repeat case_match; eexists; by split.
Qed.

Lemma nocap_send_headers hs :
  nocap (send_headers hs) (fun b => fold_left (fun b kv => conn_effect kv b) hs b).
Proof.
  induction hs as [|[k v] hs IH]; simpl; [apply nocap_ret|].
  eapply nocap_ext; [apply (nocap_bind _ _ _ _ (nocap_send_header k v) IH)|done].
Qed.

Lemma nocap_send_header_id k v : String.eqb (str_lower k) "connection" = false -> nocap (send_header k v) id.
Proof.
  intros Hk. eapply nocap_ext; [apply nocap_send_header|]. intros b. unfold conn_effect. simpl. by rewrite Hk.
Qed.

Lemma nocap_send_response code msg : nocap (send_response code msg) id.
Proof.
  unfold send_response. eapply nocap_ext; [|done].
  apply (nocap_bind _ _ _ _ (nocap_when _ (nocap_write _))),
    (nocap_bind _ _ _ _ (nocap_send_header_id "Server" server_version_string eq_refl)).
  intros c Hc. destruct (nocap_send_header_id "Date" (clock c) eq_refl c Hc) as (c' & E & H).
  exists c'. rewrite (py_bind_ok _ _ c c c) by reflexivity. by split.
Qed.

Lemma nocap_respond resp :
  nocap (respond resp)
    (fun b => fold_left (fun b kv => conn_effect kv b) (map_to_list (resp_headers resp)) b).
Proof.
  unfold respond. eapply nocap_ext.
  - eapply (nocap_bind _ _ _ _ (nocap_send_response _ _)).
    eapply (nocap_bind _ _ _ _ (nocap_send_headers _)).
    eapply (nocap_bind _ _ _ _ (nocap_when _ (nocap_write _))).
    unfold write_body. case_match; [apply nocap_ret|apply nocap_write].
  - intros b. reflexivity.
Qed.

(** ** Handlers that keep the connection alive *)

Definition is_conn_header (kv : string * string) : bool := String.eqb (str_lower kv.1) "connection".

(** [hd] has a [Connection] header, and every spelling of it says
    [keep-alive]. *)
Definition keeps_alive (hd : header_dict) : Prop :=
  (exists k v, hd !! k = Some v /\ str_lower k = "connection") /\
  forall k v, hd !! k = Some v -> str_lower k = "connection" -> str_lower v = "keep-alive".

Definition handler_keeps_alive (f : handler) : Prop := forall req, keeps_alive (resp_headers (f req)).

Lemma fold_conn_effect hs b :
  Forall (fun kv => is_conn_header kv = true -> str_lower kv.2 = "keep-alive") hs ->
  fold_left (fun b kv => conn_effect kv b) hs b = if existsb is_conn_header hs then false else b.
Proof.
  revert b. induction hs as [|[k v] hs IH]; intros b Hall; [done|].
  apply Forall_cons in Hall as [Hkv Hall]. simpl. rewrite IH by done.
  unfold conn_effect, is_conn_header in *. cbn [fst snd] in *.
  destruct (String.eqb (str_lower k) "connection"); [|done].
  rewrite Hkv by done. simpl. by destruct (existsb _ hs).
Qed.

(** Sending the headers of such a response clears [close_connection]. *)
Lemma respond_keeps_alive resp c :
  keeps_alive (resp_headers resp) -> wcap c = None ->
  exists c', respond resp c = (c', Ok tt) /\ wcap c' = None /\ rfile c' = rfile c /\
    rfile_eof c' = rfile_eof c /\ sock_timeout c' = sock_timeout c /\ close_connection c' = false.
Proof.
  intros [(k & v & Hkv & Hk) Hall] Hc.
  destruct (nocap_respond resp c Hc) as (c' & E & Hw & Hr & He & Ht & Hl). exists c'.
  repeat split; try done. rewrite Hl, fold_conn_effect.
  - replace (existsb _ _) with true; [done|]. symmetry. apply existsb_exists.
    exists (k, v). split; [apply list_elem_of_In; by apply elem_of_map_to_list|].
    unfold is_conn_header. simpl. by rewrite Hk.
  - apply Forall_forall. intros [k' v'] Hin%elem_of_map_to_list Hk'.
    apply String.eqb_eq in Hk'. exact (Hall k' v' Hin Hk').
Qed.

(** The echo of line 168 adds [Request-ID], which is not [Connection]. *)
Lemma echo_keeps_alive rid r :
  keeps_alive (resp_headers r) -> keeps_alive (resp_headers (set_header r request_id_header_name rid)).
Proof.
  assert (str_lower request_id_header_name <> "connection") as Hn by (vm_compute; congruence).
  intros [(k & v & Hkv & Hk) Hall]. simpl. split.
  - exists k, v. rewrite lookup_insert_ne; [done|]. intros <-. congruence.
  - intros k' v'. rewrite lookup_insert. case_decide; [subst k'; congruence|]. apply Hall.
Qed.

(** [add_handling] keeps a chain's handler. *)
Lemma chain_handler_add_handling w r r' h :
  chain_handler (set_heap w (heap_add_handling r' h (w_heap w))) r = chain_handler w r.
Proof.
  unfold chain_handler, heap_add_handling. simpl. rewrite lookup_alter.
  case_decide; [subst; by destruct (w_heap w !! r)|done].
Qed.

(** The handler of [new_message_chain] that answers [200 OK] and keeps
    the connection. *)
Definition keepalive_handler : handler :=
  fun _ => mkResponse 200 "OK" {["Connection" := "keep-alive"]} "".

Lemma keepalive_handler_keeps_alive : handler_keeps_alive keepalive_handler.
Proof.
  intros req. split.
  - exists "Connection", "keep-alive". split; [apply lookup_singleton_eq|done].
  - intros k v. simpl. intros [<- <-]%lookup_singleton_Some. done.
Qed.

(** ** The round the first response leaves open *)

(** The first round on a connection carrying a well-formed request whose
    chain's handler keeps the connection: the handling is recorded, the
    round returns and leaves the connection open, holding the unread
    body. *)
Lemma first_round_keeps_alive ep w c m p hs body rid r mc :
  wf_request m p hs = true -> map strip_value hs = hs ->
  msg_getitem hs request_id_header_name = Some rid ->
  message_chains (w_deproxy w) !! rid = Some r -> w_heap w !! r = Some mc ->
  handler_keeps_alive (handler_function mc) -> wcap c = None ->
  rfile c = serialize_request m p hs body ->
  let req := mkRequest m p hs (BFile body) in
  let h := mkHandling ep req (set_header (handler_function mc req) request_id_header_name rid) in
  exists c3, rfile c3 = body /\ wcap c3 = None /\ close_connection c3 = false /\
    rfile_eof c3 = rfile_eof c /\ sock_timeout c3 = sock_timeout c /\
    handle_one_request ep (w, c) = ((set_heap w (heap_add_handling r h (w_heap w)), c3), Ok tt).
Proof.
  intros Hwf Hstrip Hget Hreg Hmc Hf Hw Hc req h.
  destruct (handle_one_request_serialized ep w c m p hs body Hwf Hc)
    as (c2 & Hb & _ & (_ & Hw2 & _ & _ & He2 & Ht2) & ->).
  rewrite Hstrip. unfold py_try.
  rewrite (handle_request_run _ _ _ _ _ _ _ _ _ (resolve_handler_matched _ _ _ _ Hget Hreg)).
  unfold chain_handler. rewrite Hmc, Hb. fold req.
  destruct (respond_keeps_alive (echo_request_id (Some rid) (handler_function mc req)) c2)
    as (c3 & E & Hw3 & Hr3 & He3 & Ht3 & Hl3); [apply echo_keeps_alive, Hf|congruence|].
  rewrite E. exists c3. repeat split; congruence.
Qed.

(** C16 (one request per connection, violated): a request-shaped body is
    served as a second request.  When the connection carries a
    well-formed request whose [Request-ID] names a chain whose handler
    answers with [Connection: keep-alive], the socket takes every write,
    and the request's body is itself a well-formed request (with a body
    of its own) whose [Request-ID] is registered, [handle] records on the
    first id's chain the first request (its body: the socket file object
    still holding the second request), and then on the chain the second
    request's id names the second request, answered by that chain's
    handler with that id echoed.  The chains end up as after these two
    recordings, extended only by handlings tagged for them (C2). *)
Theorem handle_reads_body_as_request ep w c m p hs m2 p2 hs2 body rid r mc rid2 r2 :
  wf_request m p hs = true -> map strip_value hs = hs ->
  msg_getitem hs request_id_header_name = Some rid ->
  message_chains (w_deproxy w) !! rid = Some r -> w_heap w !! r = Some mc ->
  handler_keeps_alive (handler_function mc) -> wcap c = None ->
  wf_request m2 p2 hs2 = true -> map strip_value hs2 = hs2 ->
  msg_getitem hs2 request_id_header_name = Some rid2 ->
  message_chains (w_deproxy w) !! rid2 = Some r2 ->
  rfile c = serialize_request m p hs (serialize_request m2 p2 hs2 body) ->
  let req1 := mkRequest m p hs (BFile (serialize_request m2 p2 hs2 body)) in
  let h1 := mkHandling ep req1 (set_header (handler_function mc req1) request_id_header_name rid) in
  let req2 := mkRequest m2 p2 hs2 (BFile body) in
  let h2 := mkHandling ep req2 (set_header (chain_handler w r2 req2) request_id_header_name rid2) in
  heap_ext (message_chains (w_deproxy w))
    (heap_add_handling r2 h2 (heap_add_handling r h1 (w_heap w)))
    (w_heap (handle ep (w, c)).1.1).
Proof.
  intros Hwf Hstrip Hget Hreg Hmc Hf Hw Hwf2 Hstrip2 Hget2 Hreg2 Hc req1 h1 req2 h2.
  destruct (first_round_keeps_alive ep w (set_close c true) m p hs (serialize_request m2 p2 hs2 body) rid r mc
              Hwf Hstrip Hget Hreg Hmc Hf ltac:(by destruct c) ltac:(by destruct c))
    as (c3 & Hr3 & Hw3 & Hl3 & _ & _ & E1).
  change (heap_add_handling r _ (w_heap w)) with (heap_add_handling r h1 (w_heap w)) in E1.
  pose proof (handle_second_round ep w c _ ltac:(rewrite Hc; by destruct m) E1 Hl3) as [_ Hext].
  destruct (handle_one_request_serialized ep (set_heap w (heap_add_handling r h1 (w_heap w))) c3 m2 p2 hs2 body Hwf2 Hr3) as (c4 & Hb & _ & _ & E2).
  rewrite E2, Hstrip2 in Hext.
  rewrite (handle_request_try_world _ _ _ _ _ _ _ _ _ (resolve_handler_matched hs2 rid2 r2 (set_heap w (heap_add_handling r h1 (w_heap w))) Hget2 Hreg2))
    in Hext.
  rewrite Hb, chain_handler_add_handling in Hext. exact Hext.
Qed.

(** ** A round that waits for ever *)

(** A partial line: [readline] gets what is there and no newline. *)
Lemma take_line_partial n l :
  str_forall not_nl l = true -> String.length l < n -> take_line (Some n) l = (l, "").
Proof.
  revert n. induction l as [|ch l IH]; intros n Hl Hn; [done|].
  simpl in Hl. apply andb_true_iff in Hl as [Hc Hl].
  unfold not_nl in Hc. apply negb_true_iff, bool_decide_eq_false in Hc.
  destruct n as [|n]; simpl in Hn; [lia|]. simpl.
  destruct (ascii_dec ch nl); [done|]. rewrite IH; [done|done|lia].
Qed.

Lemma ends_nl_no_nl l : str_forall not_nl l = true -> ends_nl l = false.
Proof.
  induction l as [|ch l IH]; [done|]. simpl. rewrite andb_true_iff. intros [Hc Hl].
  destruct l as [|ch' l']; [by apply negb_true_iff in Hc|by apply IH].
Qed.

(** On a connection the client keeps open, [readline] of a partial line
    waits for more data. *)
Lemma rfile_readline_waits n c :
  str_forall not_nl (rfile c) = true -> String.length (rfile c) < n -> rfile_eof c = false ->
  rfile_readline (Some n) c = (set_rfile c "", Raise (wait_exn c)).
Proof.
  intros Hl Hn He. unfold rfile_readline.
  rewrite take_line_partial, ends_nl_no_nl, He by done.
  replace (Nat.eqb (String.length (rfile c)) n) with false by (symmetry; apply Nat.eqb_neq; lia).
  reflexivity.
Qed.

(** Such a round on a socket without a timeout never returns: no [except]
    clause sees it. *)
Lemma handle_one_request_blocks ep w c :
  str_forall not_nl (rfile c) = true -> String.length (rfile c) <= max_requestline ->
  rfile_eof c = false -> sock_timeout c = false ->
  handle_one_request ep (w, c) = ((w, set_rfile c ""), Raise Blocked).
Proof.
  intros Hl Hn He Ht. unfold handle_one_request, py_try.
  rewrite (py_bind_err _ _ (w, c) (w, set_rfile c "") Blocked); [reflexivity|].
  rewrite conn_op_run, rfile_readline_waits by (done || lia).
  unfold wait_exn. by rewrite Ht.
Qed.

(** A first round that leaves the connection open, followed by a round
    that blocks: [handle] blocks there. *)
Lemma handle_blocks ep w c st1 st2 :
  rfile c <> "" ->
  handle_one_request ep (w, set_close c true) = (st1, Ok tt) -> close_connection st1.2 = false ->
  handle_one_request ep st1 = (st2, Raise Blocked) ->
  handle ep (w, c) = (st2, Raise Blocked).
Proof.
  intros Hne E Hcl E2. unfold handle. cbv beta. cbn [snd].
  rewrite (py_bind_ok _ _ (w, c) (w, set_close c true) tt) by reflexivity.
  destruct (rfile c) as [|ch s] eqn:Hr; [done|]. cbn [handle_loop String.length].
  rewrite (py_bind_ok _ _ _ _ _ E), (py_bind_ok _ _ st1 st1 st1) by reflexivity.
  cbv beta. rewrite Hcl. cbn [handle_loop]. by rewrite (py_bind_err _ _ _ _ _ E2).
Qed.

(** ** Witness *)

(** A chain for [id-1] whose handler keeps the connection, and a second
    request, smuggled in the first one's body, naming [id-2]. *)
Definition keepalive_world : World :=
  mkWorld (mkDeproxy {["id-1" := 1; "id-2" := 2]} [demo_ep])
    {[1 := new_message_chain keepalive_handler; 2 := new_message_chain handler2]}
    ∅ {[demo_ep]} 0.

Definition smuggled_headers : header_list := [("Request-ID", "id-2")].
Definition outer_headers : header_list := [("Host", "localhost:8081"); ("Request-ID", "id-1")].

Lemma handle_reads_body_as_request_witness :
  let c := demo_conn (serialize_request "POST" "/abc/123" outer_headers
                        (serialize_request "GET" "/smuggled" smuggled_headers "")) None in
  let req1 := mkRequest "POST" "/abc/123" outer_headers
                (BFile (serialize_request "GET" "/smuggled" smuggled_headers "")) in
  let h1 := mkHandling demo_ep req1
              (set_header (keepalive_handler req1) request_id_header_name "id-1") in
  let req2 := mkRequest "GET" "/smuggled" smuggled_headers (BFile "") in
  let h2 := mkHandling demo_ep req2
              (set_header (chain_handler keepalive_world 2 req2) request_id_header_name "id-2") in
  heap_ext (message_chains (w_deproxy keepalive_world))
    (heap_add_handling 2 h2 (heap_add_handling 1 h1 (w_heap keepalive_world)))
    (w_heap (handle demo_ep (keepalive_world, c)).1.1).
Proof.
  intros c req1 h1 req2 h2.
  apply (handle_reads_body_as_request demo_ep keepalive_world c "POST" "/abc/123" outer_headers
           "GET" "/smuggled" smuggled_headers "" "id-1" 1 (new_message_chain keepalive_handler)
           "id-2" 2);
    first [exact keepalive_handler_keeps_alive | vm_compute; reflexivity].
Defined.
