(* ===== verification/Orchestrator.v ===== *)
(** * Orchestrator: [Deproxy.make_request] ([src/deproxy.py] lines 53-71)

    [make_request] draws a request id from [uuid.uuid4()], writes it into
    the [headers] dict it was given (the caller's dict, or the function's
    one default dict: Python evaluates [headers={}] once), allocates a
    [MessageChain], registers it under the id, performs the HTTP call,
    unregisters the id and sets the chain's [sent_request] and
    [received_response].  Nothing runs in a [finally]: an exception of the
    call skips the unregistration.

    The HTTP call is run in one step: the request bytes, with the lines
    [httplib] adds, go to the endpoint bound at the URL's address, whose
    handler thread runs [handle] (RequestHandler.v) on that connection
    against the same world (registry and chain heap), and the bytes it
    wrote are parsed back into the response.  When that thread waits for
    ever on the open connection, the client gets the response only if
    [Content-Length] frames it, and otherwise waits too ([Blocked]).  A
    URL that no endpoint of this [Deproxy] serves is a refused connection.
    [uuid4] is modelled as a source of distinct
    names: the [n]-th draw is [uuid_of n]. *)

From stdpp Require Import pretty.
From S2P Require Import Prelude Message MessageChain Registry World Endpoint HttpServer RequestHandler Client.
Local Open Scope string_scope.
Local Open Scope py_scope.

(** [str(uuid.uuid4())] *)
Definition uuid_of (n : nat) : string := "uuid4-" ++ pretty n.

Definition uuid4 : PyM World string :=
  fun w => (set_uuid w (S (w_uuid w)), Ok (uuid_of (w_uuid w))).

(** [headers[k] = v] on a dict object. *)
Definition dict_setitem (d : dict_ref) (k v : string) : PyM World unit :=
  py_modify (fun w => set_dicts w (alter (fun m => <[k := v]> m) d (w_dicts w))).

Definition dict_read (d : dict_ref) : PyM World header_dict :=
  fun w => (w, Ok (default ∅ (w_dicts w !! d))).

(** [MessageChain(handler_function)] *)
Definition alloc_chain (mc : MessageChain) : PyM World chain_ref :=
  fun w => let (r, hp) := heap_alloc mc (w_heap w) in (set_heap w hp, Ok r).

(** Lines 68-69 on the chain object. *)
Definition finalize_chain (r : chain_ref) (req : Request) (resp : Response) : PyM World unit :=
  py_modify (fun w => set_heap w (alter (finalize req resp) r (w_heap w))).

(** The network as seen by one call: the serving endpoint's clock and how
    many writes the client takes before it stops reading. *)
Record Net := mkNet { net_clock : string; net_wcap : option nat }.

(** The connection the endpoint accepts for one request: the client keeps
    it open while it waits for the response, and the program sets no
    timeout on it. *)
Definition server_conn (net : Net) (bytes : string) : Conn :=
  mkConn bytes false [] (net_wcap net) (net_clock net) false "" "" false.

(** [req.send(); resp = req.response]: [httplib] writes the request with
    its own headers added ([wire_headers]), a thread of the endpoint
    serves the connection ([handle]), and the client reads the response
    back.  When that thread ends, it has closed the connection and the
    client reads what it wrote; when it is blocked (it keeps the
    connection open), the client gets the response only if it is framed
    by its [Content-Length], and otherwise waits for ever. *)
Definition http_request (net : Net) (method : string) (u : url) (hs : header_list)
    (body : string) : PyM World Response :=
  fun w =>
    if decide (url_address u ∈ endpoints (w_deproxy w)) then
      let (st, r) := handle (url_address u)
                       (w, server_conn net (serialize_request method (url_path u)
                                              (wire_headers u hs body) body)) in
      match parse_response (wfile st.2), r with
      | Some resp, Ok _ => (st.1, Ok resp)
      | Some resp, Raise _ => if framed resp then (st.1, Ok resp) else (st.1, Raise Blocked)
      | None, Ok _ => (st.1, Raise (ConnectionError "BadStatusLine"))
      | None, Raise _ => (st.1, Raise Blocked)
      end
    else (w, Raise (ConnectionError "Connection refused")).

(** [make_request(url, method, headers, request_body, handler_function)] *)
Definition make_request (net : Net) (u : url) (method : string) (headers : dict_ref)
    (request_body : string) (handler_function : handler) : PyM World chain_ref :=
  request_id <- uuid4 ;;
  _ <- dict_setitem headers request_id_header_name request_id ;;
  message_chain <- alloc_chain (new_message_chain handler_function) ;;
  _ <- on_deproxy (add_message_chain request_id message_chain) ;;
  hd <- dict_read headers ;;
  let sent_headers := prepare_headers hd in
  resp <- http_request net method u sent_headers request_body ;;
  _ <- on_deproxy (del_message_chain request_id) ;;
  _ <- finalize_chain message_chain (mkRequest method (url_path u) sent_headers (BStr request_body)) resp ;;
  return message_chain.

(** The call with every default: [make_request(url)]. *)
Definition make_request_defaults (net : Net) (u : url) : PyM World chain_ref :=
  make_request net u "GET" make_request_default_headers "" default_handler.

(** ** [make_request] up to the HTTP call *)

Definition mr_rid (w : World) : string := uuid_of (w_uuid w).
Definition mr_ref (w : World) : chain_ref := heap_fresh (w_heap w).

(** The world when line 62 starts: the id drawn and written into the dict,
    the chain allocated and registered. *)
Definition mr_world (w : World) (headers : dict_ref) (f : handler) : World :=
  mkWorld
    (mkDeproxy (<[mr_rid w := mr_ref w]> (message_chains (w_deproxy w))) (endpoints (w_deproxy w)))
    (<[mr_ref w := new_message_chain f]> (w_heap w))
    (alter (fun m => <[request_id_header_name := mr_rid w]> m) headers (w_dicts w))
    (w_bound w) (S (w_uuid w)).

(** The headers [requests] sends. *)
Definition mr_sent (w : World) (headers : dict_ref) : header_list :=
  prepare_headers
    (default ∅ (alter (fun m => <[request_id_header_name := mr_rid w]> m) headers (w_dicts w) !! headers)).

Lemma make_request_run net u method headers body f w :
  make_request net u method headers body f w =
  py_bind (http_request net method u (mr_sent w headers) body)
    (fun resp =>
       _ <- on_deproxy (del_message_chain (mr_rid w)) ;;
       _ <- finalize_chain (mr_ref w) (mkRequest method (url_path u) (mr_sent w headers) (BStr body)) resp ;;
       return (mr_ref w))
    (mr_world w headers f).
Proof. reflexivity. Qed.

(** The HTTP call changes the world only as a server does. *)
Definition world_ext (w w' : World) : Prop :=
  w' = set_heap w (w_heap w') /\
  heap_ext (message_chains (w_deproxy w)) (w_heap w) (w_heap w').

Lemma http_request_ext net method u hs body w :
  world_ext w (http_request net method u hs body w).1.
Proof.
  unfold http_request. case_decide.
  - pose proof (handle_ext (url_address u) w
                  (server_conn net (serialize_request method (url_path u)
                                      (wire_headers u hs body) body))) as Hx.
    destruct (handle _ _) as [st r]. destruct Hx as [E Hh].
    destruct (parse_response _), r; try case_match; simpl; split; auto.
  - simpl. split; [by destruct w|apply heap_ext_refl].
Qed.

Lemma world_ext_deproxy w w' : world_ext w w' -> w_deproxy w' = w_deproxy w.
Proof. intros [-> _]. by destruct w. Qed.

(** What a call that returned normally did after the HTTP call. *)
Lemma make_request_ok net u method headers body f w w' r :
  make_request net u method headers body f w = (w', Ok r) ->
  r = mr_ref w /\
  exists w5 resp,
    http_request net method u (mr_sent w headers) body (mr_world w headers f) = (w5, Ok resp) /\
    w' = set_heap
           (set_deproxy w5 (mkDeproxy (delete (mr_rid w) (message_chains (w_deproxy w5)))
                              (endpoints (w_deproxy w5))))
           (alter (finalize (mkRequest method (url_path u) (mr_sent w headers) (BStr body)) resp)
              (mr_ref w) (w_heap w5)).
Proof.
  rewrite make_request_run. pose proof (http_request_ext net method u (mr_sent w headers) body
                                           (mr_world w headers f)) as Hext.
  unfold py_bind.
  destruct (http_request _ _ _ _ _ _) as [w5 [resp|e]]; [|by intros [=]].
  simpl in Hext. apply world_ext_deproxy in Hext.
  unfold on_deproxy, del_message_chain. rewrite Hext. simpl. rewrite lookup_insert_eq.
  intros [= <- <-]. split; [done|]. exists w5, resp. split; [done|].
  rewrite Hext. reflexivity.
Qed.

(** The chain objects the registry names are allocated. *)
Definition registry_allocated (w : World) : Prop :=
  forall id r, message_chains (w_deproxy w) !! id = Some r -> is_Some (w_heap w !! r).

(** C4: no leak on success: when [make_request] returns, its request id
    is no longer registered and every other registry entry is as before;
    in particular the registry is unchanged when the id was fresh. *)
Theorem make_request_unregisters net u method headers body f w w' r :
  make_request net u method headers body f w = (w', Ok r) ->
  message_chains (w_deproxy w') = delete (mr_rid w) (message_chains (w_deproxy w)).
Proof.
  intros Hmr. destruct (make_request_ok _ _ _ _ _ _ _ _ _ Hmr) as (_ & w5 & resp & Eh & ->).
  pose proof (http_request_ext net method u (mr_sent w headers) body (mr_world w headers f)) as Hx.
  rewrite Eh in Hx. simpl in Hx. apply world_ext_deproxy in Hx. simpl. rewrite Hx. simpl.
  apply delete_insert_eq.
Qed.

(** C5: an exception from the HTTP call leaks the registration: lines
    62-64 are not in a [try]/[finally], so when [make_request] raises, its
    id still maps to its chain in the registry, and a later request
    carrying that id would still be recorded on it (spec §4.5 requires the
    unregistration on every exit). *)
Theorem make_request_raise_leaks net u method headers body f w e :
  (make_request net u method headers body f w).2 = Raise e ->
  message_chains (w_deproxy (make_request net u method headers body f w).1) !! mr_rid w =
    Some (mr_ref w).
Proof.
  rewrite make_request_run.
  pose proof (http_request_ext net method u (mr_sent w headers) body (mr_world w headers f)) as Hx.
  unfold py_bind. destruct (http_request _ _ _ _ _ _) as [w5 [resp|e5]].
  - simpl in Hx. apply world_ext_deproxy in Hx.
    unfold on_deproxy, del_message_chain. rewrite Hx. simpl. rewrite lookup_insert_eq. done.
  - intros _. simpl in *. apply world_ext_deproxy in Hx. rewrite Hx. apply lookup_insert_eq.
Qed.

Lemma make_request_refused net u method headers body f w :
  url_address u ∉ endpoints (w_deproxy w) ->
  (make_request net u method headers body f w).2 = Raise (ConnectionError "Connection refused").
Proof.
  intros Hu. rewrite make_request_run. unfold py_bind, http_request.
  case_decide as Hin; [by destruct Hu|reflexivity].
Qed.

(** A handling tagged for the fresh chain of a call carries that call's id. *)
Lemma tagged_fresh_chain w headers f h :
  registry_allocated w ->
  tagged (message_chains (w_deproxy (mr_world w headers f))) (mr_ref w) h ->
  msg_getitem (req_headers (handling_request h)) request_id_header_name = Some (mr_rid w) /\
  resp_headers (handling_response h) !! request_id_header_name = Some (mr_rid w).
Proof.
  intros Halloc (rid & Hg & Hreg & He). simpl in Hreg.
  rewrite lookup_insert in Hreg. case_decide as Heq; [subst; done|].
  destruct (Halloc _ _ Hreg) as [mc Hmc]. unfold mr_ref in Hmc.
  by rewrite heap_fresh_free in Hmc.
Qed.

(** C3: no cross-talk, for a completed call: the chain [make_request]
    returns runs the caller's handler, holds the request it sent and a
    received response, and every handling recorded on it was for a request
    carrying this call's [Request-ID] and answered with that id echoed. *)
Theorem make_request_correlated net u method headers body f w w' r mc :
  registry_allocated w ->
  make_request net u method headers body f w = (w', Ok r) ->
  w_heap w' !! r = Some mc ->
  handler_function mc = f /\
  sent_request mc = Some (mkRequest method (url_path u) (mr_sent w headers) (BStr body)) /\
  is_Some (received_response mc) /\
  Forall (fun h =>
      msg_getitem (req_headers (handling_request h)) request_id_header_name = Some (mr_rid w) /\
      resp_headers (handling_response h) !! request_id_header_name = Some (mr_rid w))
    (handlings mc).
Proof.
  intros Halloc Hmr Hmc.
  destruct (make_request_ok _ _ _ _ _ _ _ _ _ Hmr) as (-> & w5 & resp & Eh & ->).
  pose proof (http_request_ext net method u (mr_sent w headers) body (mr_world w headers f))
    as [_ Hx].
  rewrite Eh in Hx. specialize (Hx (mr_ref w)). simpl in Hx, Hmc.
  rewrite lookup_insert_eq in Hx. rewrite lookup_alter in Hmc. rewrite decide_True in Hmc by done.
  destruct (w_heap w5 !! mr_ref w) as [mc5|]; [|done]. simpl in Hmc. injection Hmc as <-.
  destruct Hx as (Hf & _ & _ & new & Hh & Hall). simpl in *.
  split; [done|]. split; [done|]. split; [by eexists|]. rewrite Hh.
  eapply Forall_impl; [exact Hall|]. intros h. by apply (tagged_fresh_chain w headers f).
Qed.

(** Line 57 is the only write to a dict, whatever the call's outcome. *)
Lemma make_request_dicts net u method headers body f w :
  w_dicts (make_request net u method headers body f w).1 =
    alter (fun m => <[request_id_header_name := mr_rid w]> m) headers (w_dicts w).
Proof.
  rewrite make_request_run.
  pose proof (http_request_ext net method u (mr_sent w headers) body (mr_world w headers f))
    as [E _].
  unfold py_bind. destruct (http_request _ _ _ _ _ _) as [w5 [resp|e]]; simpl in E; rewrite E.
  - unfold on_deproxy, del_message_chain. simpl. by rewrite lookup_insert_eq.
  - reflexivity.
Qed.

(** C12: the default [headers={}] is one dict shared by every call that
    omits the argument: after [make_request(url)], whether it returned or
    raised, that dict holds the call's [Request-ID], and it is the dict the
    next such call starts from (spec §9 asks for a fresh one per call). *)
Theorem make_request_defaults_keeps_id net u w m :
  w_dicts w !! make_request_default_headers = Some m ->
  w_dicts (make_request_defaults net u w).1 !! make_request_default_headers =
    Some (<[request_id_header_name := mr_rid w]> m).
Proof.
  intros Hm. unfold make_request_defaults. rewrite make_request_dicts.
  by rewrite lookup_alter, decide_True, Hm.
Qed.

(** ** The demo of [run()] (lines 220-244) *)

(** [run()] without its printing: a [Deproxy] on port 8081, an endpoint on
    8082, a default request to the first and a [handler2] request to the
    second (both through the default [headers] dict). *)
Definition run (net : Net) : PyM World (chain_ref * chain_ref) :=
  let server := "localhost" in
  let port := 8081 in
  _ <- deproxy_new (Some (server, port)) ;;
  _ <- add_endpoint (server, port + 1) ;;
  let url := mkUrl server port "/abc/123" in
  let url2 := mkUrl server (port + 1) "/abc/123" in
  mc <- make_request_defaults net url ;;
  mc2 <- make_request net url2 "GET" make_request_default_headers "" handler2 ;;
  return (mc, mc2).

(** A fresh process: the default dict exists, nothing is bound. *)
Definition process_start : World := mkWorld deproxy_init ∅ {[make_request_default_headers := ∅]} ∅ 0.

Definition demo_net : Net := mkNet "Mon, 09 Nov 2026 00:00:00 GMT" None.

(** ** Witnesses *)

Definition demo_served_world : World := (add_endpoint ("localhost", 8081) process_start).1.
Definition demo_url : url := mkUrl "localhost" 8081 "/abc/123".
Definition demo_unserved_url : url := mkUrl "localhost" 9999 "/abc/123".

Lemma make_request_unregisters_witness :
  let res := make_request demo_net demo_url "GET" make_request_default_headers "" handler2
               demo_served_world in
  message_chains (w_deproxy res.1) =
    delete (mr_rid demo_served_world) (message_chains (w_deproxy demo_served_world)).
Proof.
  intros res. apply (make_request_unregisters demo_net demo_url "GET" make_request_default_headers
                       "" handler2 demo_served_world res.1 1).
  vm_compute. reflexivity.
Defined.

Lemma make_request_raise_leaks_witness :
  let res := make_request demo_net demo_unserved_url "GET" make_request_default_headers ""
               handler2 demo_served_world in
  message_chains (w_deproxy res.1) !! mr_rid demo_served_world = Some (mr_ref demo_served_world).
Proof.
  intros res. apply (make_request_raise_leaks _ _ _ _ _ _ _ (ConnectionError "Connection refused")).
  vm_compute. reflexivity.
Defined.

Lemma make_request_correlated_witness :
  let w' := (make_request demo_net demo_url "GET" make_request_default_headers "" handler2
               demo_served_world).1 in
  let mc := default (new_message_chain default_handler) (w_heap w' !! 1) in
  handler_function mc = handler2 /\
  sent_request mc = Some (mkRequest "GET" (url_path demo_url)
                            (mr_sent demo_served_world make_request_default_headers) (BStr "")) /\
  is_Some (received_response mc) /\
  Forall (fun h =>
      msg_getitem (req_headers (handling_request h)) request_id_header_name =
        Some (mr_rid demo_served_world) /\
      resp_headers (handling_response h) !! request_id_header_name =
        Some (mr_rid demo_served_world))
    (handlings mc).
Proof.
  intros w' mc.
  apply (make_request_correlated demo_net demo_url "GET" make_request_default_headers "" handler2
           demo_served_world w' 1 mc).
  - intros id r H. vm_compute in H. discriminate.
  - vm_compute. reflexivity.
  - vm_compute. reflexivity.
Defined.

Lemma make_request_defaults_keeps_id_witness :
  w_dicts (make_request_defaults demo_net demo_url demo_served_world).1
    !! make_request_default_headers =
  Some (<[request_id_header_name := mr_rid demo_served_world]> ∅).
Proof. apply make_request_defaults_keeps_id. vm_compute. reflexivity. Defined.
