(* ===== verification/EndToEnd.v ===== *)
(** * EndToEnd: [make_request] through the wire to the endpoint and back

    [make_request] (Orchestrator.v) sends its request through [requests]
    and [httplib] (Client.v) to an endpoint whose [handle]
    (RequestHandler.v) reads it back through [BaseHTTPServer]
    (HttpServer.v).  [httplib] puts its own [Host], [Accept-Encoding] and
    [Content-Length] lines before [req.headers] ([wire_headers]).  With the
    request bytes round trip of Wire.v, this file proves that for every
    call whose method, path, host and headers [httplib] can send as they
    are, the endpoint records on the call's own chain, first, the request
    it received: the sent method and path, the wire headers, and the
    socket file object holding the body; the response is the caller's
    handler's answer to that request with the id echoed.  The chain's
    [sent_request] is the one [make_request] built from [req.headers]: the
    lines [httplib] added are not in it.  The request id [str(uuid4())] is
    a word without blanks, so it crosses the wire unchanged. *)

From stdpp Require Import pretty.
From S2P Require Import Prelude Message MessageChain Registry World HttpServer RequestHandler Client Wire Orchestrator.
Local Open Scope string_scope.
Local Open Scope py_scope.

(** ** Numbers and the request id on the wire *)

Lemma pretty_N_char_no_ws x : not_ws (pretty_N_char x) = true.
Proof. unfold pretty_N_char. repeat case_match; reflexivity. Qed.

Lemma pretty_N_go_no_ws x s :
  str_forall not_ws s = true -> str_forall not_ws (pretty_N_go x s) = true.
Proof.
  revert s. induction (N.lt_wf_0 x) as [x _ IH]; intros s Hs.
  destruct (decide (0 < x)%N) as [Hx|Hx].
  - rewrite pretty_N_go_step by done. apply IH; [by apply N.div_lt|].
    simpl. by rewrite pretty_N_char_no_ws, Hs.
  - assert (x = 0%N) as -> by lia. by rewrite pretty_N_go_0.
Qed.

(** [str(n)] is a word: the port of [Host] and the value of
    [Content-Length]. *)
Lemma pretty_nat_no_ws (n : nat) : str_forall not_ws (pretty n) = true.
Proof.
  assert (pretty n = if decide (N.of_nat n = 0%N) then "0" else pretty_N_go (N.of_nat n) "")
    as -> by reflexivity.
  case_decide; [reflexivity|]. by apply pretty_N_go_no_ws.
Qed.

Lemma uuid_of_no_ws n : str_forall not_ws (uuid_of n) = true.
Proof. unfold uuid_of. rewrite str_forall_app, pretty_nat_no_ws. reflexivity. Qed.

(** Distinct draws of [uuid4] are distinct ids. *)
Lemma uuid_of_inj n m : uuid_of n = uuid_of m -> n = m.
Proof. unfold uuid_of. intros H. simplify_eq/=. by apply (inj pretty). Qed.

(** An id drawn before [uuid4]'s [m]-th draw is not its result. *)
Lemma uuid_of_fresh n m : n < m -> uuid_of n <> uuid_of m.
Proof. intros Hlt ->%uuid_of_inj. lia. Qed.

(** ** Calls [httplib] sends as they are *)

(** A header of the caller's dict: well formed, its value already
    stripped, and not another spelling of [Request-ID]. *)
Definition sendable_header (kv : string * string) : bool :=
  wf_header kv && String.eqb (strip kv.2) kv.2 &&
  (negb (str_eqi kv.1 request_id_header_name) || String.eqb kv.1 request_id_header_name).

(** A call on [u] with the dict [d]: a method and a path that are words, a
    request line within the limit, sendable headers, and a host name that
    is a word (it goes into the [Host] line). *)
Definition sendable_call (u : url) (method : string) (d : header_dict) : bool :=
  wf_token method && wf_token (url_path u) &&
  Nat.leb (String.length (request_line method (url_path u))) max_requestline &&
  forallb sendable_header (map_to_list d) && str_forall not_ws (url_host u).

(** A header line that is sendable and, if it is named [Request-ID], holds
    [rid]. *)
Definition carries (rid : string) (kv : string * string) : Prop :=
  sendable_header kv = true /\ (str_eqi kv.1 request_id_header_name = true -> kv.2 = rid).

Lemma sendable_header_wf kv : sendable_header kv = true -> wf_header kv = true.
Proof. unfold sendable_header. rewrite !andb_true_iff. tauto. Qed.

Lemma sendable_header_strip kv : sendable_header kv = true -> strip kv.2 = kv.2.
Proof. unfold sendable_header. rewrite !andb_true_iff, String.eqb_eq. tauto. Qed.

(** A header whose name is not [Request-ID] and whose value is a word. *)
Lemma carries_word rid k v :
  wf_header_name k = true -> str_eqi k request_id_header_name = false ->
  str_forall not_ws v = true -> carries rid (k, v).
Proof.
  intros Hk Hn Hv. unfold carries, sendable_header, wf_header. cbn [fst snd].
  rewrite Hk, Hn, (strip_no_ws v Hv), String.eqb_refl, (not_ws_not_nl v Hv). by split.
Qed.

(** Headers that all carry [rid], one of them under [Request-ID]: well
    formed, stripped, and [headers['Request-ID']] is [rid] on the server. *)
Lemma carries_props rid hs :
  Forall (carries rid) hs -> (request_id_header_name, rid) ∈ hs ->
  forallb wf_header hs = true /\ map strip_value hs = hs /\
  msg_getitem hs request_id_header_name = Some rid.
Proof.
  intros Hall Hin. split; [|split].
  - apply forallb_forall. intros kv Hkv%list_elem_of_In. rewrite Forall_forall in Hall.
    apply sendable_header_wf, Hall, Hkv.
  - apply map_strip_value_id. eapply Forall_impl; [exact Hall|].
    intros kv [Hs _]. by apply sendable_header_strip.
  - apply msg_getitem_all_same; [eapply Forall_impl; [exact Hall|]; by intros kv []|].
    exists request_id_header_name. split; [done|apply str_eqi_refl].
Qed.

Lemma requests_default_headers_sendable :
  Forall (fun kv => sendable_header kv = true /\ str_eqi kv.1 request_id_header_name = false)
    requests_default_headers.
Proof. repeat constructor. Qed.

(** The headers [requests] builds from a sendable dict that holds [rid]
    under [Request-ID]. *)
Lemma prepare_headers_carries d rid :
  forallb sendable_header (map_to_list d) = true -> d !! request_id_header_name = Some rid ->
  Forall (carries rid) (prepare_headers d) /\ (request_id_header_name, rid) ∈ prepare_headers d.
Proof.
  intros Hd Hrid. split; [apply Forall_app; split|].
  - apply Forall_forall. intros [k v] Hin.
    assert (sendable_header (k, v) = true) as Hs
      by (rewrite forallb_forall in Hd; apply Hd, list_elem_of_In, Hin).
    apply elem_of_map_to_list in Hin. split; [done|]. intros Hki.
    unfold sendable_header in Hs. cbn [fst snd] in Hs, Hki.
    rewrite Hki, !andb_true_iff in Hs. destruct Hs as [_ Hs]. simpl in Hs.
    apply String.eqb_eq in Hs. subst k. simpl. congruence.
  - apply Forall_forall. intros kv [_ Hin]%list_elem_of_filter.
    pose proof requests_default_headers_sendable as Hdef. rewrite Forall_forall in Hdef.
    destruct (Hdef kv Hin) as [Hs Hn]. split; [done|]. by rewrite Hn.
  - apply elem_of_app. left. by apply elem_of_map_to_list.
Qed.

(** [httplib]'s own lines carry no [Request-ID] and are sendable when the
    host name is a word. *)
Lemma httplib_added_carries rid u hs body :
  str_forall not_ws (url_host u) = true -> Forall (carries rid) (httplib_added u hs body).
Proof.
  intros Hh. unfold httplib_added.
  repeat apply Forall_app_2; repeat case_match; repeat apply Forall_cons_2; try apply Forall_nil_2;
    apply carries_word; try reflexivity; try apply pretty_nat_no_ws; try exact Hh.
  rewrite !str_forall_app, Hh. apply pretty_nat_no_ws.
Qed.

(** Line 57 keeps a dict sendable: the id is a word. *)
Lemma sendable_insert_id d rid :
  forallb sendable_header (map_to_list d) = true -> str_forall not_ws rid = true ->
  forallb sendable_header (map_to_list (<[request_id_header_name := rid]> d)) = true.
Proof.
  intros Hd Hrid. apply forallb_forall. intros [k v] Hin%list_elem_of_In.
  apply elem_of_map_to_list in Hin. rewrite lookup_insert in Hin. case_decide as Hk.
  - subst k. injection Hin as <-. unfold sendable_header, wf_header. cbn [fst snd].
    rewrite (strip_no_ws rid Hrid), String.eqb_refl, (not_ws_not_nl rid Hrid). reflexivity.
  - rewrite forallb_forall in Hd. apply Hd, list_elem_of_In, elem_of_map_to_list, Hin.
Qed.

(** ** The world after the HTTP call *)

Lemma http_request_world net method u hs body w w5 resp :
  http_request net method u hs body w = (w5, Ok resp) ->
  w5 = (handle (url_address u)
          (w, server_conn net (serialize_request method (url_path u) (wire_headers u hs body) body))).1.1.
Proof.
  unfold http_request. case_decide; [|by intros [=]].
  destruct (handle _ _) as [st r].
  destruct (parse_response _), r; try case_match; first [by intros [= <- _] | by intros [=]].
Qed.

Lemma sendable_call_parts u method d :
  sendable_call u method d = true ->
  wf_token method = true /\ wf_token (url_path u) = true /\
  Nat.leb (String.length (request_line method (url_path u))) max_requestline = true /\
  forallb sendable_header (map_to_list d) = true /\ str_forall not_ws (url_host u) = true.
Proof. unfold sendable_call. rewrite !andb_true_iff. tauto. Qed.

(** What [requests] sends for a call on the dict [d]. *)
Lemma mr_sent_dict w headers d :
  w_dicts w !! headers = Some d ->
  mr_sent w headers = prepare_headers (<[request_id_header_name := mr_rid w]> d).
Proof. intros Hd. unfold mr_sent. by rewrite lookup_alter, decide_True, Hd. Qed.

(** The endpoint's first round on a connection carrying a sendable
    request whose id the registry maps to [r]: exactly chain [r] gets the
    [Handling] of that request, answered by [r]'s handler with the id
    echoed. *)
Lemma handle_one_request_records ep w c m p hs body rid r mc :
  wf_request m p hs = true -> map strip_value hs = hs ->
  msg_getitem hs request_id_header_name = Some rid ->
  message_chains (w_deproxy w) !! rid = Some r -> w_heap w !! r = Some mc ->
  rfile c = serialize_request m p hs body ->
  let req := mkRequest m p hs (BFile body) in
  (handle_one_request ep (w, c)).1.1 =
    set_heap w (<[r := add_handling (mkHandling ep req
                          (set_header (handler_function mc req) request_id_header_name rid)) mc]>
                  (w_heap w)).
Proof.
  intros Hwf Hstrip Hget Hreg Hmc Hc req.
  destruct (handle_one_request_serialized ep w c m p hs body Hwf Hc) as (c2 & Hb & _ & _ & ->).
  rewrite Hstrip, (handle_request_try_world _ _ _ _ _ _ _ _ _ (resolve_handler_matched _ _ _ _ Hget Hreg)), Hb.
  unfold chain_handler, record_handling, py_modify. rewrite Hmc. simpl.
  by rewrite (heap_add_handling_insert _ _ mc).
Qed.

(** The header lines a call on a sendable dict puts on the wire form a
    well-formed request that carries the call's id. *)
Lemma mr_request_props u method w headers d body :
  w_dicts w !! headers = Some d -> sendable_call u method d = true ->
  let hs := wire_headers u (mr_sent w headers) body in
  wf_request method (url_path u) hs = true /\ map strip_value hs = hs /\
  msg_getitem hs request_id_header_name = Some (mr_rid w).
Proof.
  intros Hd (Hm & Hp & Hlen & Hsd & Hh)%sendable_call_parts hs.
  destruct (prepare_headers_carries (<[request_id_header_name := mr_rid w]> d) (mr_rid w)
              (sendable_insert_id d (mr_rid w) Hsd (uuid_of_no_ws (w_uuid w)))
              (lookup_insert_eq _ _ _)) as [Hall Hin].
  rewrite <- (mr_sent_dict w headers d Hd) in Hall, Hin.
  destruct (carries_props (mr_rid w) hs) as (Hwf & Hstrip & Hget).
  - apply Forall_app. split; [by apply httplib_added_carries|done].
  - apply elem_of_app. by right.
  - split; [|done]. unfold wf_request. by rewrite Hm, Hp, Hwf, Hlen.
Qed.

Lemma make_request_first_handling net u method headers body f w d :
  w_dicts w !! headers = Some d -> sendable_call u method d = true ->
  let hs := wire_headers u (mr_sent w headers) body in
  let req := mkRequest method (url_path u) hs (BFile body) in
  let c := server_conn net (serialize_request method (url_path u) hs body) in
  w_heap (handle_one_request (url_address u) (mr_world w headers f, set_close c true)).1.1
    !! mr_ref w =
  Some (add_handling (mkHandling (url_address u) req
                        (set_header (f req) request_id_header_name (mr_rid w)))
          (new_message_chain f)).
Proof.
  intros Hd Hs hs req c.
  destruct (mr_request_props u method w headers d body Hd Hs) as (Hwf & Hstrip & Hget).
  rewrite (handle_one_request_records _ _ _ method (url_path u) hs body
             (mr_rid w) (mr_ref w) (new_message_chain f)); try done.
  - simpl. apply lookup_insert_eq.
  - apply lookup_insert_eq.
  - apply lookup_insert_eq.
Qed.

(** ** One request per connection *)

(** [resp.headers] has no [Connection] header, in any spelling. *)
Definition no_connection_header (hd : header_dict) : Prop :=
  forall k v, hd !! k = Some v -> str_lower k <> "connection".

(** A handler whose responses never carry a [Connection] header
    ([default_handler] and [handler2] are such): [send_header] then never
    clears the [close_connection] that [parse_request] set, and the
    connection serves one request. *)
Definition handler_closes (f : handler) : Prop :=
  forall req, no_connection_header (resp_headers (f req)).

Lemma handler_closes_default_handler : handler_closes default_handler.
Proof. intros req k v H. simpl in H. by rewrite lookup_empty in H. Qed.

Lemma handler_closes_handler2 : handler_closes handler2.
Proof.
  intros req k v H. simpl in H. apply lookup_singleton_Some in H as [<- _].
  vm_compute. congruence.
Qed.

Definition same_close (c c' : Conn) : Prop := close_connection c' = close_connection c.

#[export] Instance same_close_preorder : PreOrder same_close.
Proof. unfold same_close. split; [intros ?; done|intros ??? H1 H2; congruence]. Qed.

Lemma wfile_write_same_close ev : stable same_close (wfile_write ev).
Proof.
  intros c. unfold same_close. destruct (wfile_write ev c) eqn:E. simpl.
  by eapply wfile_write_close.
Qed.

Lemma when_not_http09_same_close m :
  stable same_close m -> stable same_close (when_not_http09 m).
Proof. intros Hm c. unfold when_not_http09. case_match; [reflexivity|apply Hm]. Qed.

Lemma send_header_same_close k v :
  str_lower k <> "connection" -> stable same_close (send_header k v).
Proof.
  intros Hk. unfold send_header. refine (stable_bind same_close _ _ _ _).
  - apply when_not_http09_same_close, wfile_write_same_close.
  - intros [] c. simpl. rewrite (proj2 (String.eqb_neq _ _) Hk). reflexivity.
Qed.

#[export] Hint Resolve wfile_write_same_close when_not_http09_same_close : deproxy.

Ltac close_split :=
  py_split_with ltac:(refine (stable_bind same_close _ _ _ _));
  try exact _;
  try (apply send_header_same_close; vm_compute; congruence);
  eauto with deproxy.

Lemma send_headers_same_close hs :
  Forall (fun kv => str_lower kv.1 <> "connection") hs -> stable same_close (send_headers hs).
Proof.
  induction hs as [|[k v] hs IH]; intros Hall; simpl; [eauto with deproxy|].
  apply Forall_cons in Hall as [Hk Hall].
  refine (stable_bind same_close _ _ _ _); [by apply send_header_same_close|]. auto.
Qed.

Lemma respond_same_close resp :
  Forall (fun kv => str_lower kv.1 <> "connection") (map_to_list (resp_headers resp)) ->
  stable same_close (respond resp).
Proof.
  intros Hall. unfold respond, send_response, end_headers, write_body. close_split.
  by apply send_headers_same_close.
Qed.

(** The echo of line 168 adds no [Connection] header. *)
Lemma echo_no_connection f req rid :
  handler_closes f ->
  Forall (fun kv => str_lower kv.1 <> "connection")
    (map_to_list (resp_headers (set_header (f req) request_id_header_name rid))).
Proof.
  intros Hf. apply Forall_forall. intros [k v] Hin%elem_of_map_to_list. simpl in Hin.
  rewrite lookup_insert in Hin. case_decide as Hk.
  - subst k. simpl. vm_compute. congruence.
  - exact (Hf req k v Hin).
Qed.

(** With such a handler on the chain the request names, the first round
    leaves the connection marked for close. *)
Lemma handle_one_request_closes ep w c m p hs body rid r mc :
  wf_request m p hs = true -> map strip_value hs = hs ->
  msg_getitem hs request_id_header_name = Some rid ->
  message_chains (w_deproxy w) !! rid = Some r -> w_heap w !! r = Some mc ->
  handler_closes (handler_function mc) ->
  rfile c = serialize_request m p hs body ->
  close_connection (handle_one_request ep (w, c)).1.2 = true.
Proof.
  intros Hwf Hstrip Hget Hreg Hmc Hf Hc.
  destruct (handle_one_request_serialized ep w c m p hs body Hwf Hc) as (c2 & _ & Hcl & _ & ->).
  rewrite Hstrip. unfold py_try.
  rewrite (handle_request_run _ _ _ _ _ _ _ _ _ (resolve_handler_matched _ _ _ _ Hget Hreg)).
  unfold chain_handler. rewrite Hmc. simpl.
  pose proof (respond_same_close _ (echo_no_connection _
                (mkRequest m p hs (BFile (rfile c2))) rid Hf) c2) as Hs.
  unfold same_close in Hs.
  destruct (respond _ c2) as [c3 [[]|e]]; simpl in *; [congruence|].
  destruct (is_timeout e); simpl; [reflexivity|congruence].
Qed.


(** C15 (end to end): a call [make_request] completes delivers its request.
    When the caller's headers dict holds only headers [httplib] sends as
    they are (no second spelling of [Request-ID]), the method and path
    make a request line within the limit and the host name is a word, the
    chain a completed [make_request] returns records as sent the request
    built from [req.headers] with the body string, and as its first
    [Handling] this endpoint's receipt of the same method and path with
    the header lines on the wire ([httplib]'s [Host],
    [Accept-Encoding] and [Content-Length] first, then [req.headers])
    and the socket file object holding the body, answered by the caller's
    handler with the call's id echoed. *)
Theorem make_request_delivers net u method headers body f w d w' r mc :
  w_dicts w !! headers = Some d ->
  sendable_call u method d = true ->
  make_request net u method headers body f w = (w', Ok r) ->
  w_heap w' !! r = Some mc ->
  let sent := mkRequest method (url_path u) (mr_sent w headers) (BStr body) in
  let received := mkRequest method (url_path u) (wire_headers u (mr_sent w headers) body)
                    (BFile body) in
  sent_request mc = Some sent /\
  exists rest,
    handlings mc =
      mkHandling (url_address u) received
        (set_header (f received) request_id_header_name (mr_rid w)) :: rest.
Proof.
  intros Hd Hs Hmr Hmc sent received.
  pose proof (make_request_first_handling net u method headers body f w d Hd Hs) as H1.
  destruct (make_request_ok _ _ _ _ _ _ _ _ _ Hmr) as (-> & w5 & resp & Eh & ->).
  apply http_request_world in Eh.
  destruct (handle_first_round (url_address u) (mr_world w headers f)
              (server_conn net (serialize_request method (url_path u)
                                  (wire_headers u (mr_sent w headers) body) body)))
    as [_ Hext].
  specialize (Hext (mr_ref w)). rewrite H1, <- Eh in Hext.
  simpl in Hmc. rewrite lookup_alter, decide_True in Hmc by done.
  destruct (w_heap w5 !! mr_ref w) as [mc5|]; [|done]. injection Hmc as <-.
  destruct Hext as (_ & _ & _ & new & Hh & _).
  split; [reflexivity|]. exists new. simpl. by rewrite Hh.
Qed.

(** ** Witness *)

Lemma make_request_delivers_witness :
  let w' := (make_request demo_net demo_url "GET" make_request_default_headers "" handler2
               demo_served_world).1 in
  let mc := default (new_message_chain default_handler) (w_heap w' !! 1) in
  let sent := mkRequest "GET" (url_path demo_url)
                (mr_sent demo_served_world make_request_default_headers) (BStr "") in
  let received := mkRequest "GET" (url_path demo_url)
                    (wire_headers demo_url (mr_sent demo_served_world make_request_default_headers) "")
                    (BFile "") in
  sent_request mc = Some sent /\
  exists rest,
    handlings mc =
      mkHandling (url_address demo_url) received
        (set_header (handler2 received) request_id_header_name (mr_rid demo_served_world)) :: rest.
Proof.
  intros w' mc sent received.
  apply (make_request_delivers demo_net demo_url "GET" make_request_default_headers "" handler2
           demo_served_world ∅ w' 1 mc); vm_compute; reflexivity.
Defined.
