(* ===== verification/ConnThread.v ===== *)
(** * ConnThread: the thread [ThreadingMixIn] runs for one connection

    [SocketServer.ThreadingMixIn.process_request] starts one thread per
    accepted connection; the thread runs [DeproxyRequestHandler.handle]
    (lines 127-129), the loop of [handle_one_request] (lines 131-187).  Of
    what one round does, only two accesses touch state another thread can
    see: [get_message_chain] (line 160, under [message_chains_lock]) and
    [add_handling] (line 173, under the chain's lock).  The round is cut
    between them: [read_stage] runs lines 141-163 and [respond_stage]
    lines 165-181, and [conn_step] runs one stage of the thread, with the
    [try]/[except socket.timeout] of lines 140/183-187 around each and the
    test of the [handle] loop after a round.  Threads.v runs these steps
    interleaved with the callers' and the other connections'. *)

From S2P Require Import Prelude Message MessageChain Registry World HttpServer RequestHandler.
Local Open Scope string_scope.
Local Open Scope py_scope.

(** ** The two stages of a round *)

(** What the thread holds between line 163 and line 165: the parsed
    request, the unread rest of [rfile] (the body of [incoming_request]),
    and the id, chain and handler line 163 resolved. *)
Record Parsed := mkParsed {
  pr_command : string;
  pr_path : string;
  pr_headers : header_list;
  pr_body : string;
  pr_request_id : option string;
  pr_chain : option chain_ref;
  pr_handler : handler
}.

(** Lines 141-163: read the request line, answer 414 or stop on an empty
    line, parse, resolve the handler.  [None]: the round ends here. *)
Definition read_stage (ep : address) : PyM (World * Conn) (option Parsed) :=
  raw_requestline <- conn_op (rfile_readline (Some (S max_requestline))) ;;
  if Nat.ltb max_requestline (String.length raw_requestline) then
    _ <- conn_op (py_modify (fun c => set_request c "" "")) ;;
    _ <- conn_op (send_error 414 None) ;;
    return None
  else if String.eqb raw_requestline "" then
    _ <- conn_op (py_modify (fun c => set_close c true)) ;;
    return None
  else
    parsed <- conn_op (parse_request raw_requestline) ;;
    match parsed with
    | None => return None
    | Some (cmd, path, hs) =>
        c <- conn_op py_get ;;
        rs <- world_op (resolve_handler hs) ;;
        let '(request_id, message_chain, handler_function) := rs in
        return (Some (mkParsed cmd path hs (rfile c) request_id message_chain handler_function))
    end.

(** The [Request] of line 155. *)
Definition pr_incoming (p : Parsed) : Request :=
  mkRequest (pr_command p) (pr_path p) (pr_headers p) (BFile (pr_body p)).

(** Lines 165-168: the handler's response with the id echoed. *)
Definition pr_response (p : Parsed) : Response :=
  echo_request_id (pr_request_id p) (pr_handler p (pr_incoming p)).

(** Lines 165-181: run the handler, echo the id, append the [Handling]
    under the chain's lock, write the response. *)
Definition respond_stage (ep : address) (p : Parsed) : PyM (World * Conn) unit :=
  _ <- world_op (record_handling (pr_chain p) (mkHandling ep (pr_incoming p) (pr_response p))) ;;
  conn_op (respond (pr_response p)).

(** ** The thread *)

(** Where the thread is: before a round, between the two stages of a
    round, out of the [handle] loop, or waiting forever in a read or a
    write no timeout ends. *)
Inductive ConnPc :=
| CReady
| CParsed (p : Parsed)
| CClosed
| CBlocked.

(** [while not self.close_connection]: the test after a round. *)
Definition round_end : PyM (World * Conn) ConnPc :=
  st <- py_get ;;
  return (if close_connection st.2 then CClosed else CReady).

(** Lines 183-187: on [socket.timeout], [close_connection = 1]; the loop
    test then ends the thread. *)
Definition timeout_close (e : exn) : PyM (World * Conn) ConnPc :=
  _ <- conn_op (py_modify (fun c => set_close c true)) ;;
  return CClosed.

Definition conn_step (ep : address) (pc : ConnPc) : PyM (World * Conn) ConnPc :=
  match pc with
  | CReady =>
      py_try is_timeout
        (o <- read_stage ep ;;
         match o with
         | None => round_end
         | Some p => return (CParsed p)
         end)
        timeout_close
  | CParsed p => py_try is_timeout (_ <- respond_stage ep p ;; round_end) timeout_close
  | CClosed => return CClosed
  | CBlocked => return CBlocked
  end.

(** The thread's state after a step.  The only exception that escapes the
    [try] is [Blocked] ([handle_one_request_raises]): the thread waits in
    that call for ever. *)
Definition conn_next (r : result ConnPc) : ConnPc :=
  match r with Ok pc => pc | Raise _ => CBlocked end.
