(* ===== verification/Threads.v ===== *)
(** * Threads: [make_request] callers and connection threads interleaved

    [Deproxy] is meant to be driven by several client threads at once
    (spec 6): every method that touches the registry or a chain takes a
    lock, and each endpoint serves each connection on a thread of its own
    ([ThreadingMixIn], lines 113-119).  This file models the threads of the
    process as actors over the shared [World]:
    - a caller of [make_request] ([AClient], the arguments of line 53 in
      [Call]), whose stages are cut where the code gives up control over
      shared state: [client_step] runs lines 56-57 (draw the id, write it
      into the [headers] dict), then lines 59-60 (allocate the chain,
      register it under the registry lock); [client_send] runs lines 62-63
      up to the connection the endpoint accepts, where [req.send()] blocks;
      [client_receive] reads the response back and runs lines 66-71;
    - a connection thread ([AConn]), spawned when an endpoint accepts a
      connection, running [ConnThread.conn_step].
    [tsys_step] lets any actor that can move take its next step.  A caller
    waiting in [req.send()] moves once its connection thread has left the
    [handle] loop, or, when that thread waits for more bytes on the
    connection the client keeps open, once the response it wrote is
    framed by [Content-Length] (as [Orchestrator.http_request]).  The
    system carries a ghost log of the [add_handling] calls, in the order
    the connection threads took the chain locks.

    Proved: a connection thread that resolved a chain appends to it with
    no further check, so an append can land on a chain whose call has
    already returned it (C17); Appends.v proves the appends serialized. *)

From S2P Require Import Prelude Message MessageChain Registry World HttpServer RequestHandler Client Orchestrator ConnThread.
Local Open Scope string_scope.
Local Open Scope py_scope.

(** ** Callers *)

(** The arguments of one [make_request(url, method, headers, request_body,
    handler_function)] call; [headers] names a dict object. *)
Record Call := mkCall {
  call_url : url;
  call_method : string;
  call_headers : dict_ref;
  call_body : string;
  call_handler : handler
}.

(** Where a caller is in [make_request]. *)
Inductive ClientPc :=
| PcStart
| PcIdSet (request_id : string)
| PcRegistered (request_id : string) (message_chain : chain_ref)
| PcReturned (message_chain : chain_ref)
| PcRaised (e : exn).

Definition pc_final (pc : ClientPc) : bool :=
  match pc with PcReturned _ | PcRaised _ => true | _ => false end.

(** Lines 56-57 and lines 59-60, the stages before the outbound call. *)
Definition client_step (cl : Call) (pc : ClientPc) : PyM World ClientPc :=
  match pc with
  | PcStart =>
      request_id <- uuid4 ;;
      _ <- dict_setitem (call_headers cl) request_id_header_name request_id ;;
      return (PcIdSet request_id)
  | PcIdSet request_id =>
      message_chain <- alloc_chain (new_message_chain (call_handler cl)) ;;
      _ <- on_deproxy (add_message_chain request_id message_chain) ;;
      return (PcRegistered request_id message_chain)
  | _ => return pc
  end.

(** ** The outbound call, cut where it blocks *)

(** [requests.request(...)]; [req.send()] up to the accepted connection:
    the endpoint listening on the url's address accepts it, and the bytes
    [httplib] writes are what the connection thread will read. *)
Definition open_connection (net : Net) (method : string) (u : url) (hs : header_list)
    (body : string) : PyM World Conn :=
  fun w =>
    if decide (url_address u ∈ endpoints (w_deproxy w))
    then (w, Ok (server_conn net (serialize_request method (url_path u) (wire_headers u hs body) body)))
    else (w, Raise (ConnectionError "Connection refused")).

(** [resp = req.response]: the response parsed from what the server wrote
    on the connection. *)
Definition read_response (c : Conn) : PyM World Response :=
  fun w =>
    match parse_response (wfile c) with
    | Some r => (w, Ok r)
    | None => (w, Raise (ConnectionError "BadStatusLine"))
    end.

(** Lines 62-63 up to the connection: read the headers dict, open the
    connection. *)
Definition client_send (net : Net) (cl : Call) : PyM World (Request * Conn) :=
  hd <- dict_read (call_headers cl) ;;
  let sent_headers := prepare_headers hd in
  c <- open_connection net (call_method cl) (call_url cl) sent_headers (call_body cl) ;;
  return (mkRequest (call_method cl) (url_path (call_url cl)) sent_headers (BStr (call_body cl)), c).

(** Line 64 and lines 66-71, once the connection is closed. *)
Definition client_receive (request_id : string) (message_chain : chain_ref) (sent : Request)
    (c : Conn) : PyM World ClientPc :=
  resp <- read_response c ;;
  _ <- on_deproxy (del_message_chain request_id) ;;
  _ <- finalize_chain message_chain sent resp ;;
  return (PcReturned message_chain).

(** ** Actors *)

(** A caller: at a stage of [make_request], or blocked in [req.send()] on
    the connection thread at index [conn]. *)
Inductive TPc :=
| TStage (pc : ClientPc)
| TWaiting (request_id : string) (message_chain : chain_ref) (sent : Request) (conn : nat).

Inductive Actor :=
| AClient (cl : Call) (pc : TPc)
| AConn (ep : address) (c : Conn) (pc : ConnPc).

Record TSys := mkTSys {
  ts_world : World;
  ts_actors : list Actor;
  ts_log : list (chain_ref * Handling)
}.

(** [DeproxyEndpoint.process_request] (lines 113-119): the endpoint
    starts a thread for the accepted connection, which builds a
    [DeproxyRequestHandler] (lines 109-111, 123-125) whose [handle] starts
    with [close_connection = 1] and enters its loop. *)
Definition spawn_connection (ep : address) (c : Conn) : Actor :=
  AConn ep (set_close c true) CReady.

Definition pc_of (r : result ClientPc) : ClientPc :=
  match r with Ok pc => pc | Raise e => PcRaised e end.

(** The [add_handling] a connection step performs: a step from
    [CParsed p] runs line 173 on the chain [p] resolved, first thing. *)
Definition conn_appends (ep : address) (pc : ConnPc) : list (chain_ref * Handling) :=
  match pc with
  | CParsed p =>
      match pr_chain p with
      | Some r => [(r, mkHandling ep (pr_incoming p) (pr_response p))]
      | None => []
      end
  | _ => []
  end.

(** Actor [i] takes its next step, when it can. *)
Definition tsys_step_fn (net : Net) (s : TSys) (i : nat) : option TSys :=
  match ts_actors s !! i with
  | Some (AClient cl (TStage pc)) =>
      if pc_final pc then None
      else match pc with
      | PcRegistered request_id message_chain =>
          match client_send net cl (ts_world s) with
          | (w', Ok (sent, c)) =>
              Some (mkTSys w'
                      (<[i := AClient cl (TWaiting request_id message_chain sent
                                                  (List.length (ts_actors s)))]> (ts_actors s) ++
                       [spawn_connection (url_address (call_url cl)) c])
                      (ts_log s))
          | (w', Raise e) =>
              Some (mkTSys w' (<[i := AClient cl (TStage (PcRaised e))]> (ts_actors s)) (ts_log s))
          end
      | _ =>
          let (w', res) := client_step cl pc (ts_world s) in
          Some (mkTSys w' (<[i := AClient cl (TStage (pc_of res))]> (ts_actors s)) (ts_log s))
      end
  | Some (AClient cl (TWaiting request_id message_chain sent k)) =>
      let receive c :=
        let (w', res) := client_receive request_id message_chain sent c (ts_world s) in
        Some (mkTSys w' (<[i := AClient cl (TStage (pc_of res))]> (ts_actors s)) (ts_log s)) in
      match ts_actors s !! k with
      | Some (AConn _ c CClosed) => receive c
      | Some (AConn _ c CBlocked) =>
          match parse_response (wfile c) with
          | Some r => if framed r then receive c else None
          | None => None
          end
      | _ => None
      end
  | Some (AConn ep c pc) =>
      match pc with
      | CClosed | CBlocked => None
      | _ =>
          let '((w', c'), res) := conn_step ep pc (ts_world s, c) in
          Some (mkTSys w' (<[i := AConn ep c' (conn_next res)]> (ts_actors s))
                  (ts_log s ++ conn_appends ep pc))
      end
  | None => None
  end.

Inductive tsys_step (net : Net) : TSys -> TSys -> Prop :=
| TStep s i s' : tsys_step_fn net s i = Some s' -> tsys_step net s s'.

Fixpoint run_tschedule (net : Net) (s : TSys) (sched : list nat) : option TSys :=
  match sched with
  | [] => Some s
  | i :: sched' => s' ← tsys_step_fn net s i; run_tschedule net s' sched'
  end.

Lemma run_tschedule_rtc net s sched s' :
  run_tschedule net s sched = Some s' -> rtc (tsys_step net) s s'.
Proof.
  revert s. induction sched as [|i sched IH]; intros s H; simpl in H.
  - injection H as ->. reflexivity.
  - destruct (tsys_step_fn net s i) as [s1|] eqn:E; [|discriminate].
    eapply rtc_l; [by econstructor|]. by apply IH.
Qed.

(** ** What a connection step reads and writes *)

Lemma resolve_handler_chain hs w w' rid r f :
  resolve_handler hs w = (w', Ok (rid, Some r, f)) ->
  exists id, message_chains (w_deproxy w) !! id = Some r.
Proof.
  destruct (msg_getitem hs request_id_header_name) as [id|] eqn:Hg.
  - destruct (message_chains (w_deproxy w) !! id) as [r'|] eqn:Hr.
    + rewrite (resolve_handler_matched _ _ _ _ Hg Hr). intros [= _ _ ->]. by exists id.
    + rewrite (resolve_handler_unregistered _ _ _ Hg Hr). discriminate.
  - rewrite (resolve_handler_absent _ _ Hg). discriminate.
Qed.

Lemma read_stage_spec ep w c :
  (read_stage ep (w, c)).1.1 = w /\
  forall p r, (read_stage ep (w, c)).2 = Ok (Some p) -> pr_chain p = Some r ->
    exists id, message_chains (w_deproxy w) !! id = Some r.
Proof.
  unfold read_stage.
  destruct (rfile_readline (Some (S max_requestline)) c) as [c1 [raw|e]] eqn:E;
    [rewrite (py_bind_ok _ _ (w, c) (w, c1) raw) by (by rewrite conn_op_run, E)
    |rewrite (py_bind_err _ _ (w, c) (w, c1) e) by (by rewrite conn_op_run, E);
     split; [done|discriminate]].
  destruct (Nat.ltb _ _); [|destruct (String.eqb _ _)].
  - unfold py_bind. rewrite !conn_op_run. simpl.
    destruct (send_error 414 None _) as [c2 [[]|e]]; simpl; (split; [done|discriminate]).
  - unfold py_bind. rewrite !conn_op_run. simpl. split; [done|discriminate].
  - destruct (parse_request raw c1) as [c2 [[[[cmd path] hs]|]|e]] eqn:Ep;
      [rewrite (py_bind_ok _ _ (w, c1) (w, c2) _) by (by rewrite conn_op_run, Ep)
      |rewrite (py_bind_ok _ _ (w, c1) (w, c2) None) by (by rewrite conn_op_run, Ep);
       split; [done|discriminate]
      |rewrite (py_bind_err _ _ (w, c1) (w, c2) e) by (by rewrite conn_op_run, Ep);
       split; [done|discriminate]].
    cbv beta iota. rewrite (py_bind_ok _ _ (w, c2) (w, c2) c2) by reflexivity.
    destruct (resolve_handler_pure hs w) as (rid & mc & f & Hres).
    rewrite (py_bind_ok _ _ _ (w, c2) (rid, mc, f)) by (by rewrite world_op_run, Hres).
    split; [done|]. intros p r [= <-] Hp. simpl in Hp. subst mc.
    by eapply resolve_handler_chain.
Qed.

(** ** What one step of each actor does to the world *)

Lemma conn_step_ready ep w c :
  (conn_step ep CReady (w, c)).1.1 = w /\
  forall p r, conn_next (conn_step ep CReady (w, c)).2 = CParsed p -> pr_chain p = Some r ->
    exists id, message_chains (w_deproxy w) !! id = Some r.
Proof.
  destruct (read_stage_spec ep w c) as [Hw Hch].
  unfold conn_step, py_try, py_bind.
  destruct (read_stage ep (w, c)) as [[w1 c1] [[p|]|e]]; simpl in Hw, Hch; subst w1.
  - split; [done|]. intros p' r [= <-]. by apply Hch.
  - unfold round_end, py_bind, py_get, py_ret. simpl.
    split; [done|]. by destruct (close_connection c1).
  - destruct (is_timeout e); simpl; split; done.
Qed.

Lemma conn_step_parsed ep p w c :
  (conn_step ep (CParsed p) (w, c)).1.1 =
    (record_handling (pr_chain p) (mkHandling ep (pr_incoming p) (pr_response p)) w).1 /\
  forall p', conn_next (conn_step ep (CParsed p) (w, c)).2 <> CParsed p'.
Proof.
  unfold conn_step, respond_stage, py_try.
  assert (exists w', record_handling (pr_chain p) (mkHandling ep (pr_incoming p) (pr_response p)) w =
                     (w', Ok tt)) as [w' Hrec] by (destruct (pr_chain p); eexists; reflexivity).
  rewrite py_bind_assoc, (py_bind_ok _ _ (w, c) (w', c) tt) by (by rewrite world_op_run, Hrec).
  rewrite Hrec. unfold py_bind. rewrite conn_op_run.
  destruct (respond (pr_response p) c) as [c1 [[]|e]]; simpl.
  - unfold round_end, py_bind, py_get, py_ret. simpl.
    split; [done|]. by destruct (close_connection c1).
  - destruct (is_timeout e); simpl; split; done.
Qed.

(** ** A connection that resolves a chain before its call returns *)

(** The paths of the requests a chain recorded, and whether the chain was
    finalized. *)
Definition chain_view (s : TSys) (r : chain_ref) : option (list string * bool) :=
  (fun mc => (map (fun h => req_path (handling_request h)) (handlings mc),
              bool_decide (is_Some (received_response mc)))) <$> w_heap (ts_world s) !! r.

(** One [make_request] to [demo_url] with [handler2], and a second
    connection to the same endpoint carrying the same [Request-ID] (as a
    proxy that retries the request sends it). *)
Definition race_call : Call := mkCall demo_url "GET" make_request_default_headers "" handler2.

Definition retry_conn : Conn :=
  set_close (server_conn demo_net
               (serialize_request "GET" "/retry" [("Request-ID", mr_rid demo_served_world)] ""))
    true.

Definition race_start : TSys :=
  mkTSys demo_served_world
    [AClient race_call (TStage PcStart); AConn (url_address demo_url) retry_conn CReady] [].

(** The caller draws and registers its id; the retry's thread resolves
    the chain; the caller's own connection is served; the caller reads
    the response, unregisters the id and returns the chain. *)
Definition race_to_return : list nat := [0; 0; 0; 1; 2; 2; 0].

(** C17 (safety, violated): spec 4.2 has [finalize] run when no
    connection can write to the record any more.  The append of line 173
    checks nothing: a connection thread that resolved chain [r] (line
    160) appends its handling to [r] whatever the registry and the chain
    then hold.  So when a caller has returned [r] (its id unregistered at
    line 66, the chain finalized at lines 68-69) while such a thread is
    between the two stages of its round, that thread's next step changes
    the record the caller holds: [r] gets the handling appended, and the
    caller still holds [r] as returned. *)
Theorem late_append_after_return net s i j cl ep c p r mc :
  ts_actors s !! i = Some (AClient cl (TStage (PcReturned r))) ->
  ts_actors s !! j = Some (AConn ep c (CParsed p)) -> pr_chain p = Some r ->
  w_heap (ts_world s) !! r = Some mc ->
  exists s', tsys_step net s s' /\
    ts_actors s' !! i = Some (AClient cl (TStage (PcReturned r))) /\
    w_heap (ts_world s') !! r =
      Some (add_handling (mkHandling ep (pr_incoming p) (pr_response p)) mc).
Proof.
  intros Hi Hj Hp Hmc.
  destruct (conn_step ep (CParsed p) (ts_world s, c)) as [[w' c'] res] eqn:E.
  destruct (conn_step_parsed ep p (ts_world s) c) as [Hw _]. rewrite E, Hp in Hw. simpl in Hw.
  eexists. split; [apply (TStep _ _ j); unfold tsys_step_fn; rewrite Hj, E; reflexivity|].
  simpl. split.
  - rewrite list_lookup_insert_ne; [done|]. intros ->. congruence.
  - rewrite Hw. simpl. by rewrite heap_add_handling_same, Hmc.
Qed.

(** ** Witness *)

(** The state [race_to_return] reaches: the caller has returned chain 1,
    finalized and unregistered, and the retry's thread holds chain 1
    between the two stages of its round; its next step appends to it. *)
Lemma late_append_after_return_witness :
  let s1 := default race_start (run_tschedule demo_net race_start race_to_return) in
  rtc (tsys_step demo_net) race_start s1 /\
  message_chains (w_deproxy (ts_world s1)) !! mr_rid demo_served_world = None /\
  exists ep c p mc,
    ts_actors s1 !! 0 = Some (AClient race_call (TStage (PcReturned 1))) /\
    ts_actors s1 !! 1 = Some (AConn ep c (CParsed p)) /\ pr_chain p = Some 1 /\
    w_heap (ts_world s1) !! 1 = Some mc /\ is_Some (received_response mc) /\
    exists s', tsys_step demo_net s1 s' /\
      ts_actors s' !! 0 = Some (AClient race_call (TStage (PcReturned 1))) /\
      w_heap (ts_world s') !! 1 =
        Some (add_handling (mkHandling ep (pr_incoming p) (pr_response p)) mc).
Proof.
  intros s1.
  split; [apply (run_tschedule_rtc _ _ race_to_return); vm_compute; reflexivity|].
  split; [vm_compute; reflexivity|].
  assert (Hj : exists ep c p, ts_actors s1 !! 1 = Some (AConn ep c (CParsed p)) /\ pr_chain p = Some 1)
    by (vm_compute; eexists _, _, _; split; reflexivity).
  assert (Hm : exists mc, w_heap (ts_world s1) !! 1 = Some mc /\ is_Some (received_response mc))
    by (vm_compute; eexists; split; [reflexivity|eexists; reflexivity]).
  assert (Hi : ts_actors s1 !! 0 = Some (AClient race_call (TStage (PcReturned 1))))
    by (vm_compute; reflexivity).
  destruct Hj as (ep & c & p & Hj & Hp). destruct Hm as (mc & Hmc & Hf).
  exists ep, c, p, mc. do 5 (split; [assumption|]).
  exact (late_append_after_return demo_net s1 0 1 race_call ep c p 1 mc Hi Hj Hp Hmc).
Defined.
