(* ===== verification/Appends.v ===== *)
(** * Appends: the chain lock serializes [add_handling]

    The invariant of the thread system of Threads.v: every chain holds
    the handlings it held at the start followed by exactly the handlings
    the connection threads appended to it, in the order their steps ran
    line 173 under the chain's lock, each once; chains allocated later
    start empty.  The ghost log [ts_log] records each [add_handling] a
    connection thread performs; [tinv] relates it to the heap and is kept
    by every step of every actor ([tinv_step]). *)

From S2P Require Import Prelude Message MessageChain Registry World HttpServer RequestHandler Client Orchestrator ConnThread Threads.
Local Open Scope string_scope.
Local Open Scope py_scope.

(** ** The append log *)

(** The handlings the log records for chain [r], in log order. *)
Definition log_for (r : chain_ref) (log : list (chain_ref * Handling)) : list Handling :=
  snd <$> filter (fun e => e.1 = r) log.

Lemma log_for_app r l1 l2 : log_for r (l1 ++ l2) = (log_for r l1 ++ log_for r l2)%list.
Proof. unfold log_for. by rewrite filter_app, fmap_app. Qed.

Lemma log_for_absent r log : (forall e, e ∈ log -> e.1 <> r) -> log_for r log = [].
Proof.
  induction log as [|e log IH]; intros H; [done|]. unfold log_for in *. rewrite filter_cons.
  case_decide as He; [by destruct (H e (list_elem_of_here _ _))|].
  apply IH. intros e' He'. apply H. by apply elem_of_cons; right.
Qed.

(** A client step keeps every chain object with its handlings, and every
    chain it allocates starts with none. *)
Definition heap_keeps (hp hp' : chain_heap) : Prop :=
  (forall r mc, hp !! r = Some mc -> exists mc', hp' !! r = Some mc' /\ handlings mc' = handlings mc) /\
  (forall r mc', hp' !! r = Some mc' -> hp !! r = None -> handlings mc' = []).

Lemma heap_keeps_refl hp : heap_keeps hp hp.
Proof. split; [eauto|congruence]. Qed.

(** No actor is between the two stages of a round. *)
Definition not_parsed (a : Actor) : Prop := forall ep c p, a <> AConn ep c (CParsed p).

Lemma actors_parsed_from (acts : list Actor) i a extra j ep c p :
  not_parsed a -> Forall not_parsed extra ->
  (<[i := a]> acts ++ extra)%list !! j = Some (AConn ep c (CParsed p)) ->
  acts !! j = Some (AConn ep c (CParsed p)).
Proof.
  intros Ha Hx [Hj|[_ Hj]]%lookup_app_Some.
  - apply list_lookup_insert_Some in Hj as [(_ & -> & _)|[_ Hj]]; [|done].
    exfalso. exact (Ha ep c p eq_refl).
  - eapply Forall_lookup_1 in Hx; [|exact Hj]. exfalso. exact (Hx ep c p eq_refl).
Qed.

(** The invariant: every chain holds the handlings it had at the start
    followed by the appends the log records for it, in log order. *)
Record tinv (base : chain_heap) (s : TSys) : Prop := {
  ti_chains : forall r mc, w_heap (ts_world s) !! r = Some mc ->
      handlings mc = (default [] (handlings <$> base !! r) ++ log_for r (ts_log s))%list;
  ti_log : forall e, e ∈ ts_log s -> is_Some (w_heap (ts_world s) !! e.1);
  ti_base : forall r, is_Some (base !! r) -> is_Some (w_heap (ts_world s) !! r);
  ti_registry : registry_allocated (ts_world s);
  ti_parsed : forall i ep c p r, ts_actors s !! i = Some (AConn ep c (CParsed p)) ->
      pr_chain p = Some r -> is_Some (w_heap (ts_world s) !! r)
}.

Lemma heap_keeps_is_Some hp hp' r : heap_keeps hp hp' -> is_Some (hp !! r) -> is_Some (hp' !! r).
Proof. intros [Hk _] [mc Hmc]. destruct (Hk r mc Hmc) as (mc' & -> & _). eauto. Qed.

(** A step that writes no log entry, keeps the chain objects and keeps
    the registry naming allocated chains keeps the invariant, when every
    thread it leaves between stages holds an allocated chain. *)
Lemma tinv_frame_gen base s w' acts' :
  tinv base s -> heap_keeps (w_heap (ts_world s)) (w_heap w') -> registry_allocated w' ->
  (forall j ep c p r, acts' !! j = Some (AConn ep c (CParsed p)) -> pr_chain p = Some r ->
                      is_Some (w_heap w' !! r)) ->
  tinv base (mkTSys w' acts' (ts_log s)).
Proof.
  intros [Hch Hlog Hbase Hreg Hpar] Hk Hreg' Hacts. split; simpl.
  - intros r mc' Hr. destruct (w_heap (ts_world s) !! r) as [mc|] eqn:Hold.
    + destruct (proj1 Hk r mc Hold) as (mc'' & Hr' & Hh). rewrite Hr' in Hr. injection Hr as <-.
      rewrite Hh. by apply Hch.
    + rewrite (proj2 Hk r mc' Hr Hold).
      destruct (base !! r) as [mb|] eqn:Hb; [destruct (Hbase r) as [? Hx]; [by eexists|congruence]|].
      simpl. rewrite log_for_absent; [done|]. intros e He <-.
      destruct (Hlog e He) as [? Hx]. congruence.
  - intros e He. eapply heap_keeps_is_Some; eauto.
  - intros r Hr. eapply heap_keeps_is_Some; eauto.
  - exact Hreg'.
  - exact Hacts.
Qed.

(** The same, for a step that parks no new thread between stages. *)
Lemma tinv_frame base s w' acts' :
  tinv base s -> heap_keeps (w_heap (ts_world s)) (w_heap w') -> registry_allocated w' ->
  (forall j ep c p, acts' !! j = Some (AConn ep c (CParsed p)) ->
                    ts_actors s !! j = Some (AConn ep c (CParsed p))) ->
  tinv base (mkTSys w' acts' (ts_log s)).
Proof.
  intros Hinv Hk Hreg' Hacts. apply tinv_frame_gen; [done..|].
  intros j ep c p r Hj Hp. eapply heap_keeps_is_Some; [exact Hk|].
  eapply (ti_parsed _ _ Hinv); [apply Hacts|]; eauto.
Qed.

Lemma actors_parsed_insert (acts : list Actor) i a j ep c p :
  not_parsed a -> <[i := a]> acts !! j = Some (AConn ep c (CParsed p)) ->
  acts !! j = Some (AConn ep c (CParsed p)).
Proof.
  intros Ha Hj. apply (actors_parsed_from acts i a [] j ep c p Ha); [constructor|].
  by rewrite app_nil_r.
Qed.

Lemma client_not_parsed cl pc : not_parsed (AClient cl pc).
Proof. by intros ???. Qed.

Lemma ready_not_parsed ep c : not_parsed (AConn ep c CReady).
Proof. by intros ???. Qed.

(** ** The client stages *)

Lemma client_start_world cl w :
  w_heap (client_step cl PcStart w).1 = w_heap w /\
  w_deproxy (client_step cl PcStart w).1 = w_deproxy w.
Proof. split; reflexivity. Qed.

Lemma client_idset_world cl rid w :
  w_heap (client_step cl (PcIdSet rid) w).1 =
    <[heap_fresh (w_heap w) := new_message_chain (call_handler cl)]> (w_heap w) /\
  message_chains (w_deproxy (client_step cl (PcIdSet rid) w).1) =
    <[rid := heap_fresh (w_heap w)]> (message_chains (w_deproxy w)).
Proof. split; reflexivity. Qed.

Lemma client_send_world net cl w : (client_send net cl w).1 = w.
Proof.
  unfold client_send, py_bind, dict_read, open_connection. simpl. by case_decide.
Qed.

Lemma heap_keeps_alloc hp mc :
  handlings mc = [] -> heap_keeps hp (<[heap_fresh hp := mc]> hp).
Proof.
  intros Hmc. split.
  - intros r mc' Hr. exists mc'. split; [|done].
    rewrite lookup_insert_ne; [done|]. intros Heq. rewrite <- Heq, heap_fresh_free in Hr. discriminate.
  - intros r mc' Hr Hold. apply lookup_insert_Some in Hr as [[_ <-]|[_ Hr]]; congruence.
Qed.

Lemma heap_keeps_alter hp f r :
  (forall mc, handlings (f mc) = handlings mc) -> heap_keeps hp (alter f r hp).
Proof.
  intros Hf. split.
  - intros r' mc Hr'. rewrite lookup_alter. destruct (decide (r = r')) as [->|Hne].
    + rewrite Hr'. eexists. split; [reflexivity|]. apply Hf.
    + rewrite Hr'. eauto.
  - intros r' mc' Hr' Hold. rewrite lookup_alter in Hr'.
    case_decide; [subst; rewrite Hold in Hr'; simpl in Hr'|]; congruence.
Qed.

Lemma client_receive_world rid r sent c w :
  heap_keeps (w_heap w) (w_heap (client_receive rid r sent c w).1) /\
  (registry_allocated w -> registry_allocated (client_receive rid r sent c w).1).
Proof.
  unfold client_receive, read_response, py_bind.
  destruct (parse_response (wfile c)) as [resp|]; [|split; [apply heap_keeps_refl|done]].
  unfold on_deproxy, del_message_chain. simpl.
  destruct (message_chains (w_deproxy w) !! rid) as [r'|] eqn:Hr; simpl;
    [|split; [apply heap_keeps_refl|done]].
  split; [by apply heap_keeps_alter|].
  intros Hreg id r'' Hid. simpl in *. apply lookup_delete_Some in Hid as [_ Hid].
  rewrite lookup_alter_is_Some. by eapply Hreg.
Qed.

(** ** Each kind of step keeps the invariant *)

Lemma tinv_client_stage base s i cl pc :
  tinv base s -> ts_actors s !! i = Some (AClient cl (TStage pc)) ->
  pc = PcStart \/ (exists rid, pc = PcIdSet rid) ->
  tinv base (mkTSys (client_step cl pc (ts_world s)).1
               (<[i := AClient cl (TStage (pc_of (client_step cl pc (ts_world s)).2))]> (ts_actors s))
               (ts_log s)).
Proof.
  intros Hinv Hi Hpc. apply tinv_frame; [done| | |].
  - destruct Hpc as [->|[rid ->]].
    + rewrite (proj1 (client_start_world cl _)). apply heap_keeps_refl.
    + rewrite (proj1 (client_idset_world cl rid _)). by apply heap_keeps_alloc.
  - destruct Hpc as [->|[rid ->]].
    + intros id r Hr. rewrite (proj2 (client_start_world cl _)) in Hr.
      rewrite (proj1 (client_start_world cl _)). by eapply (ti_registry _ _ Hinv).
    + intros id r Hr. rewrite (proj2 (client_idset_world cl rid _)) in Hr.
      rewrite (proj1 (client_idset_world cl rid _)).
      apply lookup_insert_Some in Hr as [[_ <-]|[_ Hr]];
        [rewrite lookup_insert_eq; eauto|].
      apply lookup_insert_is_Some'. right. by eapply (ti_registry _ _ Hinv).
  - intros j ep c p Hj. eapply actors_parsed_insert; [apply client_not_parsed|exact Hj].
Qed.

Lemma tinv_client_send base s w' acts' :
  tinv base s -> w' = ts_world s ->
  (forall j ep c p, acts' !! j = Some (AConn ep c (CParsed p)) ->
                    ts_actors s !! j = Some (AConn ep c (CParsed p))) ->
  tinv base (mkTSys w' acts' (ts_log s)).
Proof.
  intros Hinv -> Hacts. apply tinv_frame; [done|apply heap_keeps_refl|apply (ti_registry _ _ Hinv)|done].
Qed.

Lemma tinv_client_receive base s i cl rid r sent c pc :
  tinv base s ->
  tinv base (mkTSys (client_receive rid r sent c (ts_world s)).1
                          (<[i := AClient cl (TStage pc)]> (ts_actors s)) (ts_log s)).
Proof.
  intros Hinv. destruct (client_receive_world rid r sent c (ts_world s)) as [Hk Hreg].
  apply tinv_frame; [done|done|apply Hreg, (ti_registry _ _ Hinv)|].
  intros j ep c' p Hj. eapply actors_parsed_insert; [apply client_not_parsed|exact Hj].
Qed.

Lemma log_for_single r r' h : log_for r [(r', h)] = if decide (r' = r) then [h] else [].
Proof. unfold log_for. rewrite filter_cons. simpl. by case_decide. Qed.

Lemma tinv_conn_ready base s i ep c w' c' res :
  tinv base s -> conn_step ep CReady (ts_world s, c) = ((w', c'), res) ->
  tinv base (mkTSys w' (<[i := AConn ep c' (conn_next res)]> (ts_actors s))
               (ts_log s ++ conn_appends ep CReady)).
Proof.
  intros Hinv E. destruct (conn_step_ready ep (ts_world s) c) as [Hw Hch].
  rewrite E in Hw, Hch. simpl in Hw. subst w'. simpl. rewrite app_nil_r.
  apply tinv_frame_gen; [done|apply heap_keeps_refl|apply (ti_registry _ _ Hinv)|].
  intros j ep' c'' p r Hj Hp. apply list_lookup_insert_Some in Hj as [(<- & Hj & _)|[_ Hj]].
  - injection Hj as _ _ Hn. destruct (Hch p r Hn Hp) as [id Hid].
    by eapply (ti_registry _ _ Hinv).
  - by eapply (ti_parsed _ _ Hinv).
Qed.

Lemma tinv_conn_parsed base s i ep c p w' c' res :
  tinv base s -> ts_actors s !! i = Some (AConn ep c (CParsed p)) ->
  conn_step ep (CParsed p) (ts_world s, c) = ((w', c'), res) ->
  tinv base (mkTSys w' (<[i := AConn ep c' (conn_next res)]> (ts_actors s))
               (ts_log s ++ conn_appends ep (CParsed p))).
Proof.
  intros Hinv Hi E. destruct (conn_step_parsed ep p (ts_world s) c) as [Hw Hnp].
  rewrite E in Hw, Hnp. simpl in Hw. subst w'.
  assert (Hacts : forall j ep' c'' p' r,
             <[i := AConn ep c' (conn_next res)]> (ts_actors s) !! j = Some (AConn ep' c'' (CParsed p')) ->
             pr_chain p' = Some r -> is_Some (w_heap (ts_world s) !! r)).
  { intros j ep' c'' p' r Hj Hp'. apply list_lookup_insert_Some in Hj as [(<- & Hj & _)|[_ Hj]].
    - injection Hj as _ _ Hn. by destruct (Hnp p').
    - by eapply (ti_parsed _ _ Hinv). }
  unfold conn_appends, record_handling.
  destruct (pr_chain p) as [r|] eqn:Hr; simpl.
  - destruct (ti_parsed _ _ Hinv i ep c p r Hi Hr) as [mc Hmc].
    set (h := mkHandling ep (pr_incoming p) (pr_response p)).
    destruct Hinv as [Hch Hlog Hbase Hreg Hpar]. split; simpl.
    + intros r' mc' Hr'. unfold heap_add_handling in Hr'. rewrite lookup_alter in Hr'.
      rewrite log_for_app, log_for_single.
      case_decide as Heq; [subst r'; rewrite Hmc in Hr'; injection Hr' as <-|].
      * simpl. rewrite (Hch r mc Hmc). by rewrite app_assoc.
      * rewrite app_nil_r. by apply Hch.
    + intros e He. simpl. unfold heap_add_handling. rewrite lookup_alter_is_Some.
      apply elem_of_app in He as [He|He]; [by apply Hlog|].
      apply list_elem_of_singleton in He. subst e. simpl. eauto.
    + intros r' Hb. simpl. unfold heap_add_handling. rewrite lookup_alter_is_Some. by apply Hbase.
    + intros id r' Hid. simpl in *. unfold heap_add_handling. rewrite lookup_alter_is_Some. by eapply Hreg.
    + intros j ep' c'' p' r' Hj Hp'. simpl. unfold heap_add_handling. rewrite lookup_alter_is_Some.
      by eapply Hacts.
  - rewrite app_nil_r.
    replace (set_heap (ts_world s) (w_heap (ts_world s))) with (ts_world s) by (by destruct (ts_world s)).
    apply tinv_frame_gen; [done|apply heap_keeps_refl|apply (ti_registry _ _ Hinv)|exact Hacts].
Qed.

Lemma tinv_step net base s s' : tinv base s -> tsys_step net s s' -> tinv base s'.
Proof.
  intros Hinv Hs. inversion Hs as [s0 i s1 Hstep]; subst s0 s1.
  unfold tsys_step_fn in Hstep.
  destruct (ts_actors s !! i) as [[cl [pc|rid r sent k]|ep c pc]|] eqn:Hi; [| | |discriminate].
  - destruct (pc_final pc) eqn:Hf; [discriminate|].
    destruct pc as [|rid|rid r|r|e]; try discriminate Hf.
    + destruct (client_step cl PcStart (ts_world s)) as [w' res] eqn:E.
      injection Hstep as <-. pose proof (tinv_client_stage base s i cl PcStart Hinv Hi) as H.
      rewrite E in H. apply H. by left.
    + destruct (client_step cl (PcIdSet rid) (ts_world s)) as [w' res] eqn:E.
      injection Hstep as <-. pose proof (tinv_client_stage base s i cl (PcIdSet rid) Hinv Hi) as H.
      rewrite E in H. apply H. right. by exists rid.
    + pose proof (client_send_world net cl (ts_world s)) as Hw.
      destruct (client_send net cl (ts_world s)) as [w' [[sent c]|e]]; simpl in Hw;
        injection Hstep as <-; apply tinv_client_send; try done.
      * intros j ep c' p Hj. eapply actors_parsed_from; [apply client_not_parsed| |exact Hj].
        repeat constructor. apply ready_not_parsed.
      * intros j ep c' p Hj. eapply actors_parsed_insert; [apply client_not_parsed|exact Hj].
  - destruct (ts_actors s !! k) as [[|ep c [| | |]]|]; try discriminate;
      [|destruct (parse_response (wfile c)) as [resp|]; [destruct (framed resp)|]; try discriminate];
      destruct (client_receive rid r sent c (ts_world s)) as [w' res] eqn:E;
      injection Hstep as <-; pose proof (tinv_client_receive base s i cl rid r sent c (pc_of res) Hinv) as H;
      by rewrite E in H.
  - destruct pc as [|p| |]; [| |discriminate|discriminate];
      destruct (conn_step ep _ (ts_world s, c)) as [[w' c'] res] eqn:E; injection Hstep as <-.
    + exact (tinv_conn_ready base s i ep c w' c' res Hinv E).
    + exact (tinv_conn_parsed base s i ep c p w' c' res Hinv Hi E).
Qed.

Lemma tinv_reachable net base s s' : tinv base s -> rtc (tsys_step net) s s' -> tinv base s'.
Proof. intros Hinv Hr. induction Hr as [|s1 s2 s3 Hs _ IH]; [done|]. apply IH. by eapply tinv_step. Qed.

(** A start: no log yet, the registry names allocated chains, no
    connection thread between the two stages of a round. *)
Definition tsys_init (s : TSys) : Prop :=
  ts_log s = [] /\ registry_allocated (ts_world s) /\ Forall not_parsed (ts_actors s).

Lemma tsys_init_inv s : tsys_init s -> tinv (w_heap (ts_world s)) s.
Proof.
  intros (Hlog & Hreg & Hacts). split.
  - intros r mc Hr. rewrite Hr, Hlog. simpl. by rewrite app_nil_r.
  - rewrite Hlog. intros e He. inversion He.
  - done.
  - done.
  - intros i ep c p r Hi. eapply Forall_lookup_1 in Hacts; [|exact Hi].
    by destruct (Hacts ep c p).
Qed.

(** C18 (invariant): the chain's lock serializes the appends and none is
    lost.  Under every interleaving of [make_request] callers and
    connection threads, every chain holds the handlings it held at the
    start followed by exactly the handlings the connection threads
    appended to it, each once, in the order the threads ran line 173. *)
Theorem appends_serialized net s0 s r mc :
  tsys_init s0 -> rtc (tsys_step net) s0 s ->
  w_heap (ts_world s) !! r = Some mc ->
  handlings mc = (default [] (handlings <$> w_heap (ts_world s0) !! r) ++ log_for r (ts_log s))%list.
Proof.
  intros Hinit Hr Hmc. apply (ti_chains _ _ (tinv_reachable net _ _ _ (tsys_init_inv s0 Hinit) Hr)).
  exact Hmc.
Qed.

(** ** Witness *)

Lemma race_start_init : tsys_init race_start.
Proof.
  split; [reflexivity|]. split.
  - intros id r Hr. vm_compute in Hr. discriminate Hr.
  - repeat constructor; intros ??? H; discriminate H.
Qed.

Lemma appends_serialized_witness :
  let s := default race_start (run_tschedule demo_net race_start (race_to_return ++ [1])) in
  let mc := default (new_message_chain handler2) (w_heap (ts_world s) !! 1) in
  handlings mc = (default [] (handlings <$> w_heap (ts_world race_start) !! 1) ++ log_for 1 (ts_log s))%list.
Proof.
  intros s mc. apply (appends_serialized demo_net race_start s 1 mc).
  - exact race_start_init.
  - apply (run_tschedule_rtc _ _ (race_to_return ++ [1])). vm_compute. reflexivity.
  - vm_compute. reflexivity.
Defined.
