(* ===== verification/Printing.v ===== *)
(** * Printing: [log], [print_request], [print_response], [print_message_chain]

    Lines 18-21 and 189-218 of [src/deproxy.py].  Python 2's [print]
    statement writes the [str] of its argument and a newline on stdout;
    stdout is modelled as the list of lines written so far, the state of
    the method monad, so that a function that raises half way leaves the
    lines it already printed.  What the program does not determine is a
    parameter of Section [Printing]: the order in which Python 2 iterates
    a dict ([items()] follows the hash table), the [str] of the socket
    file object a received request carries as its body, and, for [log],
    [time.ctime()], the caller's frame and the current thread. *)

From stdpp Require Import pretty.
From S2P Require Import Prelude Message MessageChain Registry World HttpServer RequestHandler Client Orchestrator.
Local Open Scope string_scope.
Local Open Scope py_scope.

Definition Stdout := list string.

(** [print s] *)
Definition print (s : string) : PyM Stdout unit := py_modify (fun out => (out ++ [s])%list).

(** What [log] reads from its environment: [time.ctime()], the file,
    line and function of the caller's frame, the current thread's name
    and ident. *)
Record LogCtx := mkLogCtx {
  lc_ctime : string;
  lc_file : string;
  lc_line : nat;
  lc_function : string;
  lc_thread_name : string;
  lc_thread_ident : nat
}.

(** Line 21: [print '[%s : %s(%i) : %s : %s (%i)] %s' % (...)]. *)
Definition log_line (ctx : LogCtx) (s : string) : string :=
  "[" ++ lc_ctime ctx ++ " : " ++ lc_file ctx ++ "(" ++ pretty (lc_line ctx) ++ ") : " ++
  lc_function ctx ++ " : " ++ lc_thread_name ctx ++ " (" ++ pretty (lc_thread_ident ctx) ++ ")] " ++ s.

(** [log(s)], lines 18-21. *)
Definition log (ctx : LogCtx) (s : string) : PyM Stdout unit := print (log_line ctx s).


Section Printing.

(** [d.items()] of a dict: its pairs in Python 2's iteration order. *)
Variable dict_items : header_dict -> list (string * string).
(** [request.headers.items()]: the pairs of a request's header container
    ([mimetools.Message] for a received request, the headers [requests]
    sent for the sent one) in that container's iteration order. *)
Variable header_items : header_list -> list (string * string).
(** [str(self.rfile)]: what [%s] prints for the body of a received
    request, the socket file object of line 155. *)
Variable rfile_str : string.








(** ** What each function writes *)















End Printing.

(** ** Witnesses *)


