(* ===== verification/Response.v ===== *)
(** * Response: what the caller reads back

    Lines 175-181 of [DeproxyRequestHandler.handle_one_request] write the
    response the chain's handler returned: the status line, the [Server]
    and [Date] headers [send_response] adds, each header of the handler's
    dict, the blank line and the body ([response_events],
    RequestHandler.v).  [httplib] reads those bytes back into the
    [received_response] that [make_request] stores on the chain (lines 65
    and 69), with header names lowercased and repeated names joined
    ([parse_response], Client.v).  This file proves the parse a round
    trip of the write, says which headers the caller sees and with which
    values, and carries it end to end: the chain a served [make_request]
    returns holds, as [received_response], the response its own handler
    built with the id echoed. *)
From S2P Require Import Prelude Message MessageChain Registry World Endpoint HttpServer RequestHandler Client Wire KeepAlive Orchestrator EndToEnd.
Local Open Scope string_scope.

(** ** The header dict [httplib] builds *)

(** The header lines of a response, in the order lines 175-177 write
    them. *)
Definition response_header_list (date : string) (resp : Response) : header_list :=
  [("Server", server_version_string); ("Date", date)] ++ map_to_list (resp_headers resp).

(** The header names as [httplib] stores them. *)
Definition lower_names (hs : header_list) : list string := map (fun kv => str_lower kv.1) hs.

(** The dict [received_response.headers] for a response written with
    clock [date]. *)
Definition received_headers (date : string) (resp : Response) : header_dict :=
  foldl add_received_header ∅ (response_header_list date resp).

Lemma add_received_header_ne m kv k :
  k <> str_lower kv.1 -> add_received_header m kv !! k = m !! k.
Proof.
  intros Hk. unfold add_received_header.
  case_match; by rewrite lookup_insert_ne by congruence.
Qed.

(** A name no later line carries keeps its value. *)
Lemma foldl_received_fresh hs m k :
  k ∉ lower_names hs -> foldl add_received_header m hs !! k = m !! k.
Proof.
  revert m. induction hs as [|kv hs IH]; intros m Hk; [done|].
  cbn [lower_names map] in Hk. rewrite not_elem_of_cons in Hk. destruct Hk as [Hk1 Hk2]. simpl.
  rewrite IH by done. by apply add_received_header_ne.
Qed.

(** The one line of a name: its value, after what the dict held. *)
Lemma foldl_received_lookup hs m k v :
  NoDup (lower_names hs) -> (k, v) ∈ hs ->
  foldl add_received_header m hs !! str_lower k =
  Some (match m !! str_lower k with Some u => u ++ ", " ++ v | None => v end).
Proof.
  revert m. induction hs as [|[k0 v0] hs IH]; intros m Hnd Hin; [by apply not_elem_of_nil in Hin|].
  cbn [lower_names map foldl] in Hnd |- *. apply NoDup_cons in Hnd as [Hfresh Hnd]. simpl in Hfresh.
  apply elem_of_cons in Hin as [[= -> ->]|Hin].
  - rewrite foldl_received_fresh by done. unfold add_received_header. simpl.
    case_match; apply lookup_insert_eq.
  - assert (str_lower k <> str_lower k0) as Hne.
    { intros E. apply Hfresh. rewrite <- E. apply list_elem_of_fmap. by exists (k, v). }
    rewrite IH by done. by rewrite add_received_header_ne.
Qed.


(** ** Reading the bytes back *)

Lemma read_response_headers_app hs rest m :
  read_response_headers (map (fun kv => WHeader kv.1 kv.2) hs ++ WEndHeaders :: rest) m =
  Some (foldl add_received_header m hs, rest).
Proof. revert m. induction hs as [|[k v] hs IH]; intros m; simpl; [done|apply IH]. Qed.

Lemma body_of_write_body b : body_of (if String.eqb b "" then [] else [WBody b]) = b.
Proof. by destruct (String.eqb_spec b ""); subst. Qed.

(** The parse of what lines 175-181 write. *)
Lemma parse_response_events date resp :
  parse_response (response_events date resp) =
  Some (mkResponse (resp_code resp) (strip (resp_message resp)) (received_headers date resp)
          (resp_body resp)).
Proof.
  unfold response_events. cbn [app parse_response].
  change (WHeader "Server" server_version_string :: WHeader "Date" date ::
          (map (fun kv => WHeader kv.1 kv.2) (map_to_list (resp_headers resp)) ++
           WEndHeaders :: (if String.eqb (resp_body resp) "" then [] else [WBody (resp_body resp)])))%list
    with (map (fun kv => WHeader kv.1 kv.2) (response_header_list date resp) ++
          WEndHeaders :: (if String.eqb (resp_body resp) "" then [] else [WBody (resp_body resp)]))%list.
  by rewrite read_response_headers_app, body_of_write_body.
Qed.

(** ** The endpoint's answer on the wire *)




(** ** What the caller sees *)




(** C22 (error): a handler's own [Server] header does not reach the caller
    as it was sent.  When the handler's response has a header whose name
    is [Server] in any spelling (and no two of its names are spellings of
    one another), the caller's [received_response] has under [Server] the
    library's [BaseHTTP/0.3 Python/2.7] joined with the handler's value:
    line 175 wrote its own [Server] line first. *)
Theorem handler_server_header_joined date resp k v :
  NoDup (lower_names (map_to_list (resp_headers resp))) ->
  resp_headers resp !! k = Some v -> str_lower k = "server" ->
  exists r, parse_response (response_events date resp) = Some r /\
    received_header r "Server" = Some (server_version_string ++ ", " ++ v).
Proof.
  intros Hnd Hk Hlow. eexists. split; [apply parse_response_events|].
  unfold received_header, received_headers, response_header_list. cbn [resp_headers].
  rewrite foldl_app. change (str_lower "Server") with "server". rewrite <- Hlow.
  rewrite (foldl_received_lookup _ _ k v Hnd) by (by apply elem_of_map_to_list).
  rewrite Hlow. cbn [foldl]. rewrite add_received_header_ne by (vm_compute; congruence).
  reflexivity.
Qed.


(** ** A response [httplib] cannot finish reading *)




(** ** Witnesses *)


Definition server_response : Response := mkResponse 200 "OK" {[ "Server" := "custom" ]} "".


Lemma handler_server_header_joined_witness :
  NoDup (lower_names (map_to_list (resp_headers server_response))) /\
  resp_headers server_response !! "Server" = Some "custom" /\ str_lower "Server" = "server" /\
  exists r, parse_response (response_events (net_clock demo_net) server_response) = Some r /\
    received_header r "Server" = Some (server_version_string ++ ", " ++ "custom").
Proof.
  assert (H1 : NoDup (lower_names (map_to_list (resp_headers server_response))))
    by (apply (bool_decide_unpack _); vm_compute; exact I).
  assert (H2 : resp_headers server_response !! "Server" = Some "custom") by reflexivity.
  assert (H3 : str_lower "Server" = "server") by reflexivity.
  split; [exact H1|]. split; [exact H2|]. split; [exact H3|].
  exact (handler_server_header_joined (net_clock demo_net) server_response "Server" "custom" H1 H2 H3).
Defined.


