(* ===== verification/BadRequest.v ===== *)
(** * BadRequest: a malformed request line

    [handle_one_request] (lines 131-187) hands a request line of at most
    65536 characters to [parse_request] (line 150), which first sets
    [request_version] to the default ["HTTP/0.9"] and only stores the
    version it read once the line passed its checks.  A line that fails
    them ([check_requestline] returns [RLError]: a bad version, a version
    2.0 or above, a two-word line that is not [GET], or too many words) is
    answered by [send_error] while the version is still ["HTTP/0.9"]:
    [send_response], [send_header] and [end_headers] then write nothing,
    and only the HTML error page goes out.  This file proves that this is
    all of the round: the world is untouched, the connection is marked
    for close, and the bytes written are that page.  It also proves the
    rounds that read no request line at all: the stream ended (line 148)
    or the socket timed out before a whole line came (line 183). *)
From S2P Require Import Prelude Message MessageChain Registry World Endpoint HttpServer RequestHandler.
Local Open Scope string_scope.

(** [parse_request] itself sends only 400 and 505. *)
Lemma check_requestline_error s code message :
  check_requestline s = RLError code message -> code = 400 \/ code = 505.
Proof.
  unfold check_requestline. repeat case_match; intros [= <- _]; auto.
Qed.

(** [send_error(code, message)] on a connection still at ["HTTP/0.9"],
    with no command yet, whose socket takes every write. *)
Lemma send_error_http09 code message c :
  code = 400 \/ code = 505 ->
  request_version c = default_request_version -> command c = "" -> wcap c = None ->
  send_error code (Some message) c =
    (mkConn (rfile c) (rfile_eof c) (wfile c ++ [WBody (error_page code (Some message))]) None
       (clock c) true (request_version c) (command c) (sock_timeout c), Ok tt).
Proof. intros [-> | ->] Hv Hc Hw; destruct c; simpl in *; subst; reflexivity. Qed.

Lemma parse_request_error raw c code message :
  check_requestline (rstrip_p is_crlf raw) = RLError code message -> wcap c = None ->
  parse_request raw c =
    (mkConn (rfile c) (rfile_eof c) (wfile c ++ [WBody (error_page code (Some message))]) None
       (clock c) true default_request_version "" (sock_timeout c), Ok None).
Proof.
  intros Hchk Hw. unfold parse_request.
  rewrite (py_bind_ok _ _ c (set_request (set_close c true) default_request_version "") tt)
    by reflexivity.
  rewrite Hchk. unfold py_bind.
  rewrite send_error_http09;
    [reflexivity|exact (check_requestline_error _ _ _ Hchk)|reflexivity|reflexivity|by destruct c].
Qed.

(** C23 (error): a malformed request line gets a bare error page.  When
    the request line read from the connection (at most 65536 characters,
    not empty) fails [parse_request]'s checks, the code sent is 400 or
    505 and the message is the one [parse_request] gives for that check,
    the world is unchanged (no chain, registry entry or endpoint is
    touched), the connection is marked for close, and the only bytes
    written are the HTML error page quoting that message: no status line
    and no header, since
    [request_version] is still ["HTTP/0.9"] when [send_error] runs. *)
Theorem handle_one_request_malformed ep w c c1 raw code message :
  rfile_readline (Some (S max_requestline)) c = (c1, Ok raw) ->
  String.length raw <= max_requestline -> raw <> "" ->
  check_requestline (rstrip_p is_crlf raw) = RLError code message -> wcap c1 = None ->
  (code = 400 \/ code = 505) /\
  handle_one_request ep (w, c) =
    ((w, mkConn (rfile c1) (rfile_eof c1) (wfile c1 ++ [WBody (error_page code (Some message))]) None
           (clock c1) true default_request_version "" (sock_timeout c1)), Ok tt).
Proof.
  intros Hr Hlen Hne Hchk Hw. split; [exact (check_requestline_error _ _ _ Hchk)|].
  unfold handle_one_request, py_try.
  rewrite (py_bind_ok _ _ (w, c) (w, c1) raw) by (by rewrite conn_op_run, Hr).
  unfold handle_requestline.
  replace (Nat.ltb max_requestline (String.length raw)) with false
    by (symmetry; apply Nat.ltb_ge; lia).
  rewrite (proj2 (String.eqb_neq _ _) Hne).
  rewrite (py_bind_ok _ _ (w, c1) _ None)
    by (by rewrite conn_op_run, (parse_request_error raw c1 code message Hchk Hw)).
  reflexivity.
Qed.

(** [readline] leaves the connection as it was, minus what it read. *)
Lemma rfile_readline_state lim c :
  (rfile_readline lim c).1 = set_rfile c (take_line lim (rfile c)).2.
Proof. unfold rfile_readline. destruct (take_line lim (rfile c)). by case_match. Qed.

(** C24 (error): a round that reads no request line changes nothing.
    When [readline(65537)] returns the empty string (the client closed the
    stream, line 148) or raises [socket.timeout] (an incomplete line and
    no more bytes, caught at line 183), [handle_one_request] returns
    normally, leaves the world unchanged, writes nothing and marks the
    connection for close; the connection keeps only what [readline] did
    not consume. *)
Theorem handle_one_request_no_line ep w c :
  (rfile_readline (Some (S max_requestline)) c).2 = Ok "" \/
  (rfile_readline (Some (S max_requestline)) c).2 = Raise SocketTimeout ->
  handle_one_request ep (w, c) =
    ((w, set_close (set_rfile c (take_line (Some (S max_requestline)) (rfile c)).2) true), Ok tt).
Proof.
  rewrite <- rfile_readline_state.
  destruct (rfile_readline (Some (S max_requestline)) c) as [c1 r] eqn:Hr. simpl.
  intros [-> | ->]; unfold handle_one_request, py_try.
  - rewrite (py_bind_ok _ _ (w, c) (w, c1) "") by (by rewrite conn_op_run, Hr).
    unfold handle_requestline.
    replace (Nat.ltb max_requestline (String.length "")) with false
      by (symmetry; apply Nat.ltb_ge; simpl; lia).
    reflexivity.
  - rewrite (py_bind_err _ _ (w, c) (w, c1) SocketTimeout) by (by rewrite conn_op_run, Hr).
    reflexivity.
Qed.

(** ** Witnesses *)

(** A request line announcing HTTP/2.0. *)
Lemma handle_one_request_malformed_witness :
  let c := demo_conn ("GET / HTTP/2.0" ++ crlf) None in
  let c1 := (rfile_readline (Some (S max_requestline)) c).1 in
  (505 = 400 \/ 505 = 505) /\
  handle_one_request demo_ep (demo_world, c) =
    ((demo_world, mkConn (rfile c1) (rfile_eof c1)
                    (wfile c1 ++ [WBody (error_page 505 (Some "Invalid HTTP Version (2.0)"))]) None
                    (clock c1) true default_request_version "" (sock_timeout c1)), Ok tt).
Proof.
  intros c c1.
  apply (handle_one_request_malformed demo_ep demo_world c c1 ("GET / HTTP/2.0" ++ crlf) 505
           "Invalid HTTP Version (2.0)");
    witness_hyps.
Defined.

(** A connection whose client sent half a request line and waits, and one
    whose client closed the stream without sending anything. *)
Lemma handle_one_request_no_line_witness :
  let c := demo_conn "GET /abc" None in
  let c' := mkConn "" true [] None "Mon" false "" "" false in
  handle_one_request demo_ep (demo_world, c) =
    ((demo_world, set_close (set_rfile c (take_line (Some (S max_requestline)) (rfile c)).2) true),
     Ok tt) /\
  handle_one_request demo_ep (demo_world, c') =
    ((demo_world, set_close (set_rfile c' (take_line (Some (S max_requestline)) (rfile c')).2) true),
     Ok tt).
Proof.
  intros c c'. split.
  - apply (handle_one_request_no_line demo_ep demo_world c). right. vm_compute. reflexivity.
  - apply (handle_one_request_no_line demo_ep demo_world c'). left. vm_compute. reflexivity.
Defined.
