(* ===== verification/Http09.v ===== *)
(** * Http09: a request line without a version

    [parse_request] (called at line 150) accepts a two-word request line
    [GET <path>] as an HTTP/0.9 request: it keeps the default
    [request_version = "HTTP/0.9"], still reads a header block, and
    [handle_one_request] goes on to lines 153-181 as for any request.
    [send_response], [send_header] and [end_headers] write nothing on an
    HTTP/0.9 connection; only [wfile.write(resp.body)] (line 179) does.
    This file proves that such a request is handled like any other (the
    handler is resolved from its headers and the handling recorded on the
    chain, with the id echoed into the recorded response) while the wire
    carries the response body alone: no status line, no header, and so no
    [Request-ID]. *)
From S2P Require Import Prelude Message MessageChain Registry World Endpoint HttpServer RequestHandler Client Wire.
Local Open Scope string_scope.

(** The request line an HTTP/0.9 client sends. *)
Definition http09_line (p : string) : string := "GET " ++ p ++ crlf.

(** ** [parse_request] on a two-word line *)

Lemma crlf_is_ws ch : is_crlf ch = true -> is_ws ch = true.
Proof.
  unfold is_crlf, is_ws. rewrite orb_true_iff, !Nat.eqb_eq. by intros [-> | ->].
Qed.

Lemma rstrip_crlf_no_ws s : str_forall not_ws s = true -> rstrip_p is_crlf s = s.
Proof.
  induction s as [|ch s IH]; [done|]. simpl. rewrite andb_true_iff. intros [Hc Hs].
  rewrite IH by done. destruct (is_crlf ch) eqn:E; [|by rewrite andb_false_r].
  apply crlf_is_ws in E. unfold not_ws in Hc. by rewrite E in Hc.
Qed.

Lemma http09_line_app p rest :
  http09_line p ++ rest = ("GET " ++ p ++ String cr "") ++ String nl rest.
Proof. unfold http09_line. by autorewrite with py. Qed.

Lemma rstrip_http09 p : wf_token p = true -> rstrip_p is_crlf (http09_line p) = "GET " ++ p.
Proof.
  intros Hp. pose proof (rstrip_crlf_no_ws p (wf_token_no_ws p Hp)) as Ep.
  unfold http09_line.
  replace ("GET " ++ p ++ crlf) with (("GET " ++ p) ++ crlf) by (by autorewrite with py).
  rewrite rstrip_p_app_all by reflexivity.
  change ("GET " ++ p) with ("GET " ++ p)%string.
  rewrite rstrip_p_app_keep, Ep; [reflexivity|rewrite Ep; by apply wf_token_ne].
Qed.

Lemma split_ws_http09 p : wf_token p = true -> split_ws ("GET " ++ p) = ["GET"; p].
Proof.
  intros Hp. unfold split_ws. change ("GET " ++ p) with ("GET" ++ String " " p).
  rewrite split_ws_go_word, str_app_nil_l by reflexivity.
  rewrite split_ws_go_space by discriminate.
  rewrite <- (str_app_nil_r p) at 1.
  rewrite split_ws_go_word, str_app_nil_l by (by apply wf_token_no_ws).
  simpl. by rewrite (proj2 (String.eqb_neq _ _) (wf_token_ne p Hp)).
Qed.

Lemma parse_request_http09 p hs body c :
  wf_token p = true -> forallb wf_header hs = true -> rfile c = header_block hs ++ body ->
  parse_request (http09_line p) c =
    (set_rfile (set_request (set_close c true) default_request_version "GET") body,
     Ok (Some ("GET", p, map strip_value hs))).
Proof.
  intros Hp Hwf Hc. unfold parse_request.
  rewrite (py_bind_ok _ _ c (set_request (set_close c true) default_request_version "") tt)
    by reflexivity.
  rewrite rstrip_http09 by done. unfold check_requestline. rewrite split_ws_http09 by done.
  rewrite String.eqb_refl. cbv iota beta.
  rewrite (py_bind_ok _ _ _ (set_request (set_request (set_close c true) default_request_version "")
                              default_request_version "GET") tt) by reflexivity.
  unfold py_bind. rewrite (read_message_block hs body) by (by destruct c).
  by destruct c.
Qed.

(** ** Writing on an HTTP/0.9 connection *)

(** [m] returns normally and writes nothing on an HTTP/0.9 connection. *)
Definition silent (m : PyM Conn unit) : Prop :=
  forall c, request_version c = default_request_version ->
  exists c', m c = (c', Ok tt) /\ rfile c' = rfile c /\ wfile c' = wfile c /\
    wcap c' = wcap c /\ request_version c' = request_version c.

Lemma silent_ret : silent (py_ret tt).
Proof. intros c _. exists c. auto. Qed.

Lemma silent_bind (m : PyM Conn unit) (k : unit -> PyM Conn unit) :
  silent m -> silent (k tt) -> silent (py_bind m k).
Proof.
  intros Hm Hk c Hv. destruct (Hm c Hv) as (c1 & E1 & Hr1 & Hw1 & Hc1 & Hv1).
  destruct (Hk c1) as (c2 & E2 & Hr2 & Hw2 & Hc2 & Hv2); [congruence|].
  exists c2. rewrite (py_bind_ok _ _ _ _ _ E1). split; [done|]. repeat split; congruence.
Qed.

Lemma silent_when m : silent (when_not_http09 m).
Proof.
  intros c Hv. exists c. unfold when_not_http09. rewrite Hv, String.eqb_refl. auto.
Qed.

Lemma silent_send_header k v : silent (send_header k v).
Proof.
  unfold send_header. apply silent_bind; [apply silent_when|].
  intros c Hv. repeat case_match; eexists; (split; [reflexivity|]); by destruct c.
Qed.

Create HintDb silent.
#[local] Hint Resolve silent_ret silent_bind silent_when silent_send_header : silent.

Lemma silent_send_headers hs : silent (send_headers hs).
Proof. induction hs as [|[k v] hs IH]; simpl; auto with silent. Qed.

Lemma silent_send_response code msg : silent (send_response code msg).
Proof.
  unfold send_response. apply silent_bind; [apply silent_when|].
  apply silent_bind; [apply silent_send_header|].
  intros c Hv. exact (silent_send_header "Date" (clock c) c Hv).
Qed.

(** [respond] on an HTTP/0.9 connection whose socket takes every write:
    only the body goes out. *)
Lemma respond_http09 resp c :
  request_version c = default_request_version -> wcap c = None ->
  exists c', respond resp c = (c', Ok tt) /\
    wfile c' = (wfile c ++ if String.eqb (resp_body resp) "" then [] else [WBody (resp_body resp)])%list.
Proof.
  intros Hv Hw. unfold respond.
  destruct (silent_send_response (resp_code resp) (resp_message resp) c Hv)
    as (c1 & E1 & _ & Hw1 & Hc1 & Hv1).
  rewrite (py_bind_ok _ _ _ _ _ E1).
  destruct (silent_send_headers (map_to_list (resp_headers resp)) c1) as (c2 & E2 & _ & Hw2 & Hc2 & Hv2);
    [congruence|].
  rewrite (py_bind_ok _ _ _ _ _ E2).
  destruct (silent_when (wfile_write WEndHeaders) c2) as (c3 & E3 & _ & Hw3 & Hc3 & _);
    [congruence|].
  unfold end_headers. rewrite (py_bind_ok _ _ _ _ _ E3).
  unfold write_body. destruct (String.eqb (resp_body resp) "").
  - exists c3. split; [done|]. rewrite app_nil_r. congruence.
  - unfold wfile_write. rewrite Hc3, Hc2, Hc1, Hw. eexists. split; [reflexivity|]. simpl. congruence.
Qed.

Lemma resp_body_echo rid r : resp_body (echo_request_id rid r) = resp_body r.
Proof. by destruct rid. Qed.

(** ** The round *)

(** C25 (functional): an HTTP/0.9 request is recorded but answered with
    the body alone.  When the connection carries [GET <path>] with no
    version, a well-formed header block and a body, and the request line
    fits the 65536-character limit, [handle_one_request] resolves the
    handler from those headers and records on the chain they name the
    [Handling] of the request with the handler's response, the id echoed
    into it, exactly as for an HTTP/1.x request; but the only bytes it
    writes are the response body: no status line and no header, so the
    echoed [Request-ID] never reaches the client. *)
Theorem handle_one_request_http09 ep w c p hs body :
  wf_token p = true -> forallb wf_header hs = true ->
  String.length (http09_line p) <= max_requestline ->
  rfile c = http09_line p ++ header_block hs ++ body -> wcap c = None ->
  let incoming := mkRequest "GET" p (map strip_value hs) (BFile body) in
  exists rid mc f,
    resolve_handler (map strip_value hs) w = (w, Ok (rid, mc, f)) /\
    (handle_one_request ep (w, c)).1.1 =
      (record_handling mc (mkHandling ep incoming (echo_request_id rid (f incoming))) w).1 /\
    wfile (handle_one_request ep (w, c)).1.2 =
      (wfile c ++ if String.eqb (resp_body (f incoming)) "" then []
                  else [WBody (resp_body (f incoming))])%list.
Proof.
  intros Hp Hwf Hlen Hc Hcap incoming.
  destruct (resolve_handler_pure (map strip_value hs) w) as (rid & mc & f & Hres).
  exists rid, mc, f. split; [done|].
  rewrite (handle_one_request_parsed ep w c (http09_line p) (set_rfile c (header_block hs ++ body))
             "GET" p (map strip_value hs)
             (set_rfile (set_request (set_close (set_rfile c (header_block hs ++ body)) true)
                           default_request_version "GET") body)).
  - unfold py_try. rewrite (handle_request_run _ _ _ _ _ _ _ _ _ Hres).
    change (rfile (set_rfile ?x body)) with body. fold incoming.
    destruct (respond_http09 (echo_request_id rid (f incoming))
                (set_rfile (set_request (set_close (set_rfile c (header_block hs ++ body)) true)
                              default_request_version "GET") body)) as (c3 & E & Hw3);
      [reflexivity|by destruct c|].
    rewrite E. split; [reflexivity|]. simpl. rewrite Hw3, resp_body_echo. by destruct c.
  - rewrite (rfile_readline_line _ ("GET " ++ p ++ String cr "") (header_block hs ++ body) c).
    + by rewrite <- http09_line_app, str_app_nil_r.
    + by rewrite Hc, http09_line_app.
    + rewrite !str_forall_app, (not_ws_not_nl p (wf_token_no_ws p Hp)). reflexivity.
    + pose proof (http09_line_app p "") as E. rewrite str_app_nil_r in E.
      rewrite E, str_length_app in Hlen. simpl in Hlen |- *. lia.
  - exact Hlen.
  - unfold http09_line. discriminate.
  - apply parse_request_http09; [done|done|by destruct c].
Qed.

(** ** Witness *)

(** [GET /abc] with the [Request-ID] of the chain [demo_world] registers:
    the handling is recorded, and only [handler2]'s body is written. *)
Lemma handle_one_request_http09_witness :
  let hs := [("Request-ID", "id-1")] in
  let c := demo_conn (http09_line "/abc" ++ header_block hs ++ "") None in
  let incoming := mkRequest "GET" "/abc" (map strip_value hs) (BFile "") in
  exists rid mc f,
    resolve_handler (map strip_value hs) demo_world = (demo_world, Ok (rid, mc, f)) /\
    (handle_one_request demo_ep (demo_world, c)).1.1 =
      (record_handling mc (mkHandling demo_ep incoming (echo_request_id rid (f incoming))) demo_world).1 /\
    wfile (handle_one_request demo_ep (demo_world, c)).1.2 =
      (wfile c ++ if String.eqb (resp_body (f incoming)) "" then []
                  else [WBody (resp_body (f incoming))])%list.
Proof.
  intros hs c incoming.
  apply (handle_one_request_http09 demo_ep demo_world c "/abc" hs "");
    first [reflexivity | apply Nat.leb_le; vm_compute; reflexivity].
Defined.
